(** * Persistent per-paper chat sessions of [assets/js/search.js]

    A shallow embedding of the chat-session code of the search page:
    [checkExistingChatSession] (the session resolver), [initChatModal],
    the click handler of the "ask" button, [sendQuestion] (the message
    exchange) and [updateChatSessionInSidebar], together with the small
    helpers they call.

    JavaScript values are an inductive type, objects are finite maps from
    property names to values, and every function of the source is a
    computation in a state-and-exception monad over a [World] that holds
    the browser state the code touches: [localStorage], the two context
    bindings, the chat container, the history list of the sidebar, the
    clock, the remote server and the trace of fetches and storage writes.

    What the model takes for granted:
    - an [async] function runs to completion in one piece: the page is
      single threaded and the handlers modelled here are issued one at a
      time, so every [await] is a plain sequencing point;
    - within one run the server answers equal requests equally ([remote] is
      a function of the request); between runs it may change;
    - text is a string of bytes, so lengths are those of ASCII text;
    - paper ids do not name built-in members of objects, and session ids
      contain nothing that breaks a CSS attribute selector;
    - every [.history-item] of the page is a child of [.chat-history-list]. *)

From stdpp Require Import gmap strings list pretty sorting.
From Stdlib Require Import ZArith Ascii.

Set Warnings "-register-all".
Local Open Scope Z_scope.

(** ** JavaScript values *)

(** The values that [JSON.parse] produces, plus [undefined] (the result of
    reading a property that does not exist).  Numbers are the integers;
    only their truthiness, their [typeof] and their decimal text are used. *)
Inductive value : Type :=
  | VUndefined
  | VNull
  | VBool (b : bool)
  | VNum (n : Z)
  | VStr (s : string)
  | VArr (xs : list value)
  | VObj (props : gmap string value).

(** Exceptions that the modelled code can meet. *)
Inductive exn : Type :=
  | SyntaxError          (* JSON.parse / response.json() on text that is not JSON *)
  | TypeError            (* property access on null or undefined *)
  | NetworkFailure       (* fetch rejected *)
  | QuotaExceededError.  (* localStorage.setItem refused the write *)

(** [!!v] *)
Definition truthy (v : value) : bool :=
  match v with
  | VUndefined | VNull => false
  | VBool b => b
  | VNum n => negb (n =? 0)
  | VStr s => negb (String.eqb s "")
  | VArr _ | VObj _ => true
  end.

(** [typeof v] *)
Definition typeof (v : value) : string :=
  match v with
  | VUndefined => "undefined"
  | VNull => "object"
  | VBool _ => "boolean"
  | VNum _ => "number"
  | VStr _ => "string"
  | VArr _ | VObj _ => "object"
  end.

(** [String(v)], as a template literal [`${v}`] computes it. *)
Fixpoint String_of (v : value) : string :=
  match v with
  | VUndefined => "undefined"
  | VNull => "null"
  | VBool true => "true"
  | VBool false => "false"
  | VNum n => pretty n
  | VStr s => s
  | VArr xs =>
      let element x :=
        match x with VUndefined | VNull => "" | _ => String_of x end in
      String.concat "," (map element xs)
  | VObj _ => "[object Object]"
  end.

(** [a || b] *)
Definition or_else (a b : value) : value := if truthy a then a else b.

(** A string or [null]. *)
Definition of_option (o : option string) : value :=
  match o with Some s => VStr s | None => VNull end.

(** An object literal. *)
Definition object (props : list (string * value)) : value :=
  VObj (list_to_map props).

(** ** Strings *)

(** The white space that [String.prototype.trim] removes, within ASCII:
    TAB, LF, VT, FF, CR and SPACE. *)
Definition is_whitespace (c : ascii) : bool :=
  let n := nat_of_ascii c in
  ((9 <=? n)%nat && (n <=? 13)%nat) || (n =? 32)%nat.

Fixpoint trimStart (s : string) : string :=
  match s with
  | EmptyString => EmptyString
  | String c s' => if is_whitespace c then trimStart s' else s
  end.

Fixpoint trimEnd (s : string) : string :=
  match s with
  | EmptyString => EmptyString
  | String c s' =>
      let r := trimEnd s' in
      if is_whitespace c && String.eqb r "" then EmptyString else String c r
  end.

Definition trim (s : string) : string := trimEnd (trimStart s).

(** [s.substring(0, n)] *)
Definition substring_from_0 (n : nat) (s : string) : string :=
  String.substring 0 n s.

(** ** Dates *)

(** Proleptic Gregorian date of a day number counted from 1970-01-01. *)
Definition civil_from_days (days : Z) : Z * Z * Z :=
  let z := days + 719468 in
  let era := z / 146097 in
  let doe := z - era * 146097 in
  let yoe := (doe - doe / 1460 + doe / 36524 - doe / 146096) / 365 in
  let doy := doe - (365 * yoe + yoe / 4 - yoe / 100) in
  let mp := (5 * doy + 2) / 153 in
  let d := doy - (153 * mp + 2) / 5 + 1 in
  let m := if mp <? 10 then mp + 3 else mp - 9 in
  let y := yoe + era * 400 + (if m <=? 2 then 1 else 0) in
  (y, m, d).

Fixpoint zeros (k : nat) : string :=
  match k with O => EmptyString | S k' => String "0" (zeros k') end.

Definition pad_left (width : nat) (s : string) : string :=
  zeros (width - String.length s) +:+ s.

Definition digits (width : nat) (n : Z) : string := pad_left width (pretty n).

(** [new Date(ms).toISOString()]: [ms] milliseconds since the epoch, UTC. *)
Definition toISOString (ms : Z) : string :=
  let '(y, m, d) := civil_from_days (ms / 86400000) in
  let r := ms mod 86400000 in
  let year :=
    if (0 <=? y) && (y <=? 9999) then digits 4 y
    else (if y <? 0 then "-" else "+") +:+ digits 6 (Z.abs y) in
  year +:+ "-" +:+ digits 2 m +:+ "-" +:+ digits 2 d +:+ "T" +:+
  digits 2 (r / 3600000) +:+ ":" +:+ digits 2 (r / 60000 mod 60) +:+ ":" +:+
  digits 2 (r / 1000 mod 60) +:+ "." +:+ digits 3 (r mod 1000) +:+ "Z".

(** ** The browser state *)

(** [currentPaperContext]: the object describing the paper under discussion. *)
Record Context : Type := mkContext {
  id : string;
  title : string;
  authors : string;
  abstract : string;
  pdf_url : option string;
  has_local_pdf : bool;
  chat_session_id : value;
}.

(** The fields of a search result that [initChatModal] reads. *)
Record Paper : Type := mkPaper {
  paper_authors : option string;
  paper_abstract : option string;
  paper_summary : option string;
  paper_pdf_url : option string;
}.

(** Request headers: [Authorization] is the bearer token, when there is
    one, and [X-CSRF-Token] the CSRF token, when there is one. *)
Record Headers : Type := mkHeaders {
  Authorization : option string;
  X_CSRF_Token : option value;
}.

(** The body of [POST /api/ai/question] (lines 1321-1331). *)
Record QuestionBody : Type := mkQuestionBody {
  question : string;
  paper_id : string;
  paper_title : string;
  context : Context;
  body_pdf_url : option string;
  use_full_text : bool;
  guest_mode : bool;
  session_id : value;
  force_persistent : bool;
}.

(** The four endpoints the modelled code calls.  The session id of a URL is
    the text that the template literal interpolates. *)
Inductive request : Type :=
  | GET_csrf_token
  | GET_chat_session (sessionId : string) (headers : Headers)
  | GET_paper_chat_session (paperId : string) (headers : Headers)
  | POST_question (body : QuestionBody) (headers : Headers).

(** What [fetch] does: it rejects, or it resolves to a response with a
    status and a body; the body is [None] when it is not JSON text. *)
Inductive fetch_result : Type :=
  | NetworkError
  | Response (status : nat) (body : option value).

(** [response.ok] *)
Definition ok (status : nat) : bool := (200 <=? status)%nat && (status <=? 299)%nat.

(** A string kept in [localStorage] under "chatSessions": text that
    [JSON.parse] rejects (the empty string among them), or the text
    [JSON.stringify v] of a value, which is represented by [v] itself. *)
Inductive stored : Type :=
  | NotJson (text : string)
  | Json (v : value).

(** The children of the conversation view [#chatContainer]. *)
Inductive ChatNode : Type :=
  | MessageBubble (message : value) (isUser : bool)
  | WelcomeMessage (paperTitle : string)
  | ContinueMessage (paper_title : value)
  | TypingIndicator.

(** An entry [.history-item] of the session list of the sidebar: its
    [data-session-id] attribute and the texts of its
    [.history-item-question] and [.history-item-date] children, when it has
    them. *)
Record HistoryItem : Type := mkHistoryItem {
  data_session_id : string;
  history_item_question : option string;
  history_item_date : option string;
  history_item_title : option string;
}.

(** What the trace records, in the order it happens. *)
Inductive event : Type :=
  | Fetch (r : request)
  | SetItem (key : string) (v : value).

Record World : Type := mkWorld {
  (* localStorage *)
  token : option string;
  chatSessions : option stored;
  storage_full : bool;                      (* setItem throws *)
  (* document.cookie *)
  csrf_token : option string;
  (* [let currentPaperContext] of line 25 and the property of [window] *)
  currentPaperContext : option Context;
  window_currentPaperContext : option Context;
  (* the chat modal *)
  modalQuestionInput : string;
  chatContainer : list ChatNode;
  (* the sidebar: children of [.chat-history-list], when the page has one *)
  chat_history_list : option (list HistoryItem);
  window_addChatSessionToSidebar : bool;    (* is the helper installed? *)
  (* the environment *)
  now : Z;                                  (* the clock, in ms *)
  toLocaleDateString : Z → string;          (* id-ID, day and short month *)
  remote : request → fetch_result;
  (* observations *)
  console_error : list string;
  trace : list event;
}.

Definition set_chatSessions (x : option stored) (w : World) : World :=
  mkWorld (token w) x (storage_full w) (csrf_token w)
    (currentPaperContext w) (window_currentPaperContext w)
    (modalQuestionInput w) (chatContainer w) (chat_history_list w)
    (window_addChatSessionToSidebar w) (now w) (toLocaleDateString w)
    (remote w) (console_error w) (trace w).

Definition set_token (x : option string) (w : World) : World :=
  mkWorld x (chatSessions w) (storage_full w) (csrf_token w)
    (currentPaperContext w) (window_currentPaperContext w)
    (modalQuestionInput w) (chatContainer w) (chat_history_list w)
    (window_addChatSessionToSidebar w) (now w) (toLocaleDateString w)
    (remote w) (console_error w) (trace w).

Definition set_storage_full (x : bool) (w : World) : World :=
  mkWorld (token w) (chatSessions w) x (csrf_token w)
    (currentPaperContext w) (window_currentPaperContext w)
    (modalQuestionInput w) (chatContainer w) (chat_history_list w)
    (window_addChatSessionToSidebar w) (now w) (toLocaleDateString w)
    (remote w) (console_error w) (trace w).

Definition set_now (x : Z) (w : World) : World :=
  mkWorld (token w) (chatSessions w) (storage_full w) (csrf_token w)
    (currentPaperContext w) (window_currentPaperContext w)
    (modalQuestionInput w) (chatContainer w) (chat_history_list w)
    (window_addChatSessionToSidebar w) x (toLocaleDateString w)
    (remote w) (console_error w) (trace w).

Definition set_remote (x : request → fetch_result) (w : World) : World :=
  mkWorld (token w) (chatSessions w) (storage_full w) (csrf_token w)
    (currentPaperContext w) (window_currentPaperContext w)
    (modalQuestionInput w) (chatContainer w) (chat_history_list w)
    (window_addChatSessionToSidebar w) (now w) (toLocaleDateString w)
    x (console_error w) (trace w).

Definition set_currentPaperContext (x : option Context) (w : World) : World :=
  mkWorld (token w) (chatSessions w) (storage_full w) (csrf_token w)
    x (window_currentPaperContext w)
    (modalQuestionInput w) (chatContainer w) (chat_history_list w)
    (window_addChatSessionToSidebar w) (now w) (toLocaleDateString w)
    (remote w) (console_error w) (trace w).

Definition set_window_currentPaperContext (x : option Context) (w : World) : World :=
  mkWorld (token w) (chatSessions w) (storage_full w) (csrf_token w)
    (currentPaperContext w) x
    (modalQuestionInput w) (chatContainer w) (chat_history_list w)
    (window_addChatSessionToSidebar w) (now w) (toLocaleDateString w)
    (remote w) (console_error w) (trace w).

Definition set_modalQuestionInput (x : string) (w : World) : World :=
  mkWorld (token w) (chatSessions w) (storage_full w) (csrf_token w)
    (currentPaperContext w) (window_currentPaperContext w)
    x (chatContainer w) (chat_history_list w)
    (window_addChatSessionToSidebar w) (now w) (toLocaleDateString w)
    (remote w) (console_error w) (trace w).

Definition set_chatContainer (x : list ChatNode) (w : World) : World :=
  mkWorld (token w) (chatSessions w) (storage_full w) (csrf_token w)
    (currentPaperContext w) (window_currentPaperContext w)
    (modalQuestionInput w) x (chat_history_list w)
    (window_addChatSessionToSidebar w) (now w) (toLocaleDateString w)
    (remote w) (console_error w) (trace w).

Definition set_chat_history_list (x : option (list HistoryItem)) (w : World) : World :=
  mkWorld (token w) (chatSessions w) (storage_full w) (csrf_token w)
    (currentPaperContext w) (window_currentPaperContext w)
    (modalQuestionInput w) (chatContainer w) x
    (window_addChatSessionToSidebar w) (now w) (toLocaleDateString w)
    (remote w) (console_error w) (trace w).

Definition set_console_error (x : list string) (w : World) : World :=
  mkWorld (token w) (chatSessions w) (storage_full w) (csrf_token w)
    (currentPaperContext w) (window_currentPaperContext w)
    (modalQuestionInput w) (chatContainer w) (chat_history_list w)
    (window_addChatSessionToSidebar w) (now w) (toLocaleDateString w)
    (remote w) x (trace w).

Definition set_trace (x : list event) (w : World) : World :=
  mkWorld (token w) (chatSessions w) (storage_full w) (csrf_token w)
    (currentPaperContext w) (window_currentPaperContext w)
    (modalQuestionInput w) (chatContainer w) (chat_history_list w)
    (window_addChatSessionToSidebar w) (now w) (toLocaleDateString w)
    (remote w) (console_error w) x.

(** ** The monad of handlers *)

(** A run ends by returning a result or by throwing, in a new world. *)
Inductive Outcome (A : Type) : Type :=
  | Returned (a : A) (w : World)
  | Thrown (e : exn) (w : World).
Arguments Returned {A} a w.
Arguments Thrown {A} e w.

Definition M (A : Type) : Type := World → Outcome A.

#[global] Instance M_ret : MRet M := λ A a w, Returned a w.

#[global] Instance M_bind : MBind M := λ A B f m w,
  match m w with
  | Returned a w' => f a w'
  | Thrown e w' => Thrown e w'
  end.

#[global] Instance M_throw : MThrow exn M := λ A e w, Thrown e w.

(** [try { body } catch (error) { handler }] *)
Definition try_catch {A} (body : M A) (handler : exn → M A) : M A := λ w,
  match body w with
  | Returned a w' => Returned a w'
  | Thrown e w' => handler e w'
  end.

Definition get {A} (field : World → A) : M A := λ w, Returned (field w) w.
Definition modify (f : World → World) : M unit := λ w, Returned tt (f w).

Definition log (e : event) : M unit :=
  modify (λ w, set_trace (trace w ++ [e]) w).

(** [console.error(message, ...)]; the informational [console.log] calls of
    the source are left out. *)
Definition console_error_ (message : string) : M unit :=
  modify (λ w, set_console_error (console_error w ++ [message]) w).

(** ** Property access *)

(** [o[k]] and [o.k] on a value that is neither [null] nor [undefined].
    Reading from a primitive or an array gives [undefined]: the keys the
    code reads are paper ids and field names, taken not to be array indices
    or names of built-in members. *)
Definition own_prop (o : value) (k : string) : value :=
  match o with
  | VObj props => default VUndefined (props !! k)
  | _ => VUndefined
  end.

(** [o[k]] and [o.k]: reading from [null] or [undefined] throws. *)
Definition get_prop (o : value) (k : string) : M value :=
  match o with
  | VUndefined | VNull => mthrow TypeError
  | _ => mret (own_prop o k)
  end.

(** [o[k] = v]: an own property of an object; lost on a primitive, and on
    an array not part of what [JSON.stringify] writes. *)
Definition set_prop (o : value) (k : string) (v : value) : M value :=
  match o with
  | VUndefined | VNull => mthrow TypeError
  | VObj props => mret (VObj (<[k := v]> props))
  | _ => mret o
  end.

(** [delete o[k]] *)
Definition delete_prop (o : value) (k : string) : M value :=
  match o with
  | VUndefined | VNull => mthrow TypeError
  | VObj props => mret (VObj (delete k props))
  | _ => mret o
  end.

(** ** Browser primitives *)

(** [localStorage.getItem("token")] (line 18). *)
Definition getToken : M (option string) := get token.

(** [!!localStorage.getItem("token")] (line 22). *)
Definition isUserLoggedIn : M bool :=
  t ← getToken; mret (truthy (of_option t)).

(** [JSON.parse(text)] *)
Definition JSON_parse (item : stored) : M value :=
  match item with
  | NotJson _ => mthrow SyntaxError
  | Json v => mret v
  end.

(** [JSON.parse(localStorage.getItem("chatSessions") || "{}")] (lines
    1357, 1854 and 1925): a missing item and the empty string are falsy. *)
Definition parse_chatSessions : M value :=
  item ← get chatSessions;
  match item with
  | None | Some (NotJson "") => JSON_parse (Json (object []))
  | Some text => JSON_parse text
  end.

(** [localStorage.setItem("chatSessions", JSON.stringify(v))] *)
Definition setItem_chatSessions (v : value) : M unit :=
  full ← get storage_full;
  if full : bool then mthrow QuotaExceededError
  else modify (set_chatSessions (Some (Json v)));; log (SetItem "chatSessions" v).

(** [fetch(...)]: the request is recorded, then the server answers. *)
Definition fetch (r : request) : M (nat * option value) :=
  log (Fetch r);;
  server ← get remote;
  match server r with
  | NetworkError => mthrow NetworkFailure
  | Response status body => mret (status, body)
  end.

(** [response.json()] *)
Definition json (response : nat * option value) : M value :=
  match response.2 with
  | None => mthrow SyntaxError
  | Some data => mret data
  end.

(** The headers built at lines 1310-1318, 1952-1954, 1982-1984, 2025-2027. *)
Definition headers_of (t : option string) (csrf : value) : Headers :=
  {| Authorization := if truthy (of_option t) then t else None;
     X_CSRF_Token := if truthy csrf then Some csrf else None |}.

Definition headers_with (csrf : value) : M Headers :=
  t ← getToken; mret (headers_of t csrf).

(** [getCookie("csrf_token")] (lines 55-60): the cookie, or [null]. *)
Definition getCookie_csrf_token : M value :=
  cookie ← get csrf_token; mret (of_option cookie).

(** [ensureCsrfToken] (lines 35-52). *)
Definition ensureCsrfToken : M value :=
  csrfToken ← getCookie_csrf_token;
  if negb (truthy csrfToken) then
    try_catch
      (response ← fetch GET_csrf_token;
       if ok response.1 then
         data ← json response;
         get_prop data "csrf_token"
       else mret csrfToken)
      (λ _, console_error_ "Error fetching CSRF token:";; mret csrfToken)
  else mret csrfToken.

(** ** The conversation view *)

(** [addMessageToChat] (lines 1246-1261): a bubble is appended; the markup
    that [formatChatMessage] produces for an answer is not modelled. *)
Definition addMessageToChat (message : value) (isUser : bool) : M unit :=
  modify (λ w, set_chatContainer (chatContainer w ++ [MessageBubble message isUser]) w).

(** [showTypingIndicator] (lines 1264-1275). *)
Definition showTypingIndicator : M unit :=
  modify (λ w, set_chatContainer (chatContainer w ++ [TypingIndicator]) w).

Fixpoint remove_indicator (nodes : list ChatNode) : list ChatNode :=
  match nodes with
  | [] => []
  | TypingIndicator :: rest => rest
  | node :: rest => node :: remove_indicator rest
  end.

(** [removeTypingIndicator] (lines 1278-1283): the first element with the
    indicator's id is removed, when there is one. *)
Definition removeTypingIndicator : M unit :=
  modify (λ w, set_chatContainer (remove_indicator (chatContainer w)) w).

(** [xs.forEach(f)]; anything but an array has no such method. *)
Fixpoint forEach_list (xs : list value) (f : value → M unit) : M unit :=
  match xs with
  | [] => mret tt
  | x :: rest => f x;; forEach_list rest f
  end.

Definition forEach (xs : value) (f : value → M unit) : M unit :=
  match xs with
  | VArr items => forEach_list items f
  | _ => mthrow TypeError
  end.

(** The callback of lines 2047-2049. *)
Definition addHistoryMessage (msg : value) : M unit :=
  message ← get_prop msg "message";
  is_user ← get_prop msg "is_user";
  addMessageToChat message (truthy is_user).

(** [loadChatHistory] (lines 2023-2067).  The welcome text of the failure
    branch reads [currentPaperContext.title], the binding of line 25. *)
Definition loadChatHistory (sessionId : value) : M unit :=
  try_catch
    (headers ← headers_with VUndefined;
     response ← fetch (GET_chat_session (String_of sessionId) headers);
     if ok response.1 then
       data ← json response;
       paper_title ← get_prop data "paper_title";
       modify (λ w, set_chatContainer (chatContainer w ++ [ContinueMessage paper_title]) w);;
       messages ← get_prop data "messages";
       forEach messages addHistoryMessage
     else
       console_error_ "Error loading chat history";;
       ctx ← get currentPaperContext;
       match ctx with
       | None => mthrow TypeError
       | Some c => modify (set_chatContainer [WelcomeMessage (title c)])
       end)
    (λ _, console_error_ "Error loading chat history:").

(** ** The Local Session Index *)

(** The session id that an entry of the index holds, as lines 1862-1877 of
    [initChatModal] and lines 1932-1942 of [checkExistingChatSession] read
    it: a record with a truthy [sessionId], or a bare number or string
    (legacy format); [null] otherwise. *)
Definition sessionId_of_entry (entry : value) : value :=
  if String.eqb (typeof entry) "object" && truthy (own_prop entry "sessionId")
  then own_prop entry "sessionId"
  else if String.eqb (typeof entry) "number" || String.eqb (typeof entry) "string"
  then entry
  else VNull.

(** [if (savedSessions[paperId]) { ... }] (lines 1861 and 1929). *)
Definition cachedSessionId (savedSessions : value) (paperId : string) : M value :=
  entry ← get_prop savedSessions paperId;
  if truthy entry then mret (sessionId_of_entry entry) else mret VNull.

(** [a || ""] and [a || null] on a string that may be missing. *)
Definition or_empty (a : option string) : string := default "" a.
Definition or_null (a : option string) : option string :=
  match a with Some "" => None | _ => a end.

(** The object literal of lines 1881-1889. *)
Definition new_context (paper : Paper) (paperId paperTitle : string)
    (existingSessionId : value) : Context :=
  {| id := paperId;
     title := paperTitle;
     authors := or_empty (paper_authors paper);
     abstract := or_empty (or_null (paper_abstract paper) ∪ paper_summary paper);
     pdf_url := or_null (paper_pdf_url paper);
     has_local_pdf := false;
     chat_session_id := existingSessionId |}.

(** [initChatModal] (lines 1846-1919).  The context is assigned to
    [window.currentPaperContext].  [loadChatHistory] is started without
    [await]; its completion touches only the chat container, so it is run in
    place.  The PDF check that [setTimeout] defers is not part of the call. *)
Definition initChatModal (paper : Paper) (paperId paperTitle : string) : M unit :=
  modify (set_chatContainer []);;
  savedSessions ← parse_chatSessions;
  existingSessionId ← cachedSessionId savedSessions paperId;
  modify (set_window_currentPaperContext
            (Some (new_context paper paperId paperTitle existingSessionId)));;
  logged ← isUserLoggedIn;
  (if truthy existingSessionId && logged then loadChatHistory existingSessionId
   else modify (set_chatContainer [WelcomeMessage paperTitle]));;
  modify (set_modalQuestionInput "").

(** The record that resolution caches (lines 1997-2002). *)
Definition resolved_record (paperId : string) (data_session_id data_paper_title : value) : value :=
  object [("sessionId", data_session_id);
          ("title", or_else data_paper_title (VStr "Unknown Paper"));
          ("paperId", VStr paperId);
          ("persistentSession", VBool true)].

(** Lines 1929-1978 of [checkExistingChatSession]: the cached session id
    is verified with the server.  The block ends the function with
    [inl sessionId] (line 1967) or goes on to line 1980 with
    [inr savedSessions].

    The [try] block of lines 1951-1976 is entered in two parts, the request
    and the eviction, each with the handler of line 1974: [savedSessions] is
    an object that [delete] changes in place, so the lookup that follows
    works on the changed object also when the write of line 1972 throws. *)
Definition verifyCachedSession (paperId : string) (savedSessions : value)
    : M (value + value) :=
  sessionId ← cachedSessionId savedSessions paperId;
  if truthy sessionId then
    verifyResponse ←
      try_catch
        (headers ← headers_with VUndefined;
         response ← fetch (GET_chat_session (String_of sessionId) headers);
         mret (Some response))
        (λ _, console_error_ "Error verifying persistent session:";; mret None);
    match verifyResponse with
    | Some response =>
        if ok response.1 then mret (inl sessionId)
        else
          savedSessions' ← delete_prop savedSessions paperId;
          try_catch
            (setItem_chatSessions savedSessions')
            (λ _, console_error_ "Error verifying persistent session:");;
          mret (inr savedSessions')
    | None => mret (inr savedSessions)
    end
  else mret (inr savedSessions).

(** Lines 1980-2019 of [checkExistingChatSession]: the server is asked for
    a session of the paper; a session that it reports is cached. *)
Definition lookupSessionOfPaper (paperId : string) (savedSessions : value) : M value :=
  try_catch
    (headers ← headers_with VUndefined;
     response ← fetch (GET_paper_chat_session paperId headers);
     if ok response.1 then
       data ← json response;
       data_session_id ← get_prop data "session_id";
       if truthy data_session_id then
         data_paper_title ← get_prop data "paper_title";
         savedSessions' ← set_prop savedSessions paperId
           (resolved_record paperId data_session_id data_paper_title);
         setItem_chatSessions savedSessions';;
         mret data_session_id
       else mret VNull
     else mret VNull)
    (λ _, console_error_ "Error checking existing chat session:";; mret VNull).

(** [checkExistingChatSession] (lines 1921-2020). *)
Definition checkExistingChatSession (paperId : string) : M value :=
  logged ← isUserLoggedIn;
  if negb logged then mret VNull else
  savedSessions ← parse_chatSessions;
  verification ← verifyCachedSession paperId savedSessions;
  match verification with
  | inl sessionId => mret sessionId
  | inr savedSessions => lookupSessionOfPaper paperId savedSessions
  end.

(** The click handler of the "ask" button (lines 1022-1056).
    [openChatSession] is defined outside this file and is a parameter;
    [paperId] is [paper.id], or the random id that replaces a missing one.
    The title of the modal, showing it and focusing the input are not
    modelled. *)
Definition askBtn_click (openChatSession : value → M unit)
    (paper : Paper) (paperId paperTitle : string) : M unit :=
  logged ← isUserLoggedIn;
  opened ←
    (if logged : bool then
       existingSessionId ← checkExistingChatSession paperId;
       if truthy existingSessionId then openChatSession existingSessionId;; mret true
       else mret false
     else mret false);
  if opened : bool then mret tt
  else initChatModal paper paperId paperTitle.

(** ** The session list of the sidebar *)

(** Modelled from the spec: [window.addChatSessionToSidebar] is installed
    by a script that is not among the sources.  §4.4: "If [isNewSession] is
    true: the on-screen session list gains a new entry at the head"; §6
    names what the entry is made of, [onNewSession(sessionId, preview,
    title)].  The call of lines 1374-1380 passes the session id, the
    question, the paper title, the current date and [true]. *)
Definition addChatSessionToSidebar (sessionId : value) (preview paperTitle : string)
    (timestamp : Z) (persistent : bool) : M unit :=
  historyList ← get chat_history_list;
  match historyList with
  | None => mret tt
  | Some items =>
      format ← get toLocaleDateString;
      modify (set_chat_history_list (Some (
        {| data_session_id := String_of sessionId;
           history_item_question := Some preview;
           history_item_date := Some (format timestamp);
           history_item_title := Some paperTitle |} :: items)))
  end.

(** [latestQuestion.length > 40 ? latestQuestion.substring(0, 40) + "..." :
    latestQuestion] (lines 2436-2439). *)
Definition shortQuestion (latestQuestion : string) : string :=
  if (40 <? String.length latestQuestion)%nat
  then substring_from_0 40 latestQuestion +:+ "..."
  else latestQuestion.

(** [updateChatSessionInSidebar] (lines 2423-2461).  The entries are the
    children of [.chat-history-list]; the selector finds the first one with
    the session id, its question and date are rewritten when it has these
    children, and it is moved in front of the first child. *)
Definition updateChatSessionInSidebar (sessionId : value) (latestQuestion : string) : M unit :=
  historyList ← get chat_history_list;
  match historyList with
  | None => mret tt
  | Some items =>
      match list_find (λ item, data_session_id item = String_of sessionId) items with
      | None => mret tt
      | Some (i, historyItem) =>
          format ← get toLocaleDateString;
          date ← get now;
          let updated :=
            {| data_session_id := data_session_id historyItem;
               history_item_question :=
                 (λ _, shortQuestion latestQuestion) <$> history_item_question historyItem;
               history_item_date :=
                 (λ _, format date) <$> history_item_date historyItem;
               history_item_title := history_item_title historyItem |} in
          modify (set_chat_history_list (Some (updated :: delete i items)))
      end
  end.

(** ** The message exchange *)

(** The record that an exchange caches (lines 1361-1367). *)
Definition exchange_record (ctx : Context) (data_session_id : value) (date : Z) : value :=
  object [("sessionId", data_session_id);
          ("title", VStr (title ctx));
          ("paperId", VStr (id ctx));
          ("persistentSession", VBool true);
          ("lastUsed", VStr (toISOString date))].

(** Lines 1371-1385 of [sendQuestion]: the session list of the sidebar
    follows the exchange, for a logged-in user only. *)
Definition updateSidebar (data_session_id is_new_session : value)
    (question : string) (ctx : Context) : M unit :=
  logged ← isUserLoggedIn;
  if truthy is_new_session && logged then
    installed ← get window_addChatSessionToSidebar;
    if installed : bool then
      date ← get now;
      addChatSessionToSidebar data_session_id question (title ctx) date true
    else mret tt
  else if logged then
    updateChatSessionInSidebar data_session_id question
  else mret tt.

(** [sendQuestion] (lines 1292-1422).  [currentPaperContext] is the binding
    of line 25, not the property of [window] that [initChatModal] assigns.
    The reminder for guests that [setTimeout] defers (lines 1391-1411) is
    not part of the call. *)
Definition sendQuestion : M unit :=
  input ← get modalQuestionInput;
  let question := trim input in
  ctx ← get currentPaperContext;
  match ctx with
  | None => mret tt
  | Some ctx =>
      if String.eqb question "" then mret tt else
      addMessageToChat (VStr question) true;;
      modify (set_modalQuestionInput "");;
      showTypingIndicator;;
      try_catch
        (csrfToken ← ensureCsrfToken;
         headers ← headers_with csrfToken;
         logged ← isUserLoggedIn;
         let requestBody :=
           {| question := question;
              paper_id := id ctx;
              paper_title := title ctx;
              context := ctx;
              body_pdf_url := pdf_url ctx;
              use_full_text := true;
              guest_mode := negb logged;
              session_id := or_else (chat_session_id ctx) VNull;
              force_persistent := true |} in
         response ← fetch (POST_question requestBody headers);
         removeTypingIndicator;;
         if ok response.1 then
           data ← json response;
           used_pdf ← get_prop data "used_pdf";
           answer ← get_prop data "answer";
           addMessageToChat
             (if truthy used_pdf then VStr (String_of answer) else answer) false;;
           data_session_id ← get_prop data "session_id";
           if truthy data_session_id then
             modify (set_currentPaperContext (Some
               (mkContext (id ctx) (title ctx) (authors ctx) (abstract ctx)
                  (pdf_url ctx) (has_local_pdf ctx) data_session_id)));;
             savedSessions ← parse_chatSessions;
             date ← get now;
             savedSessions' ← set_prop savedSessions (id ctx)
               (exchange_record ctx data_session_id date);
             setItem_chatSessions savedSessions';;
             is_new_session ← get_prop data "is_new_session";
             updateSidebar data_session_id is_new_session question ctx
           else mret tt
         else
           addMessageToChat
             (VStr "Maaf, terjadi kesalahan dalam memproses pertanyaan Anda.") false)
        (λ _,
           removeTypingIndicator;;
           addMessageToChat (VStr "Terjadi kesalahan jaringan. Silakan coba lagi.") false;;
           console_error_ "Error asking question:")
  end.
(** * Vocabulary of the properties *)

(** The world in which a run ends. *)
Definition world_of {A} (o : Outcome A) : World :=
  match o with Returned _ w | Thrown _ w => w end.

(** [isUserLoggedIn()] *)
Definition logged_in (w : World) : bool := truthy (of_option (token w)).

(** The Local Session Index, when the stored blob is one: nothing stored
    (or the empty string) reads as the empty index, the text of a JSON
    object as that object; anything else is not an index. *)
Definition index_of (w : World) : option (gmap string value) :=
  match chatSessions w with
  | None | Some (NotJson "") => Some ∅
  | Some (Json (VObj m)) => Some m
  | _ => None
  end.

(** What [JSON.parse(localStorage.getItem("chatSessions") || "{}")] gives,
    [None] when it throws. *)
Definition parsed (blob : option stored) : option value :=
  match blob with
  | None | Some (NotJson "") => Some (object [])
  | Some (NotJson _) => None
  | Some (Json v) => Some v
  end.

(** The session id that the index caches for a paper, [null] if none. *)
Definition cached (m : gmap string value) (paperId : string) : value :=
  let entry := default VUndefined (m !! paperId) in
  if truthy entry then sessionId_of_entry entry else VNull.

(** The two requests of resolution. *)
Definition verify_request (w : World) (sessionId : value) : request :=
  GET_chat_session (String_of sessionId) (headers_of (token w) VUndefined).

Definition lookup_request (w : World) (paperId : string) : request :=
  GET_paper_chat_session paperId (headers_of (token w) VUndefined).

(** What a lookup by paper id found: the session id and the paper title of
    a successful response that carries a session id. *)
Definition found (r : fetch_result) : option (value * value) :=
  match r with
  | Response status (Some data) =>
      if ok status && truthy (own_prop data "session_id")
      then Some (own_prop data "session_id", own_prop data "paper_title")
      else None
  | _ => None
  end.

(** The server confirms the cached session id of the paper. *)
Definition confirmed (w : World) (m : gmap string value) (paperId : string) : bool :=
  truthy (cached m paperId) &&
  match remote w (verify_request w (cached m paperId)) with
  | Response status _ => ok status
  | NetworkError => false
  end.

(** The server answers the verification of the cached session id with a
    failure status. *)
Definition stale (w : World) (m : gmap string value) (paperId : string) : bool :=
  truthy (cached m paperId) &&
  match remote w (verify_request w (cached m paperId)) with
  | Response status _ => negb (ok status)
  | NetworkError => false
  end.

(** A run of the resolver that returns [result], leaves [blob] in
    [localStorage] and adds [events] to the trace; nothing else changes but
    the console. *)
Definition resolves (w : World) (paperId : string)
    (result : value) (blob : option stored) (events : list event) : Prop :=
  ∃ errors,
    checkExistingChatSession paperId w =
    Returned result
      (set_console_error errors
         (set_trace (trace w ++ events) (set_chatSessions blob w))).

(** The server fails every question: the request is rejected or answered
    with a status outside 200-299. *)
Definition exchange_fails (w : World) : Prop :=
  ∀ body headers,
    match remote w (POST_question body headers) with
    | NetworkError => True
    | Response status _ => ok status = false
    end.

(** The server answers every question with [data] and a success status. *)
Definition exchange_answers (w : World) (data : value) : Prop :=
  ∀ body headers,
    ∃ status,
      remote w (POST_question body headers) = Response status (Some data) ∧
      ok status = true.

(** The context after an exchange that returned [sessionId]. *)
Definition with_session (ctx : Context) (sessionId : value) : Context :=
  mkContext (id ctx) (title ctx) (authors ctx) (abstract ctx)
    (pdf_url ctx) (has_local_pdf ctx) sessionId.

(** The page after an exchange: the context and the stored blob are as
    given, the input is cleared, and the conversation view, the console and
    the trace have moved on. *)
Definition after_exchange (w : World) (ctx : option Context) (blob : option stored)
    (nodes : list ChatNode) (errors : list string) (events : list event) : World :=
  {| token := token w;
     chatSessions := blob;
     storage_full := storage_full w;
     csrf_token := csrf_token w;
     currentPaperContext := ctx;
     window_currentPaperContext := window_currentPaperContext w;
     modalQuestionInput := "";
     chatContainer := nodes;
     chat_history_list := chat_history_list w;
     window_addChatSessionToSidebar := window_addChatSessionToSidebar w;
     now := now w;
     toLocaleDateString := toLocaleDateString w;
     remote := remote w;
     console_error := errors;
     trace := events |}.

(** The page after [initChatModal]: the property of [window] holds the new
    context, the input is cleared, and the conversation view, the console
    and the trace have moved on. *)
Definition after_open (w : World) (ctx : Context)
    (nodes : list ChatNode) (errors : list string) (events : list event) : World :=
  {| token := token w;
     chatSessions := chatSessions w;
     storage_full := storage_full w;
     csrf_token := csrf_token w;
     currentPaperContext := currentPaperContext w;
     window_currentPaperContext := Some ctx;
     modalQuestionInput := "";
     chatContainer := nodes;
     chat_history_list := chat_history_list w;
     window_addChatSessionToSidebar := window_addChatSessionToSidebar w;
     now := now w;
     toLocaleDateString := toLocaleDateString w;
     remote := remote w;
     console_error := errors;
     trace := events |}.

(** [o[k] = v] on a value that is neither [null] nor [undefined]. *)
Definition put_prop (o : value) (k : string) (v : value) : value :=
  match o with
  | VObj props => VObj (<[k := v]> props)
  | _ => o
  end.

Definition network_failure_message : string :=
  "Terjadi kesalahan jaringan. Silakan coba lagi.".
Definition server_failure_message : string :=
  "Maaf, terjadi kesalahan dalam memproses pertanyaan Anda.".

(** Inputs made of white space only. *)
Fixpoint whitespace_only (s : string) : bool :=
  match s with
  | EmptyString => true
  | String c s' => is_whitespace c && whitespace_only s'
  end.

(** The [lastUsed] text of the record that the index holds for a paper. *)
Definition lastUsed_of (w : World) (paperId : string) : option string :=
  m ← index_of w;
  entry ← m !! paperId;
  match own_prop entry "lastUsed" with
  | VStr s => Some s
  | _ => None
  end.

(** A visit of the user: a text is typed and sent while the clock reads
    [clock] and the server behaves as [server]. *)
Record Visit : Type := mkVisit {
  typed : string;
  clock : Z;
  server : request → fetch_result;
}.

Definition exchange (w : World) (v : Visit) : World :=
  world_of (sendQuestion
    (set_modalQuestionInput (typed v) (set_now (clock v) (set_remote (server v) w)))).

(** A sequence of message exchanges. *)
Definition exchanges (vs : list Visit) (w : World) : World := foldl exchange w vs.

(** The record of the paper is stamped with the instant [t]. *)
Definition stamped (w : World) (paperId : string) (t : Z) : Prop :=
  lastUsed_of w paperId = Some (toISOString t).

(** The clock readings of the visits never go back, starting from [t]. *)
Fixpoint nondecreasing_from (t : Z) (vs : list Visit) : Prop :=
  match vs with
  | [] => True
  | v :: vs' => t ≤ clock v ∧ nondecreasing_from (clock v) vs'
  end.

(** The last clock reading of the visits, [t] when there is none. *)
Definition last_clock (t : Z) (vs : list Visit) : Z :=
  foldl (λ _ v, clock v) t vs.

(** The entries of the session list that belong to a session id. *)
Definition entries_of (sessionId : string) (items : list HistoryItem) : list HistoryItem :=
  filter (λ item, data_session_id item = sessionId) items.

(** ** Scenarios *)

Definition no_server : request → fetch_result := λ _, NetworkError.

(** A fresh page of a logged-in user. *)
Definition fresh_page (server : request → fetch_result) : World :=
  {| token := Some "jwt";
     chatSessions := None;
     storage_full := false;
     csrf_token := Some "csrf";
     currentPaperContext := None;
     window_currentPaperContext := None;
     modalQuestionInput := "";
     chatContainer := [];
     chat_history_list := Some [];
     window_addChatSessionToSidebar := true;
     now := 0;
     toLocaleDateString := λ _, "1 Jan";
     remote := server;
     console_error := [];
     trace := [] |}.

Definition paper_P1 : Context :=
  {| id := "P1"; title := "Paper one"; authors := ""; abstract := "";
     pdf_url := None; has_local_pdf := false; chat_session_id := VNull |}.

(** A page on which a question about P1 has been typed. *)
Definition asking (input : string) (server : request → fetch_result) : World :=
  set_modalQuestionInput input
    (set_currentPaperContext (Some paper_P1) (fresh_page server)).

(** A server that answers every question with session S1. *)
Definition answer_S1 (is_new_session : bool) : value :=
  object [("answer", VStr "An answer.");
          ("session_id", VStr "S1");
          ("is_new_session", VBool is_new_session)].

Definition server_S1 (is_new_session : bool) : request → fetch_result := λ r,
  match r with
  | POST_question _ _ => Response 200 (Some (answer_S1 is_new_session))
  | _ => NetworkError
  end.

(** The index caches session S2 for paper P2 and the server confirms it
    (§8 of the specification). *)
Definition index_P2 : gmap string value :=
  {[ "P2" := object [("sessionId", VStr "S2")] ]}.

Definition server_P2 : request → fetch_result := λ r,
  match r with
  | GET_chat_session "S2" _ =>
      Response 200 (Some (object [("paper_title", VStr "Paper two");
                                  ("messages", VArr [])]))
  | _ => NetworkError
  end.

Definition page_P2 : World :=
  set_chatSessions (Some (Json (VObj index_P2))) (fresh_page server_P2).

(** The index caches session S3 for paper P3; the server has forgotten S3
    and knows session S4 of P3 (§8 of the specification). *)
Definition index_P3 : gmap string value :=
  {[ "P3" := object [("sessionId", VStr "S3")] ]}.

(** The server fails the verification of S3 with a server error, and the
    network is down for everything else. *)
Definition server_error_P3 : request → fetch_result := λ r,
  match r with
  | GET_chat_session "S3" _ => Response 500 None
  | _ => NetworkError
  end.

Definition server_P3 : request → fetch_result := λ r,
  match r with
  | GET_chat_session "S3" _ => Response 404 None
  | GET_paper_chat_session "P3" _ =>
      Response 200 (Some (object [("session_id", VStr "S4");
                                  ("paper_title", VStr "Paper three")]))
  | _ => NetworkError
  end.

Definition page_P3 : World :=
  set_chatSessions (Some (Json (VObj index_P3))) (fresh_page server_P3).

Definition page_P3_server_error : World :=
  set_chatSessions (Some (Json (VObj index_P3))) (fresh_page server_error_P3).

Definition page_P3_offline : World :=
  set_chatSessions (Some (Json (VObj index_P3))) (fresh_page no_server).

(** The store refuses every write. *)
Definition unwritable_page : World :=
  set_storage_full true (asking "Why?" (server_S1 true)).

(** A guest asks about P1. *)
Definition guest_page : World := set_token None (asking "Why?" (server_S1 true)).

(** The stored blob is not JSON. *)
Definition garbled_page : World :=
  set_chatSessions (Some (NotJson "{oops")) (fresh_page no_server).

(** A search result without metadata. *)
Definition search_result : Paper :=
  {| paper_authors := None; paper_abstract := None;
     paper_summary := None; paper_pdf_url := None |}.

(** A conversation about P1 is under way.  The user, logged in, has opened
    the view for P1 (nothing was cached, and the server rejects every GET),
    has asked a question and has been answered in session S1. *)
Definition just_opened : World :=
  world_of (askBtn_click (λ _, mret tt) search_result "P1" "Paper one"
              (set_currentPaperContext (Some paper_P1)
                 (fresh_page (server_S1 true)))).

Definition active_page : World :=
  world_of (sendQuestion (set_modalQuestionInput "Why?" just_opened)).

Definition index_P1 : gmap string value :=
  {[ "P1" := exchange_record paper_P1 (VStr "S1") 0 ]}.

(** The session list shows an older session S0 above session S1. *)
Definition entry_S0 : HistoryItem :=
  {| data_session_id := "S0";
     history_item_question := Some "What is the method?";
     history_item_date := Some "30 Des";
     history_item_title := Some "Paper zero" |}.

Definition entry_S1 : HistoryItem :=
  {| data_session_id := "S1";
     history_item_question := Some "What are the findings?";
     history_item_date := Some "31 Des";
     history_item_title := Some "Paper one" |}.

Definition sidebar_page : World :=
  set_chat_history_list (Some [entry_S0; entry_S1])
    (asking "Why?" (server_S1 false)).

(** Two questions about P1; the clock of the device is set back by a
    second between them. *)
Definition first_visit : Visit :=
  {| typed := "Why?"; clock := 2000; server := server_S1 true |}.

Definition second_visit : Visit :=
  {| typed := "How?"; clock := 1000; server := server_S1 false |}.

Definition third_visit : Visit :=
  {| typed := "And then?"; clock := 3000; server := server_S1 false |}.

Definition reading_P1 : World :=
  set_currentPaperContext (Some paper_P1) (fresh_page no_server).

(** The record of P1 carries the stamp of a first exchange, at 1000 ms. *)
Definition stamped_page : World := exchange reading_P1 second_visit.

(** * The result list of [assets/js/search.js]

    The code that shows the results of a search: [displayResults] with the
    year options of [updateYearFilterOptions], [filterPapers] and the click
    handlers that call it, [resetAllFilters], [setupPagination], [showPage],
    [updatePaginationUI] and [createPaperElement].  It works on the
    variables of lines 26-32 and on a few elements of the page, which form
    the state [Listing]; as above a function of the source is a computation
    in a state-and-exception monad.

    What the model takes for granted, besides the above:
    - [toLowerCase] maps the letters A-Z and leaves every other character,
      and the white space that [parseInt] skips is that of [trim];
    - a card of the result list is represented by its paper and the class of
      its source; its markup, the buttons and their handlers are not part of
      the state, and neither are the areas that are only shown or hidden,
      the text beside the year button, the reset button and the list of
      suggested queries ([data.suggested_queries] is an array when present);
    - [.pagination-container] and [.pagination] are on the page together or
      not at all, and the markup of the page puts nothing into [.pagination]. *)

(** ** More of [String.prototype] *)

Definition lower (c : ascii) : ascii :=
  let n := nat_of_ascii c in
  if (65 <=? n)%nat && (n <=? 90)%nat then ascii_of_nat (n + 32) else c.

(** [s.toLowerCase()] *)
Fixpoint toLowerCase (s : string) : string :=
  match s with
  | EmptyString => EmptyString
  | String c s' => String (lower c) (toLowerCase s')
  end.

(** [s.startsWith(p)] *)
Fixpoint startsWith (s p : string) : bool :=
  match p, s with
  | EmptyString, _ => true
  | String _ _, EmptyString => false
  | String a p', String b s' => Ascii.eqb a b && startsWith s' p'
  end.

(** [s.includes(sub)] *)
Fixpoint includes (s sub : string) : bool :=
  startsWith s sub ||
  match s with
  | EmptyString => false
  | String _ s' => includes s' sub
  end.

(** [s.substring(n)] *)
Fixpoint substring_from (n : nat) (s : string) : string :=
  match n, s with
  | S n', String _ s' => substring_from n' s'
  | _, _ => s
  end.

(** [s.replace(pattern, replacement)] for a pattern that is a string and a
    replacement without [$]: the first occurrence is replaced. *)
Fixpoint str_replace (s pattern replacement : string) : string :=
  if startsWith s pattern
  then replacement +:+ substring_from (String.length pattern) s
  else match s with
       | EmptyString => EmptyString
       | String c s' => String c (str_replace s' pattern replacement)
       end.

(** [s.split(separator)] for a separator that is not empty.  The text is
    read from left to right; [part] is the piece read so far and [skip] the
    number of characters of a separator that are still to be passed. *)
Fixpoint split_from (separator : string) (skip : nat) (part s : string) : list string :=
  match s with
  | EmptyString => [part]
  | String c s' =>
      match skip with
      | S k => split_from separator k part s'
      | O =>
          if startsWith s separator
          then part :: split_from separator (String.length separator - 1) EmptyString s'
          else split_from separator O (part +:+ String c EmptyString) s'
      end
  end.

Definition str_split (s separator : string) : list string :=
  split_from separator 0 EmptyString s.

(** The value of a digit in a radix, [None] for any other character. *)
Definition digit_of (radix : Z) (c : ascii) : option Z :=
  let n := Z.of_nat (nat_of_ascii c) in
  let d :=
    if (48 <=? n) && (n <=? 57) then Some (n - 48)
    else if (97 <=? n) && (n <=? 122) then Some (n - 87)
    else if (65 <=? n) && (n <=? 90) then Some (n - 55)
    else None in
  d ≫= λ d, if d <? radix then Some d else None.

(** The number that the longest prefix of digits denotes, after [acc];
    [None] when there is no digit at all. *)
Fixpoint parse_digits (radix : Z) (acc : option Z) (s : string) : option Z :=
  match s with
  | EmptyString => acc
  | String c s' =>
      match digit_of radix c with
      | Some d => parse_digits radix (Some (radix * default 0 acc + d)) s'
      | None => acc
      end
  end.

(** [parseInt(s)] on a string, [None] for [NaN]: leading white space, a
    sign, the prefix [0x] of a hexadecimal number, then digits. *)
Definition parseInt_string (s : string) : option Z :=
  let s := trimStart s in
  let '(sign, s) :=
    match s with
    | String "-" s' => (-1, s')
    | String "+" s' => (1, s')
    | _ => (1, s)
    end in
  let '(radix, s) :=
    if startsWith s "0x" || startsWith s "0X"
    then (16, substring_from 2 s) else (10, s) in
  (λ n, sign * n) <$> parse_digits radix None s.

(** [parseInt(v)]: the argument is turned into a string first. *)
Definition parseInt (v : value) : option Z := parseInt_string (String_of v).

(** [xs.slice(start, end)] *)
Definition slice {A} (xs : list A) (start end_ : Z) : list A :=
  let len := Z.of_nat (length xs) in
  let k := if start <? 0 then Z.max (len + start) 0 else Z.min start len in
  let final := if end_ <? 0 then Z.max (len + end_) 0 else Z.min end_ len in
  take (Z.to_nat (final - k)) (drop (Z.to_nat k) xs).

(** ** The state of the result list *)

(** An item of the menu of the year filter, with the [data-year] that a
    click on it hands to the filter. *)
Inductive YearOption : Type :=
  | AllYears                      (* data-year="all" *)
  | YearRange (end_ start : Z)    (* data-year="end-start", shown as "end → start" *)
  | Divider                       (* the separator, no link *)
  | SingleYear (year : Z).        (* data-year="year" *)

Definition data_year (item : YearOption) : option string :=
  match item with
  | AllYears => Some "all"
  | YearRange end_ start => Some (pretty end_ +:+ "-" +:+ pretty start)
  | Divider => None
  | SingleYear year => Some (pretty year)
  end.

(** A child of [.papers-list]: the card of a paper, or the notice that
    nothing was found. *)
Inductive Card : Type :=
  | PaperItem (paper : value) (sourceClass : string)
  | NoResultsAlert.

(** A child of [.pagination].  The handler of the next button holds the
    [totalPages] of the call of [setupPagination] that made the button. *)
Inductive PageItem : Type :=
  | PrevPage (disabled : bool)
  | PageNumber (page : Z) (active : bool)
  | NextPage (disabled : bool) (totalPages : Z).

Record Pagination : Type := mkPagination {
  d_none : bool;                  (* .pagination-container is hidden *)
  page_items : list PageItem;     (* the children of .pagination *)
}.

Record Listing : Type := mkListing {
  (* the variables of lines 26-32; [itemsPerPage] is never assigned *)
  originalPapers : value;
  allPapers : list value;
  currentPage : Z;
  minYear : Z;
  maxYear : Z;
  availableYears : list Z;        (* a Set, in the order of insertion *)
  (* [data-current-filter] of [.year-filter .btn], when the page has it *)
  year_filter_btn : option (option string);
  (* [textContent] and [data-current-filter] of [.source-filter .btn] *)
  source_filter_btn : option (string * option string);
  (* the items of [.year-filter .dropdown-menu] *)
  year_filter_menu : option (list YearOption);
  (* the children of [.papers-list] *)
  papersList : option (list Card);
  pagination : option Pagination;
  listing_errors : list string;   (* console.error *)
}.

Definition set_originalPapers (x : value) (s : Listing) : Listing :=
  mkListing x (allPapers s) (currentPage s) (minYear s) (maxYear s)
    (availableYears s) (year_filter_btn s) (source_filter_btn s)
    (year_filter_menu s) (papersList s) (pagination s) (listing_errors s).

Definition set_allPapers (x : list value) (s : Listing) : Listing :=
  mkListing (originalPapers s) x (currentPage s) (minYear s) (maxYear s)
    (availableYears s) (year_filter_btn s) (source_filter_btn s)
    (year_filter_menu s) (papersList s) (pagination s) (listing_errors s).

Definition set_currentPage (x : Z) (s : Listing) : Listing :=
  mkListing (originalPapers s) (allPapers s) x (minYear s) (maxYear s)
    (availableYears s) (year_filter_btn s) (source_filter_btn s)
    (year_filter_menu s) (papersList s) (pagination s) (listing_errors s).

Definition set_minYear (x : Z) (s : Listing) : Listing :=
  mkListing (originalPapers s) (allPapers s) (currentPage s) x (maxYear s)
    (availableYears s) (year_filter_btn s) (source_filter_btn s)
    (year_filter_menu s) (papersList s) (pagination s) (listing_errors s).

Definition set_maxYear (x : Z) (s : Listing) : Listing :=
  mkListing (originalPapers s) (allPapers s) (currentPage s) (minYear s) x
    (availableYears s) (year_filter_btn s) (source_filter_btn s)
    (year_filter_menu s) (papersList s) (pagination s) (listing_errors s).

Definition set_availableYears (x : list Z) (s : Listing) : Listing :=
  mkListing (originalPapers s) (allPapers s) (currentPage s) (minYear s) (maxYear s)
    x (year_filter_btn s) (source_filter_btn s)
    (year_filter_menu s) (papersList s) (pagination s) (listing_errors s).

Definition set_year_filter_btn (x : option (option string)) (s : Listing) : Listing :=
  mkListing (originalPapers s) (allPapers s) (currentPage s) (minYear s) (maxYear s)
    (availableYears s) x (source_filter_btn s)
    (year_filter_menu s) (papersList s) (pagination s) (listing_errors s).

Definition set_source_filter_btn (x : option (string * option string)) (s : Listing) : Listing :=
  mkListing (originalPapers s) (allPapers s) (currentPage s) (minYear s) (maxYear s)
    (availableYears s) (year_filter_btn s) x
    (year_filter_menu s) (papersList s) (pagination s) (listing_errors s).

Definition set_year_filter_menu (x : option (list YearOption)) (s : Listing) : Listing :=
  mkListing (originalPapers s) (allPapers s) (currentPage s) (minYear s) (maxYear s)
    (availableYears s) (year_filter_btn s) (source_filter_btn s)
    x (papersList s) (pagination s) (listing_errors s).

Definition set_papersList (x : option (list Card)) (s : Listing) : Listing :=
  mkListing (originalPapers s) (allPapers s) (currentPage s) (minYear s) (maxYear s)
    (availableYears s) (year_filter_btn s) (source_filter_btn s)
    (year_filter_menu s) x (pagination s) (listing_errors s).

Definition set_pagination (x : option Pagination) (s : Listing) : Listing :=
  mkListing (originalPapers s) (allPapers s) (currentPage s) (minYear s) (maxYear s)
    (availableYears s) (year_filter_btn s) (source_filter_btn s)
    (year_filter_menu s) (papersList s) x (listing_errors s).

Definition set_listing_errors (x : list string) (s : Listing) : Listing :=
  mkListing (originalPapers s) (allPapers s) (currentPage s) (minYear s) (maxYear s)
    (availableYears s) (year_filter_btn s) (source_filter_btn s)
    (year_filter_menu s) (papersList s) (pagination s) x.

(** A run over the result list ends by returning or by throwing. *)
Inductive Ran (A : Type) : Type :=
  | Done (a : A) (s : Listing)
  | Failed (e : exn) (s : Listing).
Arguments Done {A} a s.
Arguments Failed {A} e s.

Definition L (A : Type) : Type := Listing → Ran A.

#[global] Instance L_ret : MRet L := λ A a s, Done a s.

#[global] Instance L_bind : MBind L := λ A B f m s,
  match m s with
  | Done a s' => f a s'
  | Failed e s' => Failed e s'
  end.

#[global] Instance L_throw : MThrow exn L := λ A e s, Failed e s.

Definition gets {A} (field : Listing → A) : L A := λ s, Done (field s) s.
Definition update (f : Listing → Listing) : L unit := λ s, Done tt (f s).

(** The state in which a run ends. *)
Definition listing_of {A} (r : Ran A) : Listing :=
  match r with Done _ s | Failed _ s => s end.

(** [o.k]: reading from [null] or [undefined] throws. *)
Definition read (o : value) (k : string) : L value :=
  match o with
  | VUndefined | VNull => mthrow TypeError
  | _ => mret (own_prop o k)
  end.

(** [[...v]]: the elements of an array, the characters of a string;
    nothing else that JSON gives can be iterated. *)
Fixpoint characters (s : string) : list value :=
  match s with
  | EmptyString => []
  | String c s' => VStr (String c EmptyString) :: characters s'
  end.

Definition spread (v : value) : L (list value) :=
  match v with
  | VArr xs => mret xs
  | VStr s => mret (characters s)
  | _ => mthrow TypeError
  end.

(** [xs.forEach(f)] and [xs.filter(f)] on an array. *)
Fixpoint each {A} (xs : list A) (f : A → L unit) : L unit :=
  match xs with
  | [] => mret tt
  | x :: rest => f x;; each rest f
  end.

Fixpoint keep {A} (f : A → L bool) (xs : list A) : L (list A) :=
  match xs with
  | [] => mret []
  | x :: rest =>
      kept ← f x;
      others ← keep f rest;
      mret (if kept : bool then x :: others else others)
  end.

(** ** Pages *)

Definition itemsPerPage : Z := 4.

(** [Math.ceil(allPapers.length / itemsPerPage)] *)
Definition totalPages (s : Listing) : Z :=
  - (- Z.of_nat (length (allPapers s)) / itemsPerPage).

(** [createPaperElement] (lines 917-1082): the class of the source.
    [paper.source] has to be a string, and so has [paper.id] when the source
    is none of the first six. *)
Definition createPaperElement (paper : value) : L Card :=
  paper_source ← read paper "source";
  match paper_source with
  | VStr text =>
      let source := toLowerCase text in
      if includes source "ieee" then mret (PaperItem paper "ieee")
      else if includes source "arxiv" then mret (PaperItem paper "arxiv")
      else if includes source "pubmed" then mret (PaperItem paper "pubmed")
      else if includes source "springer" then mret (PaperItem paper "springer")
      else if includes source "acm" then mret (PaperItem paper "acm")
      else if includes source "google scholar" then mret (PaperItem paper "google-scholar")
      else
        match own_prop paper "id" with
        | VStr paperId =>
            if startsWith paperId "ss_" || includes source "semantic scholar"
            then mret (PaperItem paper "semantic-scholar")
            else mret (PaperItem paper "default")
        | _ => mthrow TypeError
        end
  | _ => mthrow TypeError
  end.

Definition deactivate (item : PageItem) : PageItem :=
  match item with
  | PageNumber page _ => PageNumber page false
  | _ => item
  end.

(** The first link of a page number becomes active. *)
Fixpoint activate (page : Z) (items : list PageItem) : list PageItem :=
  match items with
  | [] => []
  | PageNumber p active :: rest =>
      if p =? page then PageNumber p true :: rest
      else PageNumber p active :: activate page rest
  | item :: rest => item :: activate page rest
  end.

Fixpoint toggle_prev (disabled : bool) (items : list PageItem) : list PageItem :=
  match items with
  | [] => []
  | PrevPage _ :: rest => PrevPage disabled :: rest
  | item :: rest => item :: toggle_prev disabled rest
  end.

Fixpoint toggle_next (disabled : bool) (items : list PageItem) : list PageItem :=
  match items with
  | [] => []
  | NextPage _ pages :: rest => NextPage disabled pages :: rest
  | item :: rest => item :: toggle_next disabled rest
  end.

(** [updatePaginationUI] (lines 871-896). *)
Definition updatePaginationUI (page : Z) : L unit :=
  pages ← gets totalPages;
  update (λ s, set_pagination
    ((λ controls,
        mkPagination (d_none controls)
          (toggle_next (page =? pages)
             (toggle_prev (page =? 1)
                (activate page (deactivate <$> page_items controls)))))
     <$> pagination s) s).

(** The callback of lines 853-856. *)
Definition appendPaperElement (paper : value) : L unit :=
  paperElement ← createPaperElement paper;
  update (λ s, set_papersList ((λ cards, cards ++ [paperElement]) <$> papersList s) s).

(** [showPage] (lines 839-868). *)
Definition showPage (page : Z) : L unit :=
  update (set_currentPage page);;
  papers ← gets allPapers;
  let startIndex := (page - 1) * itemsPerPage in
  let endIndex := Z.min (startIndex + itemsPerPage) (Z.of_nat (length papers)) in
  let papersForPage := slice papers startIndex endIndex in
  cards ← gets papersList;
  (match cards with
   | Some _ =>
       update (set_papersList (Some []));;
       if (0 <? length papersForPage)%nat
       then each papersForPage appendPaperElement
       else update (set_papersList (Some [NoResultsAlert]))
   | None => mret tt
   end);;
  updatePaginationUI page.

(** [setupPagination] (lines 759-836). *)
Definition setupPagination : L unit :=
  controls ← gets pagination;
  match controls with
  | None =>
      update (λ s, set_listing_errors
        (listing_errors s ++ ["Pagination elements not found in DOM"]) s)
  | Some controls =>
      pages ← gets totalPages;
      papers ← gets allPapers;
      page ← gets currentPage;
      if Z.of_nat (length papers) <=? itemsPerPage then
        update (set_pagination (Some (mkPagination true (page_items controls))))
      else
        update (set_pagination (Some (mkPagination false
          ([PrevPage (page =? 1)] ++
           ((λ i, PageNumber i (i =? page)) <$> seqZ 1 (Z.min pages 5)) ++
           [NextPage (page =? pages) pages]))))
  end.

(** The click handler of [#prev-page] (lines 811-816). *)
Definition prev_page_click : L unit :=
  page ← gets currentPage;
  if 1 <? page then showPage (page - 1) else mret tt.

(** The click handler of [#next-page] (lines 821-826), with the
    [totalPages] that it holds. *)
Definition next_page_handler (totalPages : Z) : L unit :=
  page ← gets currentPage;
  if page <? totalPages then showPage (page + 1) else mret tt.

(** The [totalPages] that the handler of the first next button holds. *)
Fixpoint next_handler (items : list PageItem) : option Z :=
  match items with
  | [] => None
  | NextPage _ pages :: _ => Some pages
  | _ :: rest => next_handler rest
  end.

(** A click on the next button of the page, when there is one. *)
Definition next_page_click : L unit :=
  controls ← gets pagination;
  match controls ≫= λ c, next_handler (page_items c) with
  | Some pages => next_page_handler pages
  | None => mret tt
  end.

(** The click handler of a page number (lines 830-834). *)
Definition page_link_click (page : Z) : L unit := showPage page.

(** ** Years *)

(** [availableYears.add(year)] *)
Definition set_add (year : Z) (years : list Z) : list Z :=
  if decide (year ∈ years) then years else years ++ [year].

(** The callback of lines 449-458. *)
Definition collectYear (paper : value) : L unit :=
  paper_year ← read paper "year";
  if truthy paper_year then
    match parseInt paper_year with
    | Some year =>
        update (λ s, set_availableYears (set_add year (availableYears s)) s);;
        update (λ s, if year <? minYear s then set_minYear year s else s);;
        update (λ s, if maxYear s <? year then set_maxYear year s else s)
    | None => mret tt
    end
  else mret tt.

(** The loop of lines 523-530, [for (start = maxYear; start >= minYear;
    start -= 5)]; [rounds] bounds the number of its rounds. *)
Fixpoint year_ranges (rounds : nat) (start minYear : Z) : list YearOption :=
  match rounds with
  | O => []
  | S rounds' =>
      if minYear <=? start
      then YearRange (Z.max (start - 4) minYear) start ::
           year_ranges rounds' (start - 5) minYear
      else []
  end.

(** [(a, b) => b - a], the order of line 539. *)
Definition newest_first (a b : Z) : Prop := b ≤ a.

#[global] Instance newest_first_dec a b : Decision (newest_first a b) :=
  Z.le_dec b a.

(** The items that [updateYearFilterOptions] (lines 499-548) puts into the
    menu: all years, the ranges of five years, the separator and the years
    of the results, latest first. *)
Definition year_options (minYear maxYear : Z) (availableYears : list Z) : list YearOption :=
  [AllYears] ++
  (if 5 <=? maxYear - minYear
   then year_ranges (Z.to_nat (maxYear - minYear + 1)) maxYear minYear
   else []) ++
  [Divider] ++
  (SingleYear <$> merge_sort newest_first availableYears).

Definition updateYearFilterOptions : L unit :=
  menu ← gets year_filter_menu;
  match menu with
  | None => mret tt
  | Some _ =>
      update (λ s, set_year_filter_menu
        (Some (year_options (minYear s) (maxYear s) (availableYears s))) s)
  end.

(** [originalPapers.forEach(f)]: only an array has the method. *)
Definition forEach_paper (v : value) (f : value → L unit) : L unit :=
  match v with
  | VArr papers => each papers f
  | _ => mthrow TypeError
  end.

(** [displayResults] (lines 432-497). *)
Definition displayResults (data : value) : L unit :=
  papers ← read data "papers";
  update (set_originalPapers (or_else papers (VArr [])));;
  original ← gets originalPapers;
  copy ← spread original;
  update (set_allPapers copy);;
  update (set_availableYears []);;
  forEach_paper original collectYear;;
  updateYearFilterOptions;;
  setupPagination;;
  showPage 1.

(** ** Filters *)

(** [a || "all"] on an attribute that may be missing. *)
Definition or_all (a : option string) : string :=
  match a with
  | None | Some EmptyString => "all"
  | Some text => text
  end.

(** Lines 636-639. *)
Definition yearFilter_of (s : Listing) : string :=
  match year_filter_btn s with
  | Some attribute => or_all attribute
  | None => "all"
  end.

(** Lines 642-653. *)
Definition sourceFilter_of (s : Listing) : string :=
  match source_filter_btn s with
  | Some (textContent, attribute) =>
      let btnText := trim textContent in
      if String.eqb btnText "Source" then or_all attribute
      else toLowerCase (str_replace btnText "Source: " "")
  | None => "all"
  end.

(** [!originalPapers || originalPapers.length === 0] *)
Definition nothing_to_filter (original : value) : bool :=
  negb (truthy original) ||
  match original with
  | VArr [] => true
  | _ => false
  end.

(** The callback of lines 660-681. *)
Definition matchesSource (sourceFilter : string) (paper : value) : L bool :=
  paper_source ← read paper "source";
  paperSource ←
    (if truthy paper_source then
       match paper_source with
       | VStr text => mret (toLowerCase text)
       | _ => mthrow TypeError
       end
     else mret EmptyString);
  if String.eqb sourceFilter "scholar" then
    mret (includes paperSource "scholar" || includes paperSource "google scholar")
  else if String.eqb sourceFilter "arxiv" then
    mret (includes paperSource "arxiv")
  else if String.eqb sourceFilter "semantic" then
    mret (includes (toLowerCase paperSource) "semantic" ||
          (truthy (own_prop paper "id") &&
           startsWith (String_of (own_prop paper "id")) "ss_") ||
          includes (toLowerCase paperSource) "semantic scholar")
  else mret (includes paperSource (toLowerCase sourceFilter)).

(** The callback of lines 692-695. *)
Definition matchesRange (yearStart yearEnd : Z) (paper : value) : L bool :=
  paper_year ← read paper "year";
  mret (match parseInt paper_year with
        | Some year => (yearStart <=? year) && (year <=? yearEnd)
        | None => false
        end).

(** The callback of lines 701-703. *)
Definition matchesYear (selectedYear : Z) (paper : value) : L bool :=
  paper_year ← read paper "year";
  mret (bool_decide (parseInt paper_year = Some selectedYear)).

(** Lines 685-706. *)
Definition filterByYear (yearFilter : string) (papers : list value) : L (list value) :=
  if negb (String.eqb yearFilter "") && negb (String.eqb yearFilter "all") then
    if includes yearFilter "-" then
      match (λ y, parseInt_string (trim y)) <$> str_split yearFilter "-" with
      | Some yearStart :: Some yearEnd :: _ =>
          keep (matchesRange yearStart yearEnd) papers
      | _ => mret papers
      end
    else
      match parseInt_string yearFilter with
      | Some selectedYear => keep (matchesYear selectedYear) papers
      | None => mret papers
      end
  else mret papers.

(** Lines 659-682. *)
Definition filterBySource (sourceFilter : string) (papers : list value) : L (list value) :=
  if negb (String.eqb sourceFilter "") && negb (String.eqb sourceFilter "all")
  then keep (matchesSource sourceFilter) papers
  else mret papers.

(** [filterPapers] (lines 632-712). *)
Definition filterPapers : L unit :=
  original ← gets originalPapers;
  if nothing_to_filter original then mret tt else
  yearFilter ← gets yearFilter_of;
  sourceFilter ← gets sourceFilter_of;
  filteredPapers ← spread original;
  filteredPapers ← filterBySource sourceFilter filteredPapers;
  filteredPapers ← filterByYear yearFilter filteredPapers;
  update (set_allPapers filteredPapers);;
  setupPagination;;
  showPage 1.

(** [resetAllFilters] (lines 714-738). *)
Definition resetAllFilters : L unit :=
  update (λ s, set_year_filter_btn ((λ _, Some "all") <$> year_filter_btn s) s);;
  update (λ s, set_source_filter_btn
    ((λ _, ("Source", Some "all")) <$> source_filter_btn s) s);;
  original ← gets originalPapers;
  copy ← spread original;
  update (set_allPapers copy);;
  setupPagination;;
  showPage 1.

(** The click handler of an item of the year menu (lines 576-608): the
    three branches leave its [data-year] on the button. *)
Definition year_item_click (yearRange : string) : L unit :=
  button ← gets year_filter_btn;
  match button with
  | None => mthrow TypeError
  | Some _ => update (set_year_filter_btn (Some (Some yearRange)));; filterPapers
  end.

(** The click handler of an item of the source menu (lines 614-627). *)
Definition source_item_click (source : string) : L unit :=
  update (λ s, set_source_filter_btn
    ((λ button, (if String.eqb source "all" then "Source" else "Source: " +:+ source,
                 button.2)) <$> source_filter_btn s) s);;
  filterPapers.

(** ** Vocabulary of the properties of the result list *)

(** A state in which nothing has been searched and the page has none of
    the elements. *)
Definition no_listing : Listing :=
  mkListing (VArr []) [] 1 0 0 [] None None None None None [].

(** The card that [createPaperElement] makes of a paper, [None] when it
    throws. *)
Definition card_of (paper : value) : option Card :=
  match createPaperElement paper no_listing with
  | Done card _ => Some card
  | Failed _ _ => None
  end.

(** The cards of the papers up to the first one that has no card, and
    whether every paper has one. *)
Fixpoint rendered (papers : list value) : list Card * bool :=
  match papers with
  | [] => ([], true)
  | paper :: rest =>
      match card_of paper with
      | Some card => (card :: (rendered rest).1, (rendered rest).2)
      | None => ([], false)
      end
  end.

(** The papers of a page: [allPapers.slice(startIndex, endIndex)] of lines
    843-845. *)
Definition page_of (papers : list value) (page : Z) : list value :=
  slice papers ((page - 1) * itemsPerPage)
    (Z.min ((page - 1) * itemsPerPage + itemsPerPage) (Z.of_nat (length papers))).

(** The number of pages of a list of papers. *)
Definition pages_of (papers : list value) : Z :=
  - (- Z.of_nat (length papers) / itemsPerPage).

(** The pagination control after [updatePaginationUI]. *)
Definition marked (page pages : Z) (controls : Pagination) : Pagination :=
  mkPagination (d_none controls)
    (toggle_next (page =? pages)
       (toggle_prev (page =? 1)
          (activate page (deactivate <$> page_items controls)))).

(** The state after [showPage]: the page is the current one, the list
    shows [cards] and the pagination control is [controls]. *)
Definition showing (s : Listing) (page : Z) (cards : option (list Card))
    (controls : option Pagination) : Listing :=
  {| originalPapers := originalPapers s;
     allPapers := allPapers s;
     currentPage := page;
     minYear := minYear s;
     maxYear := maxYear s;
     availableYears := availableYears s;
     year_filter_btn := year_filter_btn s;
     source_filter_btn := source_filter_btn s;
     year_filter_menu := year_filter_menu s;
     papersList := cards;
     pagination := controls;
     listing_errors := listing_errors s |}.

(** The papers of the cards that the list shows. *)
Definition shown_papers (s : Listing) : list value :=
  match papersList s with
  | Some cards =>
      omap (λ card, match card with PaperItem paper _ => Some paper | _ => None end) cards
  | None => []
  end.

(** The numbered links and the next button of a pagination control agree
    with a number of pages. *)
Definition links_fit (pages : Z) (items : list PageItem) : Prop :=
  next_handler items = Some pages ∧
  ∀ page active, PageNumber page active ∈ items → 1 ≤ page ≤ pages.

(** What holds of the result list between two searches: the papers
    listed are some of the papers of the search, in their order; the current
    page is one of the pages (the first when there is no paper); a
    pagination control that can be seen fits the number of pages; and the
    notice that nothing was found is shown only when no paper is listed. *)
Definition steady (s : Listing) : Prop :=
  (∃ papers, originalPapers s = VArr papers ∧ allPapers s `sublist_of` papers) ∧
  1 ≤ currentPage s ≤ Z.max 1 (totalPages s) ∧
  (∀ controls,
     pagination s = Some controls → d_none controls = false →
     links_fit (totalPages s) (page_items controls)) ∧
  (∀ cards,
     papersList s = Some cards → NoResultsAlert ∈ cards → allPapers s = []).

(** What a visitor can do to the result list between two searches.  The
    handlers of the two menus are registered anew by every call of
    [setupFilterHandlers], one after the other and each on its own, so that
    a click on an item of a menu is as many of these actions as there have
    been calls. *)
Inductive Action : Type :=
  | ClickPrev
  | ClickNext
  | ClickPage (page : Z)
  | ClickYear (yearRange : string)
  | ClickSource (source : string)
  | ClickReset.

(** Is there an item of this kind in a pagination control that can be
    seen? *)
Definition on_page (s : Listing) (kind : PageItem → bool) : bool :=
  match pagination s with
  | Some controls => negb (d_none controls) && existsb kind (page_items controls)
  | None => false
  end.

Definition is_prev (item : PageItem) : bool :=
  match item with PrevPage _ => true | _ => false end.

Definition is_page (page : Z) (item : PageItem) : bool :=
  match item with PageNumber p _ => p =? page | _ => false end.

(** The handler that an action runs; a click on something that is not on
    the page runs none. *)
Definition act (a : Action) : L unit :=
  match a with
  | ClickPrev => λ s, if on_page s is_prev then prev_page_click s else Done tt s
  | ClickNext => λ s, if on_page s (λ _, true) then next_page_click s else Done tt s
  | ClickPage page =>
      λ s, if on_page s (is_page page) then page_link_click page s else Done tt s
  | ClickYear yearRange => year_item_click yearRange
  | ClickSource source => source_item_click source
  | ClickReset => resetAllFilters
  end.

(** The state after a sequence of actions; an action that throws leaves
    the state in which it threw. *)
Definition visit (actions : list Action) (s : Listing) : Listing :=
  foldl (λ s a, listing_of (act a s)) s actions.

(** The year that [displayResults] takes from a paper: [paper.year] when
    it is truthy and [parseInt] reads a number from it. *)
Definition year_of (paper : value) : option Z :=
  if truthy (own_prop paper "year") then parseInt (own_prop paper "year") else None.

Definition years_of (papers : list value) : list Z := omap year_of papers.

(** The state after a year has been noted (lines 451-456). *)
Definition note (s : Listing) (year : Z) : Listing :=
  {| originalPapers := originalPapers s;
     allPapers := allPapers s;
     currentPage := currentPage s;
     minYear := Z.min (minYear s) year;
     maxYear := Z.max (maxYear s) year;
     availableYears := set_add year (availableYears s);
     year_filter_btn := year_filter_btn s;
     source_filter_btn := source_filter_btn s;
     year_filter_menu := year_filter_menu s;
     papersList := papersList s;
     pagination := pagination s;
     listing_errors := listing_errors s |}.

(** [null] and [undefined], the values without properties. *)
Definition nullish (v : value) : bool :=
  match v with VUndefined | VNull => true | _ => false end.

(** ** Scenarios of the result list *)

(** A search result as the server sends it. *)
Definition search_hit (paperId source : string) (year : Z) : value :=
  object [("id", VStr paperId); ("title", VStr ("Paper " +:+ paperId));
          ("source", VStr source); ("year", VNum year)].

Definition six_hits : list value :=
  [search_hit "a1" "arXiv" 2020; search_hit "i2" "IEEE" 2012;
   search_hit "gs_3" "Google Scholar" 2022; search_hit "a4" "arXiv" 2023;
   search_hit "ss_5" "Semantic Scholar" 2024; search_hit "a6" "arxiv" 2019].

(** The search page before a search, in a year in which [minYear] and
    [maxYear] start as 2016 and 2026. *)
Definition search_page : Listing :=
  {| originalPapers := VArr [];
     allPapers := [];
     currentPage := 1;
     minYear := 2016;
     maxYear := 2026;
     availableYears := [];
     year_filter_btn := Some None;
     source_filter_btn := Some ("Source", None);
     year_filter_menu := Some [AllYears];
     papersList := Some [];
     pagination := Some (mkPagination true []);
     listing_errors := [] |}.

(** The page after a search that found the six papers. *)
Definition six_listed : Listing :=
  listing_of (displayResults (object [("papers", VArr six_hits)]) search_page).

(** A result without a source among results that have one. *)
Definition hit_without_source : value :=
  object [("id", VStr "x7"); ("title", VStr "Paper x7"); ("year", VNum 2021)].

Definition unsourced_listed : Listing :=
  set_allPapers [search_hit "a1" "arXiv" 2020; hit_without_source;
                 search_hit "a4" "arXiv" 2023] search_page.

(** A computation that neither reads nor writes the state. *)
Definition stateless {A} (m : L A) : Prop :=
  ∀ s s', m s' = match m s with Done a _ => Done a s' | Failed e _ => Failed e s' end.

(** The items that [setupPagination] puts into the control. *)
Definition page_links (page pages : Z) : list PageItem :=
  [PrevPage (page =? 1)] ++
  ((λ i, PageNumber i (i =? page)) <$> seqZ 1 (Z.min pages 5)) ++
  [NextPage (page =? pages) pages].

(** A result list that can be paged through: every listed paper has a
    card, the list shows the papers of the current page, and the pagination
    control can be seen, with a previous button and a next button whose
    handler holds the number of pages. *)
Definition browsable (s : Listing) : Prop :=
  is_Some (papersList s) ∧
  (rendered (allPapers s)).2 = true ∧
  1 ≤ currentPage s ∧
  shown_papers s = page_of (allPapers s) (currentPage s) ∧
  ∃ controls,
    pagination s = Some controls ∧
    d_none controls = false ∧
    existsb is_prev (page_items controls) = true ∧
    next_handler (page_items controls) = Some (totalPages s).

(** The state in which [displayResults] calls [setupPagination]: the
    papers of the search are the listed ones, their years are noted and the
    year menu is made anew. *)
Definition received (papers : list value) (s : Listing) : Listing :=
  let s1 :=
    foldl note
      (set_availableYears []
         (set_allPapers papers (set_originalPapers (VArr papers) s)))
      (years_of papers) in
  match year_filter_menu s1 with
  | Some _ =>
      set_year_filter_menu
        (Some (year_options (minYear s1) (maxYear s1) (availableYears s1))) s1
  | None => s1
  end.

(** Strings of decimal digits. *)
Definition is_digit (c : ascii) : bool :=
  let n := nat_of_ascii c in (48 <=? n)%nat && (n <=? 57)%nat.

Fixpoint all_digits (s : string) : bool :=
  match s with
  | EmptyString => true
  | String c s' => is_digit c && all_digits s'
  end.

(** The papers that an item of the year menu stands for: all of them, or
    those whose year [parseInt] reads and finds in the range. *)
Definition kept_by (item : YearOption) (paper : value) : bool :=
  match item with
  | AllYears => true
  | YearRange end_ start =>
      match parseInt (own_prop paper "year") with
      | Some year => (end_ <=? year) && (year <=? start)
      | None => false
      end
  | SingleYear year => bool_decide (parseInt (own_prop paper "year") = Some year)
  | Divider => false
  end.

(** An item that can be clicked, with years that are not negative. *)
Definition offered (item : YearOption) : Prop :=
  match item with
  | AllYears => True
  | YearRange end_ start => 0 ≤ end_ ∧ 0 ≤ start
  | SingleYear year => 0 ≤ year
  | Divider => False
  end.

(** A search that found nothing, and one whose list has a [null] in it. *)
Definition nothing_found : value := object [("papers", VArr [])].

Definition broken_answer : value :=
  object [("papers", VArr [search_hit "a1" "arXiv" 2020; VNull])].

(** ** Vocabulary of further properties of the conversation *)

(** The request for a CSRF token that [ensureCsrfToken] makes when the
    page has no such cookie. *)
Definition csrf_fetch (w : World) : list event :=
  if truthy (of_option (csrf_token w)) then [] else [Fetch GET_csrf_token].

(** The body of the question that [sendQuestion] posts (lines 1321-1331). *)
Definition question_body (w : World) (ctx : Context) : QuestionBody :=
  {| question := trim (modalQuestionInput w);
     paper_id := id ctx;
     paper_title := title ctx;
     context := ctx;
     body_pdf_url := pdf_url ctx;
     use_full_text := true;
     guest_mode := negb (logged_in w);
     session_id := or_else (chat_session_id ctx) VNull;
     force_persistent := true |}.

(** An answer or a failure message: a bubble that is not the user's. *)
Definition is_reply (node : ChatNode) : Prop :=
  ∃ message, node = MessageBubble message false.

(** The bubble of a message of the history (lines 2047-2049). *)
Definition history_bubble (msg : value) : ChatNode :=
  MessageBubble (own_prop msg "message") (truthy (own_prop msg "is_user")).

(** The messages up to the first one that is [null] or [undefined]. *)
Fixpoint readable_prefix (messages : list value) : list value :=
  match messages with
  | [] => []
  | msg :: rest => if nullish msg then [] else msg :: readable_prefix rest
  end.

(** No message is [null] or [undefined]. *)
Definition all_readable (messages : list value) : bool :=
  forallb (λ msg, negb (nullish msg)) messages.

(** A visitor types a text into the input of the conversation view. *)
Definition typing (input : string) (w : World) : World :=
  set_modalQuestionInput input w.

(** A page on which a question about P1 is typed while the page has no
    CSRF cookie. *)
Definition asking_without_cookie : World :=
  {| token := Some "jwt";
     chatSessions := None;
     storage_full := false;
     csrf_token := None;
     currentPaperContext := Some paper_P1;
     window_currentPaperContext := None;
     modalQuestionInput := "  Why?  ";
     chatContainer := [WelcomeMessage "Paper one"];
     chat_history_list := Some [];
     window_addChatSessionToSidebar := true;
     now := 0;
     toLocaleDateString := λ _, "1 Jan";
     remote := server_S1 true;
     console_error := [];
     trace := [] |}.

(** A server whose record of every session is a conversation of two
    messages. *)
Definition two_messages : list value :=
  [object [("message", VStr "Why?"); ("is_user", VBool true)];
   object [("message", VStr "Because."); ("is_user", VBool false)]].

Definition history_server : request → fetch_result :=
  λ _, Response 200
         (Some (object [("paper_title", VStr "Paper one");
                        ("messages", VArr two_messages)])).

(** The text of the bubble that shows an answer (lines 1344-1350). *)
Definition shown_answer (data : value) : value :=
  if truthy (own_prop data "used_pdf")
  then VStr (String_of (own_prop data "answer"))
  else own_prop data "answer".

(** A logged-in user opens P3 on a device that has no index; the server
    knows session S4 of P3. *)
Definition new_device : World := fresh_page server_P3.

(** The session id that both readers of the index take from what
    [JSON.parse] gave for the stored blob (lines 1861-1878 and 1929-1942):
    that of the entry of the paper, [null] when there is none to take. *)
Definition read_entry (saved : value) (paperId : string) : value :=
  let entry := own_prop saved paperId in
  if truthy entry then sessionId_of_entry entry else VNull.

(** The stored blob is the JSON text [null]. *)
Definition null_page : World :=
  set_chatSessions (Some (Json VNull)) (fresh_page no_server).

(** The stored blob is the text of a JSON array. *)
Definition array_page : World :=
  set_chatSessions (Some (Json (VArr [VStr "S1"]))) (fresh_page no_server).

(** The index holds entries that are no records: [true] for P1 and a
    record without a session id for P2. *)
Definition malformed_index : gmap string value :=
  {[ "P1" := VBool true; "P2" := object [("title", VStr "Paper two")] ]}.

Definition malformed_page : World :=
  set_chatSessions (Some (Json (VObj malformed_index))) (fresh_page no_server).

(** The stamp of the record of a paper is not ahead of an instant; a paper
    without a stamped record has no stamp that could be. *)
Definition not_ahead (w : World) (paperId : string) (bound : Z) : Prop :=
  match lastUsed_of w paperId with
  | None => True
  | Some text => ∃ t, text = toISOString t ∧ t ≤ bound
  end.

(** A stamp and the stamp some exchanges later: the later one is there and
    is no earlier. *)
Definition never_back (before after : option string) : Prop :=
  match before with
  | None => True
  | Some text =>
      ∃ t1 t2, text = toISOString t1 ∧ after = Some (toISOString t2) ∧ t1 ≤ t2
  end.

(** The visit is a successful exchange that is stored: there is a context,
    the text is not blank, the server answers the question with a session
    id, the index can be read and the store accepts the write. *)
Definition answered (w : World) (v : Visit) (ctx : Context)
    (props : gmap string value) : Prop :=
  currentPaperContext w = Some ctx ∧
  String.eqb (trim (typed v)) "" = false ∧
  (∀ body headers,
     ∃ status,
       server v (POST_question body headers) = Response status (Some (VObj props)) ∧
       ok status = true) ∧
  truthy (own_prop (VObj props) "session_id") = true ∧
  is_Some (index_of w) ∧
  storage_full w = false.

(** The server of the visit fails every question. *)
Definition rejected (v : Visit) : Prop :=
  ∀ body headers,
    match server v (POST_question body headers) with
    | NetworkError => True
    | Response status _ => ok status = false
    end.

(** ** Cookies *)

(** [getCookie(name)] (lines 55-60), as a function of [document.cookie].
    [parts.pop()] is the last part, and [shift()] gives the first piece, or
    [undefined] on an empty array. *)
Definition getCookie (document_cookie name : string) : value :=
  let value := "; " +:+ document_cookie in
  let parts := str_split value ("; " +:+ name +:+ "=") in
  if (length parts =? 2)%nat then
    match last parts with
    | Some part =>
        match str_split part ";" with
        | first :: _ => VStr first
        | [] => VUndefined
        end
    | None => VUndefined
    end
  else VNull.

(** The character occurs in the text. *)
Fixpoint occurs (c : ascii) (s : string) : bool :=
  match s with
  | EmptyString => false
  | String a s' => Ascii.eqb a c || occurs c s'
  end.

(** The text that [document.cookie] gives for the cookies of the page:
    [name=value] pairs, separated by a semicolon and a space. *)
Fixpoint cookie_tail (jar : list (string * string)) : string :=
  match jar with
  | [] => ""
  | (name, value) :: rest => "; " +:+ name +:+ "=" +:+ value +:+ cookie_tail rest
  end.

Definition cookie_text (jar : list (string * string)) : string :=
  match jar with
  | [] => ""
  | (name, value) :: rest => name +:+ "=" +:+ value +:+ cookie_tail rest
  end.

(** The values of the cookies that have the name. *)
Definition cookies_named (name : string) (jar : list (string * string)) : list string :=
  (filter (λ cookie, cookie.1 = name) jar).*2.

(** Names without [;] and [=] and values without [;]. *)
Definition well_formed (jar : list (string * string)) : bool :=
  forallb (λ cookie,
             negb (occurs ";" cookie.1) && negb (occurs "=" cookie.1) &&
             negb (occurs ";" cookie.2)) jar.

(** The separator at which [getCookie] splits. *)
Definition cookie_separator (name : string) : string := "; " +:+ name +:+ "=".

(** A page with three cookies, two of them of the same name. *)
Definition three_cookies : list (string * string) :=
  [("theme", "dark"); ("csrf_token", "abc=123"); ("theme", "light")].

(** * Properties *)

(** ** Running computations *)

Ltac unfold_monad :=
  unfold log, console_error_ in *;
  unfold mbind, mret, mthrow, M_bind, M_ret, M_throw, try_catch, get, modify in *.

Ltac world_simpl :=
  unfold set_token, set_storage_full, set_now, set_remote, set_chatSessions,
    set_currentPaperContext, set_window_currentPaperContext,
    set_modalQuestionInput, set_chatContainer, set_chat_history_list,
    set_console_error, set_trace in *;
  cbn [token chatSessions storage_full csrf_token currentPaperContext
       window_currentPaperContext modalQuestionInput chatContainer
       chat_history_list window_addChatSessionToSidebar now toLocaleDateString
       remote console_error trace fst snd] in *.

(** ** Trimming *)

Lemma trimStart_whitespace_only s :
  whitespace_only s = true → trimStart s = "".
Proof.
  induction s as [|c s IH]; simpl; [done|].
  intros [Hc Hs]%andb_prop. rewrite Hc. auto.
Qed.

Lemma trim_whitespace_only s : whitespace_only s = true → trim s = "".
Proof. intros H. unfold trim. by rewrite trimStart_whitespace_only. Qed.

Lemma trimEnd_empty s : trimEnd s = "" → whitespace_only s = true.
Proof.
  induction s as [|c s IH]; simpl; [done|].
  destruct (is_whitespace c) eqn:Hc; simpl; [|done].
  destruct (trimEnd s) eqn:Hs; simpl; [auto|done].
Qed.

Lemma whitespace_only_trimStart s :
  whitespace_only (trimStart s) = true → whitespace_only s = true.
Proof.
  induction s as [|c s IH]; simpl; [done|].
  destruct (is_whitespace c) eqn:Hc; simpl; [auto|].
  by rewrite Hc.
Qed.

(** [trim] gives the empty string exactly on the inputs made of white
    space only. *)
Lemma trim_empty_iff s : trim s = "" ↔ whitespace_only s = true.
Proof.
  split; [|apply trim_whitespace_only].
  intros H. apply whitespace_only_trimStart, trimEnd_empty, H.
Qed.

(** ** The index and the requests *)

Lemma parse_chatSessions_index w m :
  index_of w = Some m → parse_chatSessions w = Returned (VObj m) w.
Proof.
  unfold index_of, parse_chatSessions. unfold_monad.
  destruct (chatSessions w) as [[text|v]|]; simpl.
  - destruct text; [|done]. by intros [= <-].
  - destruct v; try done. by intros [= <-].
  - by intros [= <-].
Qed.

Lemma cachedSessionId_index m paperId w :
  cachedSessionId (VObj m) paperId w = Returned (cached m paperId) w.
Proof.
  unfold cachedSessionId, cached, get_prop. unfold_monad. simpl.
  by destruct (truthy _).
Qed.

Section Verification.
Context (w : World) (paperId : string) (m : gmap string value).
Let sessionId := cached m paperId.

Lemma verify_uncached :
  truthy sessionId = false →
  verifyCachedSession paperId (VObj m) w = Returned (inr (VObj m)) w.
Proof.
  intros H. unfold verifyCachedSession. unfold_monad.
  rewrite cachedSessionId_index. fold sessionId. by rewrite H.
Qed.

Lemma verify_confirmed status body :
  truthy sessionId = true →
  remote w (verify_request w sessionId) = Response status body →
  ok status = true →
  verifyCachedSession paperId (VObj m) w =
  Returned (inl sessionId)
    (set_trace (trace w ++ [Fetch (verify_request w sessionId)]) w).
Proof.
  intros H Hr Hok. unfold verifyCachedSession. unfold_monad.
  rewrite cachedSessionId_index. fold sessionId. rewrite H.
  unfold headers_with, getToken, fetch. unfold_monad. world_simpl.
  unfold verify_request in Hr. rewrite Hr. world_simpl. by rewrite Hok.
Qed.

Lemma verify_stale status body :
  truthy sessionId = true →
  remote w (verify_request w sessionId) = Response status body →
  ok status = false →
  storage_full w = false →
  verifyCachedSession paperId (VObj m) w =
  Returned (inr (VObj (delete paperId m)))
    (set_trace
       (trace w ++ [Fetch (verify_request w sessionId);
                    SetItem "chatSessions" (VObj (delete paperId m))])
       (set_chatSessions (Some (Json (VObj (delete paperId m)))) w)).
Proof.
  intros H Hr Hok Hfull. unfold verifyCachedSession. unfold_monad.
  rewrite cachedSessionId_index. fold sessionId. rewrite H.
  unfold headers_with, getToken, fetch, delete_prop, setItem_chatSessions.
  unfold_monad. world_simpl.
  unfold verify_request in Hr. rewrite Hr. world_simpl. rewrite Hok, Hfull.
  world_simpl. by rewrite <- app_assoc.
Qed.

Lemma verify_stale_unwritable status body :
  truthy sessionId = true →
  remote w (verify_request w sessionId) = Response status body →
  ok status = false →
  storage_full w = true →
  verifyCachedSession paperId (VObj m) w =
  Returned (inr (VObj (delete paperId m)))
    (set_console_error
       (console_error w ++ ["Error verifying persistent session:"])
       (set_trace (trace w ++ [Fetch (verify_request w sessionId)]) w)).
Proof.
  intros H Hr Hok Hfull. unfold verifyCachedSession. unfold_monad.
  rewrite cachedSessionId_index. fold sessionId. rewrite H.
  unfold headers_with, getToken, fetch, delete_prop, setItem_chatSessions.
  unfold_monad. world_simpl.
  unfold verify_request in Hr. rewrite Hr. world_simpl. by rewrite Hok, Hfull.
Qed.

Lemma verify_unreachable :
  truthy sessionId = true →
  remote w (verify_request w sessionId) = NetworkError →
  verifyCachedSession paperId (VObj m) w =
  Returned (inr (VObj m))
    (set_console_error
       (console_error w ++ ["Error verifying persistent session:"])
       (set_trace (trace w ++ [Fetch (verify_request w sessionId)]) w)).
Proof.
  intros H Hr. unfold verifyCachedSession. unfold_monad.
  rewrite cachedSessionId_index. fold sessionId. rewrite H.
  unfold headers_with, getToken, fetch. unfold_monad. world_simpl.
  unfold verify_request in Hr. by rewrite Hr.
Qed.
End Verification.

Section Lookup.
Context (w : World) (paperId : string) (m : gmap string value).

Lemma lookup_found s t :
  found (remote w (lookup_request w paperId)) = Some (s, t) →
  storage_full w = false →
  let m' := <[paperId := resolved_record paperId s t]> m in
  lookupSessionOfPaper paperId (VObj m) w =
  Returned s
    (set_trace
       (trace w ++ [Fetch (lookup_request w paperId);
                    SetItem "chatSessions" (VObj m')])
       (set_chatSessions (Some (Json (VObj m'))) w)).
Proof.
  intros Hf Hfull m'. unfold lookupSessionOfPaper.
  unfold headers_with, getToken, fetch, json, set_prop, setItem_chatSessions.
  unfold_monad. world_simpl. unfold lookup_request, found in Hf.
  destruct (remote w _) as [|status [data|]]; try done.
  destruct (ok status) eqn:Hok; [|done]. simpl in Hf.
  destruct (truthy (own_prop data "session_id")) eqn:Hs; [|done].
  injection Hf as <- <-. world_simpl. rewrite Hok.
  destruct data; try done; unfold get_prop; unfold_monad;
    world_simpl; rewrite Hs, Hfull; world_simpl; by rewrite <- app_assoc.
Qed.

Lemma lookup_found_unwritable s t :
  found (remote w (lookup_request w paperId)) = Some (s, t) →
  storage_full w = true →
  lookupSessionOfPaper paperId (VObj m) w =
  Returned VNull
    (set_console_error
       (console_error w ++ ["Error checking existing chat session:"])
       (set_trace (trace w ++ [Fetch (lookup_request w paperId)]) w)).
Proof.
  intros Hf Hfull. unfold lookupSessionOfPaper.
  unfold headers_with, getToken, fetch, json, set_prop, setItem_chatSessions.
  unfold_monad. world_simpl. unfold lookup_request, found in Hf.
  destruct (remote w _) as [|status [data|]]; try done.
  destruct (ok status) eqn:Hok; [|done]. simpl in Hf.
  destruct (truthy (own_prop data "session_id")) eqn:Hs; [|done].
  world_simpl. rewrite Hok.
  destruct data; try done; unfold get_prop; unfold_monad;
    world_simpl; by rewrite Hs, Hfull.
Qed.

Lemma lookup_missing :
  found (remote w (lookup_request w paperId)) = None →
  ∃ more,
    lookupSessionOfPaper paperId (VObj m) w =
    Returned VNull
      (set_console_error (console_error w ++ more)
         (set_trace (trace w ++ [Fetch (lookup_request w paperId)]) w)).
Proof.
  intros Hf. unfold lookupSessionOfPaper.
  unfold headers_with, getToken, fetch, json, set_prop, setItem_chatSessions.
  unfold_monad. world_simpl. unfold lookup_request, found in Hf.
  destruct (remote w _) as [|status [data|]]; world_simpl.
  - by eexists.
  - destruct (ok status) eqn:Hok; simpl in Hf;
      [|exists []; by rewrite app_nil_r].
    destruct (truthy (own_prop data "session_id")) eqn:Hs; [done|].
    destruct data; unfold get_prop; unfold_monad; world_simpl;
      rewrite ?Hs; first [by eexists | exists []; by rewrite app_nil_r].
  - destruct (ok status); first [by eexists | exists []; by rewrite app_nil_r].
Qed.
End Lookup.

(** ** The resolver *)

Lemma checkExistingChatSession_guest paperId w :
  logged_in w = false → checkExistingChatSession paperId w = Returned VNull w.
Proof.
  intros H. unfold checkExistingChatSession, isUserLoggedIn, getToken.
  unfold_monad. unfold logged_in in H. by rewrite H.
Qed.

Lemma checkExistingChatSession_blocks paperId w m :
  logged_in w = true →
  index_of w = Some m →
  checkExistingChatSession paperId w =
  match verifyCachedSession paperId (VObj m) w with
  | Returned (inl sessionId) w' => Returned sessionId w'
  | Returned (inr savedSessions) w' => lookupSessionOfPaper paperId savedSessions w'
  | Thrown e w' => Thrown e w'
  end.
Proof.
  intros Hl Hi. unfold checkExistingChatSession, isUserLoggedIn, getToken.
  unfold_monad. unfold logged_in in Hl. rewrite Hl. simpl.
  rewrite (parse_chatSessions_index _ _ Hi).
  destruct (verifyCachedSession _ _ _) as [[?|?] ?|]; reflexivity.
Qed.

Section Resolution.
Context (w : World) (paperId : string) (m : gmap string value).
Hypothesis logged : logged_in w = true.
Hypothesis readable : index_of w = Some m.

Let sessionId := cached m paperId.
Let verify := verify_request w sessionId.
Let lookup := lookup_request w paperId.
Let put (s t : value) (m0 : gmap string value) :=
  <[paperId := resolved_record paperId s t]> m0.

Lemma resolve_verified status body :
  truthy sessionId = true →
  remote w verify = Response status body →
  ok status = true →
  resolves w paperId sessionId (chatSessions w) [Fetch verify].
Proof.
  intros Hs Hr Hok. exists (console_error w). unfold resolves.
  rewrite (checkExistingChatSession_blocks _ _ _ logged readable).
  by rewrite (verify_confirmed _ _ _ status body).
Qed.

Lemma resolve_uncached_found s t :
  truthy sessionId = false →
  found (remote w lookup) = Some (s, t) →
  storage_full w = false →
  resolves w paperId s (Some (Json (VObj (put s t m))))
    [Fetch lookup; SetItem "chatSessions" (VObj (put s t m))].
Proof.
  intros Hs Hf Hfull. exists (console_error w).
  rewrite (checkExistingChatSession_blocks _ _ _ logged readable).
  rewrite verify_uncached by done.
  by rewrite (lookup_found _ _ _ s t).
Qed.

Lemma resolve_uncached_missing :
  truthy sessionId = false →
  found (remote w lookup) = None →
  resolves w paperId VNull (chatSessions w) [Fetch lookup].
Proof.
  intros Hs Hf.
  destruct (lookup_missing w paperId m Hf) as [more Hl].
  eexists.
  rewrite (checkExistingChatSession_blocks _ _ _ logged readable).
  rewrite verify_uncached by done. by rewrite Hl.
Qed.

Lemma resolve_stale_found status body s t :
  truthy sessionId = true →
  remote w verify = Response status body →
  ok status = false →
  found (remote w lookup) = Some (s, t) →
  storage_full w = false →
  resolves w paperId s (Some (Json (VObj (put s t (delete paperId m)))))
    [Fetch verify; SetItem "chatSessions" (VObj (delete paperId m));
     Fetch lookup; SetItem "chatSessions" (VObj (put s t (delete paperId m)))].
Proof.
  intros Hs Hr Hok Hf Hfull. exists (console_error w).
  rewrite (checkExistingChatSession_blocks _ _ _ logged readable).
  rewrite (verify_stale _ _ _ status body) by done.
  rewrite (lookup_found _ _ _ s t) by done.
  world_simpl. by rewrite <- app_assoc.
Qed.

Lemma resolve_stale_missing status body :
  truthy sessionId = true →
  remote w verify = Response status body →
  ok status = false →
  found (remote w lookup) = None →
  storage_full w = false →
  resolves w paperId VNull (Some (Json (VObj (delete paperId m))))
    [Fetch verify; SetItem "chatSessions" (VObj (delete paperId m));
     Fetch lookup].
Proof.
  intros Hs Hr Hok Hf Hfull.
  unfold resolves.
  rewrite (checkExistingChatSession_blocks _ _ _ logged readable).
  rewrite (verify_stale _ _ _ status body) by done.
  match goal with |- context [lookupSessionOfPaper _ _ ?w1] =>
    destruct (lookup_missing w1 paperId (delete paperId m) Hf) as [more ->] end.
  eexists. world_simpl. by rewrite <- (app_assoc (trace w)).
Qed.

Lemma resolve_unreachable_found s t :
  truthy sessionId = true →
  remote w verify = NetworkError →
  found (remote w lookup) = Some (s, t) →
  storage_full w = false →
  resolves w paperId s (Some (Json (VObj (put s t m))))
    [Fetch verify; Fetch lookup; SetItem "chatSessions" (VObj (put s t m))].
Proof.
  intros Hs Hr Hf Hfull. eexists.
  rewrite (checkExistingChatSession_blocks _ _ _ logged readable).
  rewrite verify_unreachable by done.
  rewrite (lookup_found _ _ _ s t) by done.
  world_simpl. by rewrite <- app_assoc.
Qed.

Lemma resolve_unreachable_missing :
  truthy sessionId = true →
  remote w verify = NetworkError →
  found (remote w lookup) = None →
  resolves w paperId VNull (chatSessions w) [Fetch verify; Fetch lookup].
Proof.
  intros Hs Hr Hf.
  unfold resolves.
  rewrite (checkExistingChatSession_blocks _ _ _ logged readable).
  rewrite verify_unreachable by done.
  match goal with |- context [lookupSessionOfPaper _ _ ?w1] =>
    destruct (lookup_missing w1 paperId m Hf) as [more ->] end.
  eexists. world_simpl. by rewrite <- (app_assoc (trace w)).
Qed.
End Resolution.

(** ** The message exchange *)

Lemma parse_chatSessions_parsed w :
  parse_chatSessions w =
  match parsed (chatSessions w) with
  | Some v => Returned v w
  | None => Thrown SyntaxError w
  end.
Proof.
  unfold parse_chatSessions, parsed. unfold_monad.
  destruct (chatSessions w) as [[text|v]|]; simpl; try done.
  by destruct text.
Qed.

Lemma parsed_index w m : index_of w = Some m → parsed (chatSessions w) = Some (VObj m).
Proof.
  unfold index_of, parsed.
  destruct (chatSessions w) as [[text|v]|].
  - destruct text; [|done]. by intros [= <-].
  - destruct v; try done. by intros [= <-].
  - by intros [= <-].
Qed.

Lemma setItem_writable v w :
  storage_full w = false →
  setItem_chatSessions v w =
  Returned tt
    (set_trace (trace w ++ [SetItem "chatSessions" v])
       (set_chatSessions (Some (Json v)) w)).
Proof.
  intros H. unfold setItem_chatSessions. unfold_monad. by rewrite H.
Qed.

Lemma setItem_unwritable v w :
  storage_full w = true →
  setItem_chatSessions v w = Thrown QuotaExceededError w.
Proof.
  intros H. unfold setItem_chatSessions. unfold_monad. by rewrite H.
Qed.

Lemma ensureCsrfToken_returns w :
  ∃ v t c, ensureCsrfToken w = Returned v (set_console_error c (set_trace t w)).
Proof.
  destruct w. unfold ensureCsrfToken, getCookie_csrf_token, fetch, json, get_prop.
  unfold_monad. world_simpl.
  repeat case_match; simplify_eq; eexists _, _, _; world_simpl; reflexivity.
Qed.

Lemma addChatSessionToSidebar_returns sessionId preview paperTitle timestamp persistent w :
  ∃ l, addChatSessionToSidebar sessionId preview paperTitle timestamp persistent w =
       Returned tt (set_chat_history_list l w).
Proof.
  destruct w. unfold addChatSessionToSidebar. unfold_monad. world_simpl.
  destruct chat_history_list0; eexists; reflexivity.
Qed.

Lemma updateChatSessionInSidebar_returns sessionId latestQuestion w :
  ∃ l, updateChatSessionInSidebar sessionId latestQuestion w =
       Returned tt (set_chat_history_list l w).
Proof.
  destruct w. unfold updateChatSessionInSidebar. unfold_monad. world_simpl.
  destruct chat_history_list0 as [items|]; [|eexists; reflexivity].
  destruct (list_find _ items) as [[i item]|]; eexists; reflexivity.
Qed.

Lemma updateSidebar_returns data_session_id is_new_session question ctx w :
  ∃ l, updateSidebar data_session_id is_new_session question ctx w =
       Returned tt (set_chat_history_list l w).
Proof.
  unfold updateSidebar, isUserLoggedIn, getToken. unfold_monad.
  destruct (truthy is_new_session && _) eqn:Hnew.
  - destruct (window_addChatSessionToSidebar w).
    + apply addChatSessionToSidebar_returns.
    + destruct w. eexists; reflexivity.
  - destruct (truthy (of_option (token w))).
    + apply updateChatSessionInSidebar_returns.
    + destruct w. eexists; reflexivity.
Qed.

(** The steps of [sendQuestion] up to the request. *)
Ltac send_question Hctx Hq :=
  unfold sendQuestion; unfold_monad;
  rewrite Hctx, Hq;
  unfold addMessageToChat, showTypingIndicator, headers_with, isUserLoggedIn,
    getToken, fetch, removeTypingIndicator;
  unfold_monad; world_simpl;
  match goal with |- context [ensureCsrfToken ?w0] =>
    let v := fresh "csrf" in
    destruct (ensureCsrfToken_returns w0) as (v & ? & ? & ->) end;
  world_simpl.

Lemma sendQuestion_stored w ctx props m :
  currentPaperContext w = Some ctx →
  String.eqb (trim (modalQuestionInput w)) "" = false →
  exchange_answers w (VObj props) →
  truthy (own_prop (VObj props) "session_id") = true →
  index_of w = Some m →
  storage_full w = false →
  let sessionId := own_prop (VObj props) "session_id" in
  let blob := Some (Json (VObj (<[id ctx := exchange_record ctx sessionId (now w)]> m))) in
  ∃ nodes errors events l,
    let w2 := after_exchange w (Some (with_session ctx sessionId)) blob nodes errors events in
    updateSidebar sessionId (own_prop (VObj props) "is_new_session")
      (trim (modalQuestionInput w)) ctx w2 = Returned tt (set_chat_history_list l w2) ∧
    sendQuestion w = Returned tt (set_chat_history_list l w2).
Proof.
  intros Hctx Hq Hans Hsid Hi Hfull. cbv zeta.
  send_question Hctx Hq.
  match goal with |- context [remote w (POST_question ?b ?h)] =>
    destruct (Hans b h) as (status & -> & Hok) end.
  world_simpl. rewrite Hok.
  unfold json, get_prop, set_prop. unfold_monad. world_simpl. rewrite Hsid.
  rewrite parse_chatSessions_parsed. world_simpl.
  rewrite (parsed_index _ _ Hi).
  rewrite setItem_writable by exact Hfull. world_simpl.
  match goal with |- context [updateSidebar ?a ?b ?c ?d ?w2] =>
    destruct (updateSidebar_returns a b c d w2) as [l Hl] end.
  eexists _, _, _, l. split; [|rewrite Hl; reflexivity]. exact Hl.
Qed.

Lemma sendQuestion_unwritable w ctx props :
  currentPaperContext w = Some ctx →
  String.eqb (trim (modalQuestionInput w)) "" = false →
  exchange_answers w (VObj props) →
  truthy (own_prop (VObj props) "session_id") = true →
  storage_full w = true →
  ∃ nodes errors events,
    sendQuestion w =
    Returned tt
      (after_exchange w
         (Some (with_session ctx (own_prop (VObj props) "session_id")))
         (chatSessions w)
         (nodes ++ [MessageBubble (VStr network_failure_message) false])
         (errors ++ ["Error asking question:"]) events).
Proof.
  intros Hctx Hq Hans Hsid Hfull.
  send_question Hctx Hq.
  match goal with |- context [remote w (POST_question ?b ?h)] =>
    destruct (Hans b h) as (status & -> & Hok) end.
  world_simpl. rewrite Hok.
  unfold json, get_prop. unfold_monad. world_simpl. rewrite Hsid.
  rewrite parse_chatSessions_parsed. world_simpl.
  destruct (parsed (chatSessions w)) as [saved|].
  - destruct saved; unfold set_prop; unfold_monad; world_simpl;
      try rewrite setItem_unwritable by exact Hfull;
      world_simpl; eexists _, _, _; reflexivity.
  - world_simpl. eexists _, _, _; reflexivity.
Qed.

(** What an exchange does to the stored index, whatever happens: the
    stored blob is left as it was or the record of the paper is put into
    the parsed blob; the clock is not touched; [sendQuestion] never throws. *)
Lemma sendQuestion_effect w :
  ∃ w',
    sendQuestion w = Returned tt w' ∧
    (chatSessions w' = chatSessions w ∨
     ∃ ctx sessionId saved,
       currentPaperContext w = Some ctx ∧
       parsed (chatSessions w) = Some saved ∧
       chatSessions w' =
         Some (Json (put_prop saved (id ctx)
                       (exchange_record ctx sessionId (now w))))).
Proof.
  unfold sendQuestion. unfold_monad.
  destruct (currentPaperContext w) as [ctx|] eqn:Hctx; [|by eauto].
  destruct (String.eqb _ "") eqn:Hq; [by eauto|].
  unfold addMessageToChat, showTypingIndicator, headers_with, isUserLoggedIn,
    getToken, fetch, removeTypingIndicator.
  unfold_monad. world_simpl.
  match goal with |- context [ensureCsrfToken ?w0] =>
    destruct (ensureCsrfToken_returns w0) as (csrf & ? & ? & ->) end.
  world_simpl.
  destruct (remote w _) as [|status body]; world_simpl;
    [eexists; split; [reflexivity|by left]|].
  destruct (ok status); [|eexists; split; [reflexivity|by left]].
  unfold json. unfold_monad. world_simpl.
  destruct body as [data|]; world_simpl;
    [|eexists; split; [reflexivity|by left]].
  destruct data; unfold get_prop; unfold_monad; world_simpl;
    try (eexists; split; [reflexivity|by left]).
  all: match goal with |- context [truthy ?s] =>
         destruct (truthy s); [|eexists; split; [reflexivity|by left]] end.
  all: rewrite parse_chatSessions_parsed; world_simpl.
  all: destruct (parsed (chatSessions w)) as [saved|] eqn:Hp; world_simpl;
         [|eexists; split; [reflexivity|by left]].
  all: destruct saved; unfold set_prop; unfold_monad; world_simpl;
         try (eexists; split; [reflexivity|by left]).
  all: destruct (storage_full w);
         [rewrite setItem_unwritable by reflexivity; world_simpl;
          eexists; split; [reflexivity|by left]|].
  all: rewrite setItem_writable by reflexivity; world_simpl.
  all: match goal with |- context [updateSidebar ?a ?b ?c ?d ?w2] =>
         destruct (updateSidebar_returns a b c d w2) as [l ->] end.
  all: eexists; split; [reflexivity|right].
  all: eexists ctx, _, _; split; [done|]; split; reflexivity.
  Unshelve. all: exact VNull.
Qed.

(** ** Opening the conversation view *)

Lemma forEach_list_bubbles xs w :
  ∃ nodes,
    forEach_list xs addHistoryMessage w = Returned tt (set_chatContainer nodes w) ∨
    ∃ e, forEach_list xs addHistoryMessage w = Thrown e (set_chatContainer nodes w).
Proof.
  revert w. induction xs as [|x xs IH]; intros w.
  - exists (chatContainer w). left. by destruct w.
  - simpl. unfold_monad. unfold addHistoryMessage at 1. unfold_monad.
    destruct x; unfold get_prop, addMessageToChat; unfold_monad;
      try (exists (chatContainer w); right; exists TypeError; by destruct w).
    all: match goal with |- context [forEach_list _ _ ?w1] =>
           destruct (IH w1) as [nodes [H|[e H]]] end.
    all: exists nodes; rewrite H; world_simpl; eauto.
Qed.

Lemma loadChatHistory_returns sessionId w :
  ∃ nodes errors,
    loadChatHistory sessionId w =
    Returned tt
      (set_chatContainer nodes (set_console_error errors
         (set_trace (trace w ++ [Fetch (verify_request w sessionId)]) w))).
Proof.
  unfold loadChatHistory, headers_with, getToken, fetch, json.
  unfold_monad. world_simpl. fold (verify_request w sessionId).
  destruct (remote w _) as [|status body]; world_simpl; [by eexists _, _|].
  destruct (ok status).
  - destruct body as [data|]; world_simpl; [|by eexists _, _].
    destruct data; unfold get_prop at 1; unfold_monad; world_simpl;
      try (by eexists _, _).
    all: unfold get_prop at 1; unfold_monad; world_simpl.
    all: unfold forEach; try (by eexists _, _).
    all: match goal with
         | |- context [own_prop ?d "messages"] =>
             destruct (own_prop d "messages"); unfold_monad; world_simpl;
             try (by eexists _, _)
         end.
    all: match goal with |- context [forEach_list ?xs _ ?w1] =>
           destruct (forEach_list_bubbles xs w1) as [nodes [H|[e H]]] end.
    all: rewrite H; world_simpl; by eexists _, _.
  - destruct (currentPaperContext w); world_simpl; by eexists _, _.
Qed.

Lemma initChatModal_opens paper paperId paperTitle w m :
  index_of w = Some m →
  ∃ nodes errors events,
    initChatModal paper paperId paperTitle w =
    Returned tt
      (after_open w (new_context paper paperId paperTitle (cached m paperId))
         nodes errors events) ∧
    (truthy (cached m paperId) && logged_in w = false →
     nodes = [WelcomeMessage paperTitle] ∧ events = trace w) ∧
    (truthy (cached m paperId) && logged_in w = true →
     events = trace w ++ [Fetch (verify_request w (cached m paperId))]).
Proof.
  intros Hi. unfold initChatModal. unfold_monad.
  rewrite parse_chatSessions_parsed. world_simpl.
  rewrite (parsed_index _ _ Hi). rewrite cachedSessionId_index.
  unfold isUserLoggedIn, getToken. unfold_monad. world_simpl.
  fold (logged_in w).
  destruct (truthy (cached m paperId) && logged_in w) eqn:Hload.
  - match goal with |- context [loadChatHistory ?s ?w1] =>
      destruct (loadChatHistory_returns s w1) as (nodes & errors & ->) end.
    world_simpl. eexists _, _, _. split; [reflexivity|done].
  - eexists _, _, _. split; [reflexivity|done].
Qed.

Lemma initChatModal_unparseable paper paperId paperTitle w :
  parsed (chatSessions w) = None →
  initChatModal paper paperId paperTitle w =
  Thrown SyntaxError (set_chatContainer [] w).
Proof.
  intros Hp. unfold initChatModal. unfold_monad.
  rewrite parse_chatSessions_parsed. world_simpl. by rewrite Hp.
Qed.

Lemma checkExistingChatSession_unparseable paperId w :
  logged_in w = true →
  parsed (chatSessions w) = None →
  checkExistingChatSession paperId w = Thrown SyntaxError w.
Proof.
  intros Hl Hp. unfold checkExistingChatSession, isUserLoggedIn, getToken.
  unfold_monad. unfold logged_in in Hl. rewrite Hl. simpl.
  rewrite parse_chatSessions_parsed. by rewrite Hp.
Qed.

(** ** The resolver over a store that refuses writes *)

Lemma resolve_unwritable w paperId m :
  logged_in w = true →
  index_of w = Some m →
  storage_full w = true →
  ∃ result more request rest,
    checkExistingChatSession paperId w =
    Returned result
      (set_console_error (console_error w ++ more)
         (set_trace (trace w ++ Fetch request :: rest) w)) ∧
    (stale w m paperId = true → "Error verifying persistent session:" ∈ more) ∧
    (confirmed w m paperId = false →
     is_Some (found (remote w (lookup_request w paperId))) →
     result = VNull ∧ "Error checking existing chat session:" ∈ more).
Proof.
  intros logged readable Hfull.
  rewrite (checkExistingChatSession_blocks _ _ _ logged readable).
  unfold stale, confirmed.
  destruct (truthy (cached m paperId)) eqn:Hs; simpl.
  - destruct (remote w (verify_request w (cached m paperId)))
      as [|status body] eqn:Hv.
    + rewrite verify_unreachable by done.
      destruct (found (remote w (lookup_request w paperId))) as [[s t]|] eqn:Hf.
      * rewrite (lookup_found_unwritable _ _ _ s t) by done. world_simpl.
        rewrite <- !app_assoc.
        eexists _, _, _, _. split; [reflexivity|]. split; [done|].
        intros _ _. split; [done|]. set_solver.
      * match goal with |- context [lookupSessionOfPaper _ _ ?w1] =>
          destruct (lookup_missing w1 paperId m Hf) as [more ->] end.
        world_simpl. rewrite <- !app_assoc.
        eexists _, _, _, _. split; [reflexivity|]. split; [done|].
        by intros _ [? ?].
    + destruct (ok status) eqn:Hok; simpl.
      * rewrite (verify_confirmed _ _ _ status body) by done.
        exists (cached m paperId), [], (verify_request w (cached m paperId)), [].
        rewrite app_nil_r. world_simpl. done.
      * rewrite (verify_stale_unwritable _ _ _ status body) by done.
        destruct (found (remote w (lookup_request w paperId))) as [[s t]|] eqn:Hf.
        -- rewrite (lookup_found_unwritable _ _ _ s t) by done. world_simpl.
           rewrite <- !app_assoc.
           eexists _, _, _, _. split; [reflexivity|]. split; [set_solver|].
           intros _ _. split; [done|]. set_solver.
        -- match goal with |- context [lookupSessionOfPaper _ _ ?w1] =>
             destruct (lookup_missing w1 paperId (delete paperId m) Hf)
               as [more ->] end.
           world_simpl. rewrite <- !app_assoc.
           eexists _, _, _, _. split; [reflexivity|]. split; [set_solver|].
           by intros _ [? ?].
  - rewrite verify_uncached by done.
    destruct (found (remote w (lookup_request w paperId))) as [[s t]|] eqn:Hf.
    + rewrite (lookup_found_unwritable _ _ _ s t) by done.
      eexists _, _, _, []. split; [reflexivity|]. split; [done|].
      intros _ _. split; [done|]. set_solver.
    + destruct (lookup_missing w paperId m Hf) as [more ->].
      eexists _, _, _, []. split; [reflexivity|]. split; [done|].
      by intros _ [? ?].
Qed.

(** Over a readable index the resolver of a logged-in user returns,
    whatever the server and the store do, and it has asked the server. *)
Lemma checkExistingChatSession_asks paperId w m :
  logged_in w = true →
  index_of w = Some m →
  ∃ result w' request rest,
    checkExistingChatSession paperId w = Returned result w' ∧
    trace w' = trace w ++ Fetch request :: rest.
Proof.
  intros logged readable.
  destruct (storage_full w) eqn:Hfull.
  - destruct (resolve_unwritable w paperId m) as (? & ? & ? & ? & -> & _); eauto.
    by eexists _, _, _, _.
  - destruct (truthy (cached m paperId)) eqn:Hs;
      [destruct (remote w (verify_request w (cached m paperId)))
         as [|status body] eqn:Hv; [|destruct (ok status) eqn:Hok]|];
      destruct (found (remote w (lookup_request w paperId))) as [[s t]|] eqn:Hf.
    + destruct (resolve_unreachable_found w paperId m logged readable s t) as [? ->]; eauto.
      by eexists _, _, _, _.
    + destruct (resolve_unreachable_missing w paperId m logged readable) as [? ->]; eauto.
      by eexists _, _, _, _.
    + destruct (resolve_verified w paperId m logged readable status body) as [? ->]; eauto.
      by eexists _, _, _, _.
    + destruct (resolve_verified w paperId m logged readable status body) as [? ->]; eauto.
      by eexists _, _, _, _.
    + destruct (resolve_stale_found w paperId m logged readable status body s t) as [? ->]; eauto.
      by eexists _, _, _, _.
    + destruct (resolve_stale_missing w paperId m logged readable status body) as [? ->]; eauto.
      by eexists _, _, _, _.
    + destruct (resolve_uncached_found w paperId m logged readable s t) as [? ->]; eauto.
      by eexists _, _, _, _.
    + destruct (resolve_uncached_missing w paperId m logged readable) as [? ->]; eauto.
      by eexists _, _, _, _.
Qed.

(** Over a readable index the resolver returns, whoever asks. *)
Lemma checkExistingChatSession_returns paperId w m :
  index_of w = Some m →
  ∃ result w', checkExistingChatSession paperId w = Returned result w'.
Proof.
  intros readable.
  destruct (logged_in w) eqn:logged;
    [|rewrite checkExistingChatSession_guest by done; eauto].
  destruct (checkExistingChatSession_asks paperId w m logged readable)
    as (? & ? & _ & _ & -> & _); eauto.
Qed.

(** ** The scenarios of §8 of the specification *)

(** Nothing is cached for P1 and the server knows no session of P1:
    resolution yields none. *)
Example scenario_P1_resolution :
  ∃ w',
    checkExistingChatSession "P1" (asking "What is the method?" (server_S1 true)) =
      Returned VNull w' ∧
    chatSessions w' = None.
Proof. eexists. split; [vm_compute; reflexivity|done]. Qed.

(** The first question then opens session S1: the index holds P1 -> S1 and
    the session list shows one new entry. *)
Example scenario_P1_exchange :
  ∃ w',
    sendQuestion (asking "What is the method?" (server_S1 true)) = Returned tt w' ∧
    (λ m, cached m "P1") <$> index_of w' = Some (VStr "S1") ∧
    chat_history_list w' =
      Some [ {| data_session_id := "S1";
                history_item_question := Some "What is the method?";
                history_item_date := Some "1 Jan";
                history_item_title := Some "Paper one" |} ].
Proof. eexists. split; [vm_compute; reflexivity|]. by vm_compute. Qed.

(** S2 is cached for P2 and alive: resolution returns it and writes nothing. *)
Example scenario_P2 :
  ∃ w',
    checkExistingChatSession "P2" page_P2 = Returned (VStr "S2") w' ∧
    trace w' = [Fetch (verify_request page_P2 (VStr "S2"))] ∧
    chatSessions w' = chatSessions page_P2.
Proof. eexists. split; [vm_compute; reflexivity|done]. Qed.

(** ** What the index holds for a paper *)

Lemma cached_exchange_record ctx sessionId date m :
  truthy sessionId = true →
  cached (<[id ctx := exchange_record ctx sessionId date]> m) (id ctx) = sessionId.
Proof.
  intros Hsid. unfold cached. rewrite lookup_insert_eq. cbn [default].
  unfold Datatypes.id.
  change (truthy (exchange_record ctx sessionId date)) with true. cbv iota.
  unfold sessionId_of_entry.
  change (typeof (exchange_record ctx sessionId date)) with "object".
  change (own_prop (exchange_record ctx sessionId date) "sessionId") with sessionId.
  by rewrite Hsid.
Qed.

Lemma cached_resolved_record paperId sessionId paperTitle m :
  truthy sessionId = true →
  cached (<[paperId := resolved_record paperId sessionId paperTitle]> m) paperId =
  sessionId.
Proof.
  intros Hsid. unfold cached. rewrite lookup_insert_eq. cbn [default].
  unfold Datatypes.id.
  change (truthy (resolved_record paperId sessionId paperTitle)) with true. cbv iota.
  unfold sessionId_of_entry.
  change (typeof (resolved_record paperId sessionId paperTitle)) with "object".
  change (own_prop (resolved_record paperId sessionId paperTitle) "sessionId")
    with sessionId.
  by rewrite Hsid.
Qed.

Lemma cached_other paperId other record m :
  other ≠ paperId →
  cached (<[paperId := record]> m) other = cached m other.
Proof. intros Hne. unfold cached. by rewrite lookup_insert_ne. Qed.

Lemma found_truthy r s t : found r = Some (s, t) → truthy s = true.
Proof.
  unfold found. destruct r as [|status [data|]]; try done.
  destruct (ok status); [|done]. simpl.
  destruct (truthy (own_prop data "session_id")) eqn:Hs; [|done].
  by intros [= <- <-].
Qed.

Lemma parsed_object w m :
  parsed (chatSessions w) = Some (VObj m) → index_of w = Some m.
Proof.
  unfold index_of, parsed.
  destruct (chatSessions w) as [[text|v]|].
  - destruct text; [|done]. by intros [= <-].
  - intros [= ->]. done.
  - by intros [= <-].
Qed.

(** ** The view after an exchange that could not be stored *)

Lemma remove_indicator_bubble nodes message isUser :
  remove_indicator (nodes ++ [MessageBubble message isUser]) =
  remove_indicator nodes ++ [MessageBubble message isUser].
Proof.
  induction nodes as [|node nodes IH]; [done|].
  destruct node; simpl; by rewrite ?IH.
Qed.

Lemma sendQuestion_unwritable_view w ctx props :
  currentPaperContext w = Some ctx →
  String.eqb (trim (modalQuestionInput w)) "" = false →
  exchange_answers w (VObj props) →
  truthy (own_prop (VObj props) "session_id") = true →
  storage_full w = true →
  ∃ nodes errors events,
    sendQuestion w =
    Returned tt
      (after_exchange w
         (Some (with_session ctx (own_prop (VObj props) "session_id")))
         (chatSessions w)
         (nodes ++ [MessageBubble (shown_answer (VObj props)) false;
                    MessageBubble (VStr network_failure_message) false])
         (errors ++ ["Error asking question:"]) events).
Proof.
  intros Hctx Hq Hans Hsid Hfull.
  send_question Hctx Hq.
  match goal with |- context [remote w (POST_question ?b ?h)] =>
    destruct (Hans b h) as (status & -> & Hok) end.
  world_simpl. rewrite Hok.
  unfold json, get_prop. unfold_monad. world_simpl. rewrite Hsid.
  rewrite parse_chatSessions_parsed. world_simpl.
  destruct (parsed (chatSessions w)) as [saved|].
  - destruct saved; unfold set_prop; unfold_monad; world_simpl;
      try rewrite setItem_unwritable by exact Hfull;
      world_simpl; rewrite remove_indicator_bubble, <- app_assoc;
      eexists _, _, _; reflexivity.
  - world_simpl. rewrite remove_indicator_bubble, <- app_assoc.
    eexists _, _, _; reflexivity.
Qed.

(** ** Opening over any view *)

Lemma initChatModal_clears paper paperId paperTitle view w :
  initChatModal paper paperId paperTitle (set_chatContainer view w) =
  initChatModal paper paperId paperTitle w.
Proof. unfold initChatModal. unfold_monad. by destruct w. Qed.

(** ** Reading the index, whatever the stored blob parses to *)

Lemma cachedSessionId_saved saved paperId w :
  nullish saved = false →
  cachedSessionId saved paperId w = Returned (read_entry saved paperId) w.
Proof.
  intros Hn. unfold cachedSessionId, read_entry, get_prop. unfold_monad.
  destruct saved; try done; simpl; by destruct (truthy _).
Qed.

Lemma initChatModal_reads paper paperId paperTitle w saved :
  parsed (chatSessions w) = Some saved →
  nullish saved = false →
  ∃ nodes errors events,
    initChatModal paper paperId paperTitle w =
    Returned tt
      (after_open w (new_context paper paperId paperTitle (read_entry saved paperId))
         nodes errors events).
Proof.
  intros Hp Hn. unfold initChatModal. unfold_monad.
  rewrite parse_chatSessions_parsed. world_simpl.
  rewrite Hp. rewrite (cachedSessionId_saved _ _ _ Hn).
  unfold isUserLoggedIn, getToken. unfold_monad. world_simpl.
  destruct (truthy (read_entry saved paperId) && _).
  - match goal with |- context [loadChatHistory ?s ?w1] =>
      destruct (loadChatHistory_returns s w1) as (nodes & errors & ->) end.
    world_simpl. by eexists _, _, _.
  - by eexists _, _, _.
Qed.

Lemma lookupSessionOfPaper_returns paperId saved w :
  ∃ result w', lookupSessionOfPaper paperId saved w = Returned result w'.
Proof.
  unfold lookupSessionOfPaper.
  unfold headers_with, getToken, fetch, json, get_prop, set_prop, setItem_chatSessions.
  unfold_monad. world_simpl.
  repeat case_match; simplify_eq; eauto.
Qed.

Lemma verifyCachedSession_returns paperId saved w :
  nullish saved = false →
  ∃ result w', verifyCachedSession paperId saved w = Returned result w'.
Proof.
  intros Hn. unfold verifyCachedSession. unfold_monad.
  rewrite (cachedSessionId_saved _ _ _ Hn).
  unfold headers_with, getToken, fetch, delete_prop, setItem_chatSessions.
  unfold_monad. world_simpl.
  destruct saved; try done; repeat case_match; simplify_eq; eauto.
Qed.

Lemma checkExistingChatSession_reads paperId w saved :
  parsed (chatSessions w) = Some saved →
  nullish saved = false →
  ∃ result w', checkExistingChatSession paperId w = Returned result w'.
Proof.
  intros Hp Hn. unfold checkExistingChatSession, isUserLoggedIn, getToken.
  unfold_monad. destruct (negb _); [by eauto|].
  rewrite parse_chatSessions_parsed. rewrite Hp.
  destruct (verifyCachedSession_returns paperId saved w Hn) as ([s|saved'] & w' & ->).
  - eauto.
  - apply lookupSessionOfPaper_returns.
Qed.

(** * The claims *)

(** C4.  Sending an input that is empty or made of white space only does
    nothing at all: [sendQuestion] returns at once in the world it was
    called in, so no request is made (the trace is the same) and neither
    the context nor the Local Session Index changes. *)
Theorem sendQuestion_blank w :
  whitespace_only (modalQuestionInput w) = true →
  sendQuestion w = Returned tt w.
Proof.
  intros H. unfold sendQuestion. unfold_monad.
  rewrite (trim_whitespace_only _ H).
  destruct (currentPaperContext w); reflexivity.
Qed.

Lemma sendQuestion_blank_witness :
  sendQuestion (asking "   " (server_S1 true)) =
  Returned tt (asking "   " (server_S1 true)).
Proof.
  exact (sendQuestion_blank (asking "   " (server_S1 true)) eq_refl).
Defined.

(** C2.  When the exchange fails (the request is rejected, or answered
    with a status outside 200-299), the conversation view ends with an
    inline failure message, after the user's question, and the context
    (both bindings) and the blob stored under "chatSessions" are what they
    were before the send. *)
Theorem sendQuestion_failure w ctx :
  currentPaperContext w = Some ctx →
  String.eqb (trim (modalQuestionInput w)) "" = false →
  exchange_fails w →
  ∃ w' message,
    sendQuestion w = Returned tt w' ∧
    (message = network_failure_message ∨ message = server_failure_message) ∧
    chatContainer w' =
      remove_indicator
        (chatContainer w ++
           [MessageBubble (VStr (trim (modalQuestionInput w))) true; TypingIndicator])
      ++ [MessageBubble (VStr message) false] ∧
    currentPaperContext w' = currentPaperContext w ∧
    window_currentPaperContext w' = window_currentPaperContext w ∧
    chatSessions w' = chatSessions w.
Proof.
  intros Hctx Hq Hfail.
  send_question Hctx Hq.
  match goal with |- context [remote w (POST_question ?b ?h)] =>
    pose proof (Hfail b h) as Hf; destruct (remote w (POST_question b h)) end.
  - eexists _, network_failure_message. split; [reflexivity|].
    world_simpl. rewrite <- app_assoc. auto.
  - world_simpl. rewrite Hf.
    eexists _, server_failure_message. split; [reflexivity|].
    world_simpl. rewrite <- app_assoc. auto.
Qed.

Lemma sendQuestion_failure_witness :
  ∃ w' message,
    sendQuestion (asking "Why?" no_server) = Returned tt w' ∧
    (message = network_failure_message ∨ message = server_failure_message) ∧
    chatContainer w' =
      [MessageBubble (VStr "Why?") true; MessageBubble (VStr message) false] ∧
    currentPaperContext w' = Some paper_P1 ∧
    window_currentPaperContext w' = None ∧
    chatSessions w' = None.
Proof.
  exact (sendQuestion_failure (asking "Why?" no_server) paper_P1
           eq_refl eq_refl (λ _ _, I)).
Defined.

(** C1.  Session resolution of a logged-in user, over a readable index and
    a writable store, follows the order of §4.2.  The local index is
    consulted first; a cached session id is verified with the server and
    returned when the server confirms it.  When the server answers the
    verification with a failure status, the stale entry is evicted (a write
    of the index without it) before the lookup by paper id, hence before any
    new session id is cached for the paper.  When the verification request
    itself fails, or nothing is cached, resolution falls through to the
    lookup by paper id with the index as it was.  A session that the lookup
    finds is put into the index, so that the entry of the paper in the
    stored index then reads as the session id found, and is returned; when
    the lookup finds none, or its request fails, resolution returns [null];
    no case throws. *)
Theorem resolution_order w paperId m :
  logged_in w = true →
  index_of w = Some m →
  storage_full w = false →
  let sessionId := cached m paperId in
  let verify := verify_request w sessionId in
  let lookup := lookup_request w paperId in
  let put s t m0 := <[paperId := resolved_record paperId s t]> m0 in
  let fall_through before m0 blob :=
    match found (remote w lookup) with
    | Some (s, t) =>
        resolves w paperId s (Some (Json (VObj (put s t m0))))
          (before ++ [Fetch lookup; SetItem "chatSessions" (VObj (put s t m0))]) ∧
        cached (put s t m0) paperId = s
    | None =>
        resolves w paperId VNull blob (before ++ [Fetch lookup])
    end in
  if truthy sessionId then
    match remote w verify with
    | Response status _ =>
        if ok status
        then resolves w paperId sessionId (chatSessions w) [Fetch verify]
        else fall_through
               [Fetch verify; SetItem "chatSessions" (VObj (delete paperId m))]
               (delete paperId m)
               (Some (Json (VObj (delete paperId m))))
    | NetworkError => fall_through [Fetch verify] m (chatSessions w)
    end
  else fall_through [] m (chatSessions w).
Proof.
  intros logged readable writable. cbv zeta.
  destruct (truthy (cached m paperId)) eqn:Hs.
  - destruct (remote w (verify_request w (cached m paperId)))
      as [|status body] eqn:Hv.
    + destruct (found _) as [[s t]|] eqn:Hf.
      * split; [by eapply (resolve_unreachable_found w paperId m)|].
        apply cached_resolved_record, (found_truthy _ _ _ Hf).
      * by eapply (resolve_unreachable_missing w paperId m).
    + destruct (ok status) eqn:Hok.
      * by eapply (resolve_verified w paperId m).
      * destruct (found _) as [[s t]|] eqn:Hf.
        -- split; [by eapply (resolve_stale_found w paperId m)|].
           apply cached_resolved_record, (found_truthy _ _ _ Hf).
        -- by eapply (resolve_stale_missing w paperId m).
  - destruct (found _) as [[s t]|] eqn:Hf.
    + split; [by eapply (resolve_uncached_found w paperId m)|].
      apply cached_resolved_record, (found_truthy _ _ _ Hf).
    + by eapply (resolve_uncached_missing w paperId m).
Qed.

(** The third scenario of §8: S3 is cached for P3, the server reports it
    gone and knows S4; resolution evicts S3, then finds, caches and returns
    S4, and the index then reads S4 for P3. *)
Lemma resolution_order_witness :
  resolves page_P3 "P3" (VStr "S4")
    (Some (Json (VObj
       {[ "P3" := resolved_record "P3" (VStr "S4") (VStr "Paper three") ]})))
    [Fetch (verify_request page_P3 (VStr "S3"));
     SetItem "chatSessions" (VObj ∅);
     Fetch (lookup_request page_P3 "P3");
     SetItem "chatSessions" (VObj
       {[ "P3" := resolved_record "P3" (VStr "S4") (VStr "Paper three") ]})] ∧
  cached {[ "P3" := resolved_record "P3" (VStr "S4") (VStr "Paper three") ]} "P3" =
    VStr "S4".
Proof.
  exact (resolution_order page_P3 "P3" index_P3 eq_refl eq_refl eq_refl).
Defined.

(** C10.  During resolution, every answer to the verification request
    with a status outside 200-299 (a not-found report as well as, say, a
    server error) evicts the cached entry of the paper: the index is written
    without it right after the request and before the lookup by paper id.
    When the verification request itself fails, nothing is written before
    the lookup by paper id: the entry stays in place, and it is still there
    at the end unless the lookup caches a session of its own. *)
Theorem verification_failure_evicts w paperId m :
  logged_in w = true →
  index_of w = Some m →
  storage_full w = false →
  truthy (cached m paperId) = true →
  let verify := verify_request w (cached m paperId) in
  let lookup := lookup_request w paperId in
  (∀ status body,
     remote w verify = Response status body →
     ok status = false →
     ∃ result blob rest,
       resolves w paperId result blob
         (Fetch verify :: SetItem "chatSessions" (VObj (delete paperId m)) ::
          Fetch lookup :: rest) ∧
       (rest = [] → result = VNull ∧ blob = Some (Json (VObj (delete paperId m))))) ∧
  (remote w verify = NetworkError →
     ∃ result blob rest,
       resolves w paperId result blob (Fetch verify :: Fetch lookup :: rest) ∧
       (rest = [] → result = VNull ∧ blob = chatSessions w)).
Proof.
  intros logged readable writable Hs. cbv zeta. split.
  - intros status body Hv Hok.
    destruct (found (remote w (lookup_request w paperId))) as [[s t]|] eqn:Hf.
    + eexists _, _, [_]. split; [|done].
      by eapply (resolve_stale_found w paperId m).
    + eexists _, _, []. split; [|done].
      by eapply (resolve_stale_missing w paperId m).
  - intros Hv.
    destruct (found (remote w (lookup_request w paperId))) as [[s t]|] eqn:Hf.
    + eexists _, _, [_]. split; [|done].
      by eapply (resolve_unreachable_found w paperId m).
    + eexists _, _, []. split; [|done].
      by eapply (resolve_unreachable_missing w paperId m).
Qed.

(** A server error evicts; a dead network does not. *)
Lemma verification_failure_evicts_witness :
  (∃ result blob rest,
     resolves page_P3_server_error "P3" result blob
       (Fetch (verify_request page_P3_server_error (VStr "S3")) ::
        SetItem "chatSessions" (VObj ∅) ::
        Fetch (lookup_request page_P3_server_error "P3") :: rest) ∧
     (rest = [] → result = VNull ∧ blob = Some (Json (VObj ∅)))) ∧
  (∃ result blob rest,
     resolves page_P3_offline "P3" result blob
       (Fetch (verify_request page_P3_offline (VStr "S3")) ::
        Fetch (lookup_request page_P3_offline "P3") :: rest) ∧
     (rest = [] → result = VNull ∧ blob = Some (Json (VObj index_P3)))).
Proof.
  split.
  - exact (proj1 (verification_failure_evicts page_P3_server_error "P3" index_P3
                    eq_refl eq_refl eq_refl eq_refl) 500%nat None eq_refl eq_refl).
  - exact (proj2 (verification_failure_evicts page_P3_offline "P3" index_P3
                    eq_refl eq_refl eq_refl eq_refl) eq_refl).
Defined.

(** C5 does not hold for every stored blob: text that [JSON.parse]
    rejects makes both readers of the index throw a [SyntaxError], and the
    JSON text [null] makes them throw a [TypeError] when they read the entry
    of the paper. *)
Lemma index_read_throws :
  initChatModal search_result "P1" "Paper one" garbled_page =
    Thrown SyntaxError (set_chatContainer [] garbled_page) ∧
  checkExistingChatSession "P1" garbled_page = Thrown SyntaxError garbled_page ∧
  initChatModal search_result "P1" "Paper one" null_page =
    Thrown TypeError (set_chatContainer [] null_page) ∧
  checkExistingChatSession "P1" null_page = Thrown TypeError null_page.
Proof. repeat split; reflexivity. Qed.

(** C5, amended.  Reading the entry of a paper fails only for the two
    blobs above.  When nothing is stored, or the stored blob is the text of
    any JSON value but [null] (an object, but also an array, a number, a
    string or a boolean), it never fails: both readers return, and
    [initChatModal] puts what it read into the new context.  A blob that is
    not an object has no entries.  A missing entry reads as [null]; so does
    a malformed one ([null], a boolean, zero, the empty string, an array, a
    record without a truthy [sessionId]); a legacy entry, a bare string or
    number, reads as itself and a record as its [sessionId]. *)
Theorem index_read_tolerant w paperId saved :
  parsed (chatSessions w) = Some saved →
  nullish saved = false →
  (∀ paper paperTitle,
     ∃ w',
       initChatModal paper paperId paperTitle w = Returned tt w' ∧
       chat_session_id <$> window_currentPaperContext w' =
         Some (read_entry saved paperId)) ∧
  (∃ result w', checkExistingChatSession paperId w = Returned result w') ∧
  read_entry saved paperId =
    match saved with
    | VObj m =>
        match m !! paperId with
        | None => VNull
        | Some (VStr s) => if String.eqb s "" then VNull else VStr s
        | Some (VNum n) => if n =? 0 then VNull else VNum n
        | Some (VObj record) =>
            let sessionId := default VUndefined (record !! "sessionId") in
            if truthy sessionId then sessionId else VNull
        | Some _ => VNull
        end
    | _ => VNull
    end.
Proof.
  intros Hp Hn. split; [|split].
  - intros paper paperTitle.
    destruct (initChatModal_reads paper paperId paperTitle w saved Hp Hn)
      as (nodes & errors & events & ->).
    eexists. split; reflexivity.
  - by apply (checkExistingChatSession_reads paperId w saved).
  - unfold read_entry. destruct saved as [| |b|n|s|xs|m]; try done.
    cbn [own_prop]. destruct (m !! paperId) as [entry|]; [|done].
    destruct entry as [| |b|n|s|xs|record];
      unfold sessionId_of_entry; simpl; try done.
    all: by repeat case_match.
Qed.

(** The readers over a blob that is an array, and over an index whose
    entry for the paper is a record without a session id. *)
Lemma index_read_tolerant_witness :
  (read_entry (VArr [VStr "S1"]) "P1" = VNull ∧
   ∃ result w', checkExistingChatSession "P1" array_page = Returned result w') ∧
  (read_entry (VObj malformed_index) "P2" = VNull ∧
   ∃ w',
     initChatModal search_result "P2" "Paper two" malformed_page = Returned tt w' ∧
     chat_session_id <$> window_currentPaperContext w' =
       Some (read_entry (VObj malformed_index) "P2")).
Proof.
  split.
  - pose proof (index_read_tolerant array_page "P1" (VArr [VStr "S1"])
                  eq_refl eq_refl) as (_ & H & E).
    split; [exact E|exact H].
  - pose proof (index_read_tolerant malformed_page "P2" (VObj malformed_index)
                  eq_refl eq_refl) as (H & _ & E).
    split; [exact E|exact (H search_result "Paper two")].
Defined.

(** C6 does not hold.  On [active_page] a conversation about P1 is under
    way: an exchange has happened, the context that [sendQuestion] uses
    carries session S1 and the view shows the question and the answer.
    Opening the view for P1 again asks the server three more times
    (verification, lookup by paper id, history), clears the conversation
    view and replaces the context of [window] by a new one. *)
Lemma reopen_resolves_again :
  currentPaperContext active_page = Some (with_session paper_P1 (VStr "S1")) ∧
  chatContainer active_page =
    [WelcomeMessage "Paper one"; MessageBubble (VStr "Why?") true;
     MessageBubble (VStr "An answer.") false] ∧
  ∃ w',
    askBtn_click (λ _, mret tt) search_result "P1" "Paper one" active_page =
      Returned tt w' ∧
    trace w' =
      trace active_page ++
      [Fetch (verify_request active_page (VStr "S1"));
       Fetch (lookup_request active_page "P1");
       Fetch (verify_request active_page (VStr "S1"))] ∧
    chatContainer w' = [] ∧
    window_currentPaperContext w' =
      Some (new_context search_result "P1" "Paper one" (VStr "S1")) ∧
    window_currentPaperContext w' ≠ window_currentPaperContext active_page.
Proof.
  split; [vm_compute; reflexivity|]. split; [vm_compute; reflexivity|].
  eexists. split; [vm_compute; reflexivity|].
  repeat split. by vm_compute.
Qed.

(** C6, amended.  Opening a conversation view never reuses a context.  For
    a logged-in user the click handler runs resolution first, which asks
    the server, and hands a session that resolution returns to
    [openChatSession]; for a guest, and when resolution returns none, it
    calls [initChatModal].  Over a readable index (nothing stored, or the
    text of a JSON object) [initChatModal] returns; it clears the
    conversation view, so that the view after the call is the same whatever
    the view showed before, and is the welcome message alone when no history
    is loaded; and it replaces the context of [window] by a new one that it
    builds from its arguments and the session id cached in the index,
    whatever the contexts were; the binding that [sendQuestion] reads is not
    assigned. *)
Theorem open_rebuilds_context w paper paperId paperTitle m :
  index_of w = Some m →
  (∃ nodes errors events,
     (∀ view,
        initChatModal paper paperId paperTitle (set_chatContainer view w) =
        Returned tt
          (after_open w (new_context paper paperId paperTitle (cached m paperId))
             nodes errors events)) ∧
     (truthy (cached m paperId) && logged_in w = false →
      nodes = [WelcomeMessage paperTitle])) ∧
  (logged_in w = true →
   ∀ openChatSession,
     ∃ result w1 request rest,
       checkExistingChatSession paperId w = Returned result w1 ∧
       trace w1 = trace w ++ Fetch request :: rest ∧
       askBtn_click openChatSession paper paperId paperTitle w =
         if truthy result
         then (openChatSession result ≫= λ _, mret tt) w1
         else initChatModal paper paperId paperTitle w1) ∧
  (logged_in w = false →
   ∀ openChatSession,
     askBtn_click openChatSession paper paperId paperTitle w =
     initChatModal paper paperId paperTitle w).
Proof.
  intros readable. split; [|split].
  - destruct (initChatModal_opens paper paperId paperTitle w m readable)
      as (nodes & errors & events & Hopen & Hquiet & _).
    exists nodes, errors, events. split.
    + intros view. by rewrite initChatModal_clears.
    + intros Hno. by destruct (Hquiet Hno).
  - intros logged open.
    destruct (checkExistingChatSession_asks paperId w m logged readable)
      as (result & w1 & request & rest & Hr & Ht).
    exists result, w1, request, rest. split; [done|]. split; [done|].
    unfold askBtn_click, isUserLoggedIn, getToken. unfold_monad.
    unfold logged_in in logged. rewrite logged, Hr.
    destruct (truthy result).
    + by destruct (open result w1).
    + by destruct (initChatModal _ _ _ w1).
  - intros guest open.
    unfold askBtn_click, isUserLoggedIn, getToken. unfold_monad.
    unfold logged_in in guest. rewrite guest.
    by destruct (initChatModal _ _ _ _).
Qed.

Lemma open_rebuilds_context_witness :
  ∃ nodes errors events,
    (∀ view,
       initChatModal search_result "P1" "Paper one"
         (set_chatContainer view active_page) =
       Returned tt
         (after_open active_page
            (new_context search_result "P1" "Paper one" (VStr "S1"))
            nodes errors events)) ∧
    (truthy (cached index_P1 "P1") && logged_in active_page = false →
     nodes = [WelcomeMessage "Paper one"]).
Proof.
  exact (proj1 (open_rebuilds_context active_page search_result "P1" "Paper one"
                  index_P1 eq_refl)).
Defined.

(** C7 does not hold: a write that the store refuses is caught, but not
    in silence.  On a page whose store is full, the exchange that the server
    answered ends with the message of a network failure below the answer and
    the session list is not touched, while the same exchange over a store
    that accepts the write shows the answer only and adds the session to the
    list.  On a device without an index whose store is full, the resolver
    returns [null] for the paper whose session the server has just
    reported, while over a store that accepts the write it returns that
    session. *)
Lemma storage_failure_shows :
  (∃ w',
     sendQuestion unwritable_page = Returned tt w' ∧
     chatContainer w' =
       [MessageBubble (VStr "Why?") true;
        MessageBubble (VStr "An answer.") false;
        MessageBubble (VStr network_failure_message) false] ∧
     chat_history_list w' = Some []) ∧
  (∃ w',
     sendQuestion (asking "Why?" (server_S1 true)) = Returned tt w' ∧
     chatContainer w' =
       [MessageBubble (VStr "Why?") true;
        MessageBubble (VStr "An answer.") false] ∧
     chat_history_list w' =
       Some [ {| data_session_id := "S1";
                 history_item_question := Some "Why?";
                 history_item_date := Some "1 Jan";
                 history_item_title := Some "Paper one" |} ]) ∧
  (∃ w',
     checkExistingChatSession "P3" (set_storage_full true new_device) =
       Returned VNull w' ∧
     chatSessions w' = None) ∧
  (∃ w',
     checkExistingChatSession "P3" new_device = Returned (VStr "S4") w').
Proof.
  split; [|split; [|split]].
  - eexists. split; [vm_compute; reflexivity|]. by vm_compute.
  - eexists. split; [vm_compute; reflexivity|]. by vm_compute.
  - eexists. split; [vm_compute; reflexivity|]. by vm_compute.
  - eexists. vm_compute. reflexivity.
Qed.

(** C7, amended.  A write of the Local Session Index that the store
    refuses is logged on the console and no exception leaves the caller, but
    the refusal shows.  In an exchange the context already carries the
    session id of the answer when the write fails, and keeps it; the view
    ends with the answer followed by the message of a network failure, and
    the session list is left as it was.  The resolver of a logged-in user
    over a readable index returns as well, with [null] when the refused
    write was the one that caches a session found by paper id.  The stored
    blob stays what it was. *)
Theorem storage_failure_caught w :
  storage_full w = true →
  (∀ ctx props,
     currentPaperContext w = Some ctx →
     String.eqb (trim (modalQuestionInput w)) "" = false →
     exchange_answers w (VObj props) →
     truthy (own_prop (VObj props) "session_id") = true →
     ∃ w' nodes,
       sendQuestion w = Returned tt w' ∧
       currentPaperContext w' =
         Some (with_session ctx (own_prop (VObj props) "session_id")) ∧
       chatSessions w' = chatSessions w ∧
       chatContainer w' =
         nodes ++ [MessageBubble (shown_answer (VObj props)) false;
                   MessageBubble (VStr network_failure_message) false] ∧
       chat_history_list w' = chat_history_list w ∧
       last (console_error w') = Some "Error asking question:") ∧
  (∀ paperId m,
     logged_in w = true →
     index_of w = Some m →
     ∃ result w',
       checkExistingChatSession paperId w = Returned result w' ∧
       chatSessions w' = chatSessions w ∧
       (stale w m paperId = true →
        "Error verifying persistent session:" ∈ console_error w') ∧
       (confirmed w m paperId = false →
        is_Some (found (remote w (lookup_request w paperId))) →
        result = VNull ∧
        "Error checking existing chat session:" ∈ console_error w')).
Proof.
  intros Hfull. split.
  - intros ctx props Hctx Hq Hans Hsid.
    destruct (sendQuestion_unwritable_view w ctx props Hctx Hq Hans Hsid Hfull)
      as (nodes & errors & events & ->).
    eexists _, nodes. split; [reflexivity|].
    cbn [after_exchange currentPaperContext chatSessions console_error
         chatContainer chat_history_list].
    by rewrite last_snoc.
  - intros paperId m logged readable.
    destruct (resolve_unwritable w paperId m logged readable Hfull)
      as (result & more & request & rest & -> & Hstale & Hput).
    eexists _, _. split; [reflexivity|]. world_simpl.
    split; [done|]. split.
    + intros H. apply elem_of_app. right. auto.
    + intros Hc Hf. destruct (Hput Hc Hf) as [-> ?]. split; [done|].
      apply elem_of_app. by right.
Qed.

Lemma storage_failure_caught_witness :
  ∃ w' nodes,
    sendQuestion unwritable_page = Returned tt w' ∧
    currentPaperContext w' = Some (with_session paper_P1 (VStr "S1")) ∧
    chatSessions w' = None ∧
    chatContainer w' =
      nodes ++ [MessageBubble (VStr "An answer.") false;
                MessageBubble (VStr network_failure_message) false] ∧
    chat_history_list w' = Some [] ∧
    last (console_error w') = Some "Error asking question:".
Proof.
  exact (proj1 (storage_failure_caught unwritable_page eq_refl)
           paper_P1 _ eq_refl eq_refl
           (λ _ _, ex_intro _ 200%nat (conj eq_refl eq_refl)) eq_refl).
Defined.

(** C9.  For a user who is not logged in, the resolver returns [null] in
    the world it was called in (it reads neither the index nor the server),
    the click handler goes straight to [initChatModal], and [initChatModal]
    makes no request, so no earlier history is loaded: over a readable
    index the conversation view shows the welcome message.  A successful
    exchange of the guest still puts the record with the returned session
    id into the index under the paper id: the entry of the paper in the
    stored index then reads as the session id that the server returned, and
    the stored blob is the one that the same exchange of a logged-in user
    leaves. *)
Theorem guest_session w :
  logged_in w = false →
  (∀ paperId, checkExistingChatSession paperId w = Returned VNull w) ∧
  (∀ openChatSession paper paperId paperTitle,
     askBtn_click openChatSession paper paperId paperTitle w =
     initChatModal paper paperId paperTitle w) ∧
  (∀ paper paperId paperTitle,
     trace (world_of (initChatModal paper paperId paperTitle w)) = trace w) ∧
  (∀ paper paperId paperTitle m,
     index_of w = Some m →
     ∃ w',
       initChatModal paper paperId paperTitle w = Returned tt w' ∧
       chatContainer w' = [WelcomeMessage paperTitle]) ∧
  (∀ ctx props m,
     currentPaperContext w = Some ctx →
     String.eqb (trim (modalQuestionInput w)) "" = false →
     exchange_answers w (VObj props) →
     truthy (own_prop (VObj props) "session_id") = true →
     index_of w = Some m →
     storage_full w = false →
     let record := exchange_record ctx (own_prop (VObj props) "session_id") (now w) in
     ∃ w',
       sendQuestion w = Returned tt w' ∧
       chatSessions w' = Some (Json (VObj (<[id ctx := record]> m))) ∧
       (∃ m', index_of w' = Some m' ∧
              cached m' (id ctx) = own_prop (VObj props) "session_id") ∧
       ∀ t, ∃ w'',
         sendQuestion (set_token t w) = Returned tt w'' ∧
         chatSessions w'' = chatSessions w').
Proof.
  intros guest. repeat split.
  - intros paperId. by apply checkExistingChatSession_guest.
  - intros open paper paperId paperTitle.
    unfold askBtn_click, isUserLoggedIn, getToken. unfold_monad.
    unfold logged_in in guest. rewrite guest.
    by destruct (initChatModal _ _ _ _).
  - intros paper paperId paperTitle.
    unfold initChatModal. unfold_monad.
    rewrite parse_chatSessions_parsed. world_simpl.
    destruct (parsed (chatSessions w)) as [saved|]; [|done].
    unfold cachedSessionId, get_prop, isUserLoggedIn, getToken. unfold_monad.
    unfold logged_in in guest.
    destruct saved; world_simpl; try done.
    all: destruct (truthy (own_prop _ _)); world_simpl.
    all: by rewrite guest, ?andb_false_r.
  - intros paper paperId paperTitle m readable.
    destruct (initChatModal_opens paper paperId paperTitle w m readable)
      as (nodes & errors & events & -> & Hquiet & _).
    rewrite guest, andb_false_r in Hquiet. destruct (Hquiet eq_refl) as [-> _].
    eexists. split; reflexivity.
  - intros ctx props m Hctx Hq Hans Hsid readable writable record.
    destruct (sendQuestion_stored w ctx props m Hctx Hq Hans Hsid readable writable)
      as (nodes & errors & events & l & _ & ->).
    eexists. split; [reflexivity|]. split; [reflexivity|].
    split.
    { eexists. split; [reflexivity|]. by apply cached_exchange_record. }
    intros t.
    destruct (sendQuestion_stored (set_token t w) ctx props m Hctx Hq Hans Hsid
                readable writable)
      as (nodes' & errors' & events' & l' & _ & ->).
    eexists. split; reflexivity.
Qed.

Lemma guest_session_witness :
  ∃ w',
    sendQuestion guest_page = Returned tt w' ∧
    chatSessions w' =
      Some (Json (VObj {[ "P1" := exchange_record paper_P1 (VStr "S1") 0 ]})) ∧
    (∃ m', index_of w' = Some m' ∧ cached m' "P1" = VStr "S1") ∧
    ∀ t, ∃ w'',
      sendQuestion (set_token t guest_page) = Returned tt w'' ∧
      chatSessions w'' = chatSessions w'.
Proof.
  exact (proj2 (proj2 (proj2 (proj2 (guest_session guest_page eq_refl))))
           paper_P1 _ ∅ eq_refl eq_refl
           (λ _ _, ex_intro _ 200%nat (conj eq_refl eq_refl))
           eq_refl eq_refl eq_refl).
Defined.

(** ** The session list *)

Lemma filter_list_find {A} (P : A → Prop) `{∀ x, Decision (P x)} (l : list A) i x :
  list_find P l = Some (i, x) → filter P l = x :: filter P (delete i l).
Proof.
  revert i. induction l as [|y l IH]; intros i; [done|].
  cbn [list_find]. destruct (decide (P y)) as [Hy|Hy].
  - intros [= <- <-]. by rewrite filter_cons_True.
  - destruct (list_find P l) as [[j z]|] eqn:Hl; [|done].
    intros [= <- <-]. simpl. rewrite !filter_cons_False by done. by apply IH.
Qed.

(** C3 does not hold for every successful exchange: the exchange of a
    guest that opens a new session adds nothing to the session list. *)
Lemma guest_exchange_adds_no_entry :
  ∃ w',
    sendQuestion guest_page = Returned tt w' ∧
    own_prop (answer_S1 true) "is_new_session" = VBool true ∧
    currentPaperContext w' = Some (with_session paper_P1 (VStr "S1")) ∧
    chat_history_list w' = Some [].
Proof.
  eexists. split; [vm_compute; reflexivity|]. by repeat split.
Qed.

(** C3, amended.  After a successful exchange that returned a session id
    and was written to the index, the session list of a logged-in user
    follows the answer.  When the answer says the session is new (and the
    helper of the sidebar is installed), one entry for the session id is
    added at the head and the rest of the list is as before.  When it does
    not, the first entry of the session id, if there is one, gets the
    preview of the question (cut after 40 characters) and the date of the
    day where it shows them, and is moved to the head; the other entries
    keep their order and no entry is added, so the session has as many
    entries as before; if there is none the list stays as it is.  For a
    guest the list stays as it is. *)
Theorem sidebar_follows_exchange w ctx props m items :
  currentPaperContext w = Some ctx →
  String.eqb (trim (modalQuestionInput w)) "" = false →
  exchange_answers w (VObj props) →
  truthy (own_prop (VObj props) "session_id") = true →
  index_of w = Some m →
  storage_full w = false →
  chat_history_list w = Some items →
  let sessionId := String_of (own_prop (VObj props) "session_id") in
  let question := trim (modalQuestionInput w) in
  ∃ w' items',
    sendQuestion w = Returned tt w' ∧
    chat_history_list w' = Some items' ∧
    if logged_in w then
      if truthy (own_prop (VObj props) "is_new_session") then
        if window_addChatSessionToSidebar w then
          ∃ entry,
            items' = entry :: items ∧
            data_session_id entry = sessionId ∧
            history_item_question entry = Some question
        else items' = items
      else
        match list_find (λ item, data_session_id item = sessionId) items with
        | Some (i, item) =>
            ∃ entry,
              items' = entry :: delete i items ∧
              data_session_id entry = sessionId ∧
              history_item_question entry =
                (λ _, shortQuestion question) <$> history_item_question item ∧
              history_item_date entry =
                (λ _, toLocaleDateString w (now w)) <$> history_item_date item ∧
              history_item_title entry = history_item_title item ∧
              entries_of sessionId items =
                item :: entries_of sessionId (delete i items) ∧
              entries_of sessionId items' =
                entry :: entries_of sessionId (delete i items)
        | None => items' = items
        end
    else items' = items.
Proof.
  intros Hctx Hq Hans Hsid readable writable Hitems. cbv zeta.
  destruct (sendQuestion_stored w ctx props m Hctx Hq Hans Hsid readable writable)
    as (nodes & errors & events & l & Hside & ->).
  cbv zeta in Hside. revert Hside.
  unfold updateSidebar, isUserLoggedIn, getToken. unfold_monad.
  unfold after_exchange. world_simpl. fold (logged_in w).
  destruct (logged_in w); rewrite ?andb_true_r, ?andb_false_r.
  - destruct (truthy (own_prop (VObj props) "is_new_session")).
    + destruct (window_addChatSessionToSidebar w).
      * unfold addChatSessionToSidebar. unfold_monad. world_simpl.
        rewrite Hitems. intros [= <-].
        eexists _, _. split; [reflexivity|]. split; [reflexivity|].
        by eexists.
      * intros [= <-]. eexists _, _. split; [reflexivity|]. by split.
    + unfold updateChatSessionInSidebar. unfold_monad. world_simpl.
      rewrite Hitems.
      destruct (list_find _ items) as [[i item]|] eqn:Hfind.
      * intros [= <-]. eexists _, _. split; [reflexivity|]. split; [reflexivity|].
        eexists. split; [reflexivity|].
        apply list_find_Some in Hfind as Hi. destruct Hi as (_ & Hid & _).
        pose proof (filter_list_find _ _ _ _ Hfind) as Hfilter.
        cbn [data_session_id history_item_question history_item_date
             history_item_title].
        repeat split; try done.
        unfold entries_of. by rewrite filter_cons_True.
      * intros [= <-]. eexists _, _. split; [reflexivity|]. by split.
  - intros [= <-]. eexists _, _. split; [reflexivity|]. by split.
Qed.

Lemma sidebar_follows_exchange_witness :
  ∃ w',
    sendQuestion sidebar_page = Returned tt w' ∧
    chat_history_list w' =
      Some [ {| data_session_id := "S1";
                history_item_question := Some "Why?";
                history_item_date := Some "1 Jan";
                history_item_title := Some "Paper one" |};
             entry_S0 ].
Proof.
  destruct (sidebar_follows_exchange sidebar_page paper_P1 _ ∅ [entry_S0; entry_S1]
              eq_refl eq_refl
              (λ _ _, ex_intro _ 200%nat (conj eq_refl eq_refl))
              eq_refl eq_refl eq_refl eq_refl)
    as (w' & items' & Hrun & Hlist & Hmoved).
  exists w'. split; [exact Hrun|].
  destruct Hmoved as ([sid q d t] & -> & Hid & Hq & Hd & Ht & _).
  vm_compute in Hid, Hq, Hd, Ht. by simplify_eq.
Defined.

(** ** The stamp of the record *)

Lemma lastUsed_of_blob w w' paperId :
  chatSessions w' = chatSessions w → lastUsed_of w' paperId = lastUsed_of w paperId.
Proof. intros H. unfold lastUsed_of, index_of. by rewrite H. Qed.

Lemma exchange_record_lastUsed ctx sessionId date :
  own_prop (exchange_record ctx sessionId date) "lastUsed" = VStr (toISOString date).
Proof. reflexivity. Qed.

(** An exchange that the server fails leaves the stored blob alone. *)
Lemma sendQuestion_rejected_blob w :
  exchange_fails w →
  ∃ w', sendQuestion w = Returned tt w' ∧ chatSessions w' = chatSessions w.
Proof.
  intros Hfail.
  destruct (currentPaperContext w) as [ctx|] eqn:Hctx;
    [|unfold sendQuestion; unfold_monad; rewrite Hctx; eauto].
  destruct (String.eqb (trim (modalQuestionInput w)) "") eqn:Hq;
    [unfold sendQuestion; unfold_monad; rewrite Hctx, Hq; eauto|].
  send_question Hctx Hq.
  match goal with |- context [remote w (POST_question ?b ?h)] =>
    pose proof (Hfail b h) as Hf; destruct (remote w (POST_question b h)) end.
  - eexists. split; reflexivity.
  - world_simpl. rewrite Hf. eexists. split; reflexivity.
Qed.

(** One exchange leaves the stamp of a paper as it was or replaces it by
    the reading of the clock. *)
Lemma exchange_stamp w v paperId :
  lastUsed_of (exchange w v) paperId = lastUsed_of w paperId ∨
  stamped (exchange w v) paperId (clock v).
Proof.
  unfold exchange.
  destruct (sendQuestion_effect
              (set_modalQuestionInput (typed v)
                 (set_now (clock v) (set_remote (server v) w))))
    as (w' & -> & [Hsame|(ctx & sessionId & saved & _ & Hp & Hput)]).
  - left. cbn [world_of]. by rewrite (lastUsed_of_blob w).
  - cbn [world_of].
    change (parsed (chatSessions w) = Some saved) in Hp.
    change (now _) with (clock v) in Hput.
    destruct saved as [| |b|n|s|xs|m].
    7:{ apply parsed_object in Hp.
        unfold stamped, lastUsed_of, index_of in *. rewrite Hput.
        cbn [put_prop mbind option_bind].
        destruct (decide (id ctx = paperId)) as [<-|Hne].
        - right. rewrite lookup_insert_eq. cbn [mbind option_bind].
          by rewrite exchange_record_lastUsed.
        - left. rewrite lookup_insert_ne by done.
          destruct (chatSessions w) as [[text|value]|]; simpl in *.
          + destruct text; [|done]. by simplify_eq.
          + destruct value; try done. by simplify_eq.
          + by simplify_eq. }
    all: left; unfold lastUsed_of, index_of; rewrite Hput; cbn [put_prop].
    all: unfold parsed, object in Hp.
    all: destruct (chatSessions w) as [[text|value]|];
           [destruct text; [|done]; by simplify_eq
           |by simplify_eq
           |by simplify_eq].
Qed.

(** A stamp that is not ahead of the clock is kept or replaced by the
    reading of the clock. *)
Lemma exchange_stamp_kept w v paperId t :
  stamped w paperId t →
  t ≤ clock v →
  ∃ t', stamped (exchange w v) paperId t' ∧ t ≤ t' ∧ t' ≤ clock v.
Proof.
  intros Hstamp Hle.
  destruct (exchange_stamp w v paperId) as [Hsame|Hnew].
  - exists t. split; [|lia]. unfold stamped in *. by rewrite Hsame.
  - exists (clock v). split; [done|lia].
Qed.

Lemma exchange_not_ahead w v paperId bound :
  not_ahead w paperId bound →
  bound ≤ clock v →
  not_ahead (exchange w v) paperId (clock v).
Proof.
  intros Hna Hle. unfold not_ahead in *.
  destruct (exchange_stamp w v paperId) as [Hsame|Hnew];
    [rewrite Hsame|unfold stamped in Hnew; rewrite Hnew].
  - destruct (lastUsed_of w paperId); [|done].
    destruct Hna as (t & -> & Ht). exists t. split; [done|lia].
  - exists (clock v). split; [done|lia].
Qed.

Lemma exchanges_not_ahead vs : ∀ w paperId bound,
  not_ahead w paperId bound →
  nondecreasing_from bound vs →
  not_ahead (exchanges vs w) paperId (last_clock bound vs).
Proof.
  induction vs as [|v vs IH]; intros w paperId bound Hna Hvs; [done|].
  destruct Hvs as [Hv Hvs].
  apply (IH (exchange w v) paperId (clock v)); [|done].
  by apply (exchange_not_ahead w v paperId bound).
Qed.

(** A successful exchange that is stored stamps the record of its paper
    with the reading of the clock. *)
Lemma exchange_stored_stamp w v ctx props :
  answered w v ctx props →
  stamped (exchange w v) (id ctx) (clock v).
Proof.
  intros (Hctx & Hq & Hans & Hsid & [m Hm] & Hfull).
  unfold exchange.
  destruct (sendQuestion_stored
              (set_modalQuestionInput (typed v)
                 (set_now (clock v) (set_remote (server v) w)))
              ctx props m Hctx Hq Hans Hsid Hm Hfull)
    as (nodes & errors & events & l & _ & ->).
  unfold stamped, lastUsed_of, index_of. cbn [world_of].
  cbn [set_chat_history_list after_exchange chatSessions mbind option_bind].
  rewrite lookup_insert_eq. cbn [mbind option_bind].
  by rewrite exchange_record_lastUsed.
Qed.

Lemma exchange_rejected_stamp w v paperId :
  rejected v →
  lastUsed_of (exchange w v) paperId = lastUsed_of w paperId.
Proof.
  intros Hrej. unfold exchange.
  destruct (sendQuestion_rejected_blob
              (set_modalQuestionInput (typed v)
                 (set_now (clock v) (set_remote (server v) w))) Hrej)
    as (w' & -> & Hblob).
  cbn [world_of]. by rewrite (lastUsed_of_blob w).
Qed.

Lemma exchanges_stamp vs : ∀ w paperId t bound,
  stamped w paperId t →
  t ≤ bound →
  nondecreasing_from bound vs →
  ∃ t', stamped (exchanges vs w) paperId t' ∧ t ≤ t' ∧ t' ≤ last_clock bound vs.
Proof.
  induction vs as [|v vs IH]; intros w paperId t bound Hstamp Hle Hvs.
  - exists t. by repeat split.
  - destruct Hvs as [Hv Hvs].
    destruct (exchange_stamp_kept w v paperId t Hstamp) as (t1 & H1 & Ht1 & Hb1); [lia|].
    destruct (IH (exchange w v) paperId t1 (clock v) H1 Hb1 Hvs)
      as (t' & H' & Ht' & Hb').
    exists t'. repeat split; [done|lia|done].
Qed.

Lemma nondecreasing_from_app bound vs1 vs2 :
  nondecreasing_from bound (vs1 ++ vs2) →
  nondecreasing_from bound vs1 ∧ nondecreasing_from (last_clock bound vs1) vs2.
Proof.
  revert bound. induction vs1 as [|v vs1 IH]; intros bound; simpl; [done|].
  intros [Hv H]. destruct (IH _ H). by repeat split.
Qed.

(** C8 does not hold for every sequence of exchanges: the stamp is the
    reading of the clock of the device, and when that clock is set back
    between two successful exchanges the second stamp is the earlier one. *)
Lemma lastUsed_goes_back :
  lastUsed_of (exchanges [first_visit] reading_P1) "P1" =
    Some "1970-01-01T00:00:02.000Z" ∧
  lastUsed_of (exchanges [first_visit; second_visit] reading_P1) "P1" =
    Some "1970-01-01T00:00:01.000Z".
Proof. split; vm_compute; reflexivity. Qed.

(** C8, amended.  Along every sequence of message exchanges during which
    the clock of the device never goes back, starting from a page on which
    the record of the paper has no stamp or a stamp that is not ahead of the
    first reading, the [lastUsed] of the record of a paper never goes back:
    once the record is stamped it stays stamped, and its stamp after any
    further exchanges is no earlier than its stamp before them.  Every
    exchange of the sequence leaves the stamp as it was or overwrites it
    with the reading of the clock: an exchange about the paper that the
    server answers with a session id and that is written to a readable index
    stamps the record with the reading of the clock, also when it is the
    first one for the paper, and an exchange that the server fails leaves
    the stamp as it was. *)
Theorem lastUsed_nondecreasing w paperId bound vs1 vs2 :
  not_ahead w paperId bound →
  nondecreasing_from bound (vs1 ++ vs2) →
  never_back (lastUsed_of (exchanges vs1 w) paperId)
             (lastUsed_of (exchanges (vs1 ++ vs2) w) paperId) ∧
  ∀ vs v rest,
    vs1 ++ vs2 = vs ++ v :: rest →
    let w0 := exchanges vs w in
    (lastUsed_of (exchange w0 v) paperId = lastUsed_of w0 paperId ∨
     stamped (exchange w0 v) paperId (clock v)) ∧
    (∀ ctx props,
       answered w0 v ctx props → id ctx = paperId →
       stamped (exchange w0 v) paperId (clock v)) ∧
    (rejected v → lastUsed_of (exchange w0 v) paperId = lastUsed_of w0 paperId).
Proof.
  intros Hna Hvs. split.
  - apply nondecreasing_from_app in Hvs as [H1 H2].
    pose proof (exchanges_not_ahead vs1 w paperId bound Hna H1) as Hna1.
    unfold never_back, not_ahead in *.
    destruct (lastUsed_of (exchanges vs1 w) paperId) as [text|] eqn:Hlast; [|done].
    destruct Hna1 as (t1 & -> & Hb1).
    destruct (exchanges_stamp vs2 (exchanges vs1 w) paperId t1 _ Hlast Hb1 H2)
      as (t2 & Hs2 & Ht2 & _).
    exists t1, t2. unfold exchanges in *. rewrite foldl_app. by repeat split.
  - intros vs v rest _ w0. split; [apply exchange_stamp|]. split.
    + intros ctx props Hans <-. by apply (exchange_stored_stamp w0 v ctx props).
    + by apply exchange_rejected_stamp.
Qed.

(** P1 has no record yet; it is asked about at 2000 ms and again at
    3000 ms. *)
Lemma lastUsed_nondecreasing_witness :
  never_back (lastUsed_of (exchanges [first_visit] reading_P1) "P1")
             (lastUsed_of (exchanges ([first_visit] ++ [third_visit]) reading_P1) "P1") ∧
  ∀ vs v rest,
    [first_visit] ++ [third_visit] = vs ++ v :: rest →
    let w0 := exchanges vs reading_P1 in
    (lastUsed_of (exchange w0 v) "P1" = lastUsed_of w0 "P1" ∨
     stamped (exchange w0 v) "P1" (clock v)) ∧
    (∀ ctx props,
       answered w0 v ctx props → id ctx = "P1" →
       stamped (exchange w0 v) "P1" (clock v)) ∧
    (rejected v → lastUsed_of (exchange w0 v) "P1" = lastUsed_of w0 "P1").
Proof.
  apply (lastUsed_nondecreasing reading_P1 "P1" 0 [first_visit] [third_visit]).
  - vm_compute. exact I.
  - simpl. lia.
Defined.

(** * Properties of the result list *)

Ltac unfold_L :=
  unfold mbind, mret, mthrow, L_bind, L_ret, L_throw, gets, update in *.

Ltac listing_simpl :=
  unfold set_originalPapers, set_allPapers, set_currentPage, set_minYear,
    set_maxYear, set_availableYears, set_year_filter_btn, set_source_filter_btn,
    set_year_filter_menu, set_papersList, set_pagination, set_listing_errors in *;
  cbn [originalPapers allPapers currentPage minYear maxYear availableYears
       year_filter_btn source_filter_btn year_filter_menu papersList pagination
       listing_errors fst snd] in *.

(** ** Cards *)

Lemma createPaperElement_card paper s :
  createPaperElement paper s =
  match card_of paper with
  | Some card => Done card s
  | None => Failed TypeError s
  end.
Proof.
  unfold card_of, createPaperElement, read. unfold_L.
  destruct paper; try reflexivity.
  all: repeat case_match; simplify_eq; reflexivity.
Qed.

Lemma card_of_paper paper card :
  card_of paper = Some card → ∃ sourceClass, card = PaperItem paper sourceClass.
Proof.
  unfold card_of, createPaperElement, read. unfold_L.
  destruct paper; try done.
  all: repeat case_match; simplify_eq; intros [= <-]; eauto.
Qed.

(** ** Pages *)

Lemma pages_of_ceil papers :
  pages_of papers = (Z.of_nat (length papers) + 3) / 4.
Proof.
  unfold pages_of, itemsPerPage.
  pose proof (Z.div_mod (- Z.of_nat (length papers)) 4 ltac:(lia)).
  pose proof (Z.mod_pos_bound (- Z.of_nat (length papers)) 4 ltac:(lia)).
  pose proof (Z.div_mod (Z.of_nat (length papers) + 3) 4 ltac:(lia)).
  pose proof (Z.mod_pos_bound (Z.of_nat (length papers) + 3) 4 ltac:(lia)).
  lia.
Qed.

Lemma pages_of_bounds papers :
  4 * (pages_of papers - 1) < Z.of_nat (length papers) ≤ 4 * pages_of papers ∨
  (papers = [] ∧ pages_of papers = 0).
Proof.
  rewrite pages_of_ceil.
  pose proof (Z.div_mod (Z.of_nat (length papers) + 3) 4 ltac:(lia)).
  pose proof (Z.mod_pos_bound (Z.of_nat (length papers) + 3) 4 ltac:(lia)).
  destruct papers; [right; done|left]. simpl length in *. lia.
Qed.

Lemma page_of_take_drop papers page :
  1 ≤ page →
  page_of papers page = take 4 (drop (4 * Z.to_nat (page - 1)) papers).
Proof.
  intros Hp. unfold page_of, slice, itemsPerPage.
  assert (((page - 1) * 4 <? 0) = false) as -> by lia.
  set (len := Z.of_nat (length papers)).
  assert ((Z.min ((page - 1) * 4 + 4) len <? 0) = false) as -> by lia.
  destruct (decide ((page - 1) * 4 ≤ len)) as [Hle|Hgt].
  - rewrite (Z.min_l ((page - 1) * 4) len) by lia.
    replace (Z.to_nat ((page - 1) * 4)) with (4 * Z.to_nat (page - 1))%nat by lia.
    destruct (decide ((page - 1) * 4 + 4 ≤ len)).
    + rewrite !Z.min_l by lia. f_equal. lia.
    + rewrite (Z.min_r ((page - 1) * 4 + 4) len) by lia. rewrite Z.min_id.
      rewrite !take_ge; [done| |]; rewrite length_drop; subst len; lia.
  - rewrite (Z.min_r ((page - 1) * 4) len) by lia.
    rewrite !drop_ge by (subst len; lia). by rewrite !take_nil.
Qed.

Lemma page_of_length papers page :
  1 ≤ page →
  length (page_of papers page) =
  (4 `min` (length papers - 4 * Z.to_nat (page - 1)))%nat.
Proof.
  intros Hp. rewrite page_of_take_drop by done.
  by rewrite length_take, length_drop.
Qed.

Lemma pages_take papers (n : nat) :
  concat (page_of papers <$> seqZ 1 (Z.of_nat n)) = take (4 * n) papers.
Proof.
  induction n as [|n IH]; [done|].
  rewrite seqZ_S, fmap_app, concat_app, IH. simpl.
  rewrite page_of_take_drop by lia. rewrite app_nil_r.
  replace (Z.to_nat (1 + Z.of_nat n - 1)) with n by lia.
  rewrite take_take_drop. f_equal. lia.
Qed.

Lemma pages_concat papers :
  concat (page_of papers <$> seqZ 1 (pages_of papers)) = papers.
Proof.
  destruct (pages_of_bounds papers) as [H|[-> ->]]; [|done].
  assert (0 ≤ pages_of papers) by lia.
  rewrite <- (Z2Nat.id (pages_of papers)) at 1 by done.
  rewrite pages_take. apply take_ge. lia.
Qed.

Lemma page_of_nonempty papers page :
  1 ≤ page ≤ pages_of papers → page_of papers page ≠ [].
Proof.
  intros Hp Hnil. apply length_zero_iff_nil in Hnil.
  rewrite page_of_length in Hnil by lia.
  destruct (pages_of_bounds papers) as [H|[_ H]]; lia.
Qed.

Lemma page_of_beyond papers page :
  1 ≤ page → pages_of papers < page → page_of papers page = [].
Proof.
  intros Hp Hb. apply length_zero_iff_nil.
  rewrite page_of_length by lia.
  destruct (pages_of_bounds papers) as [H|[-> _]]; cbn [length]; lia.
Qed.

Lemma page_of_full papers page :
  1 ≤ page < pages_of papers → length (page_of papers page) = 4%nat.
Proof.
  intros Hp. rewrite page_of_length by lia.
  destruct (pages_of_bounds papers) as [H|[_ H]]; lia.
Qed.

(** ** Showing a page *)

Lemma each_appendPaperElement papers s cards0 :
  papersList s = Some cards0 →
  each papers appendPaperElement s =
  (if (rendered papers).2 then Done tt else Failed TypeError)
    (showing s (currentPage s) (Some (cards0 ++ (rendered papers).1)) (pagination s)).
Proof.
  revert s cards0. induction papers as [|paper rest IH]; intros s cards0 Hc.
  - simpl. unfold_L. destruct s; simpl in *; subst. by rewrite app_nil_r.
  - simpl. unfold_L. unfold appendPaperElement at 1. unfold_L.
    rewrite createPaperElement_card.
    destruct (card_of paper) as [card|]; simpl.
    + rewrite (IH _ (cards0 ++ [card])) by (listing_simpl; by rewrite Hc).
      rewrite <- app_assoc. simpl. unfold showing. listing_simpl.
      by destruct (rendered rest).2.
    + destruct s; simpl in *; subst. by rewrite app_nil_r.
Qed.

Lemma showPage_spec page s :
  showPage page s =
  let controls := marked page (totalPages s) <$> pagination s in
  match papersList s with
  | None => Done tt (showing s page None controls)
  | Some _ =>
      match page_of (allPapers s) page with
      | [] => Done tt (showing s page (Some [NoResultsAlert]) controls)
      | papers =>
          if (rendered papers).2
          then Done tt (showing s page (Some (rendered papers).1) controls)
          else Failed TypeError (showing s page (Some (rendered papers).1) (pagination s))
      end
  end.
Proof.
  unfold showPage, updatePaginationUI. unfold_L. listing_simpl.
  fold (page_of (allPapers s) page).
  destruct (papersList s) as [old|] eqn:Hold.
  - destruct (page_of (allPapers s) page) as [|paper rest] eqn:Hpage.
    + simpl. unfold showing, marked, totalPages. listing_simpl. reflexivity.
    + cbn [length Nat.ltb Nat.leb].
      rewrite (each_appendPaperElement _ _ []) by reflexivity.
      destruct (rendered (paper :: rest)).2; unfold showing, marked, totalPages;
        listing_simpl; reflexivity.
  - unfold showing, marked, totalPages. listing_simpl. reflexivity.
Qed.

(** ** The pagination control *)

Lemma next_handler_toggle_next disabled items :
  next_handler (toggle_next disabled items) = next_handler items.
Proof. induction items as [|[] items IH]; simpl; congruence. Qed.

Lemma next_handler_toggle_prev disabled items :
  next_handler (toggle_prev disabled items) = next_handler items.
Proof. induction items as [|[] items IH]; simpl; congruence. Qed.

Lemma next_handler_activate page items :
  next_handler (activate page items) = next_handler items.
Proof.
  induction items as [|[] items IH]; simpl; try congruence.
  by destruct (_ =? _).
Qed.

Lemma next_handler_deactivate items :
  next_handler (deactivate <$> items) = next_handler items.
Proof. induction items as [|[] items IH]; csimpl; congruence. Qed.

Lemma elem_of_toggle_next disabled items p a :
  PageNumber p a ∈ toggle_next disabled items → PageNumber p a ∈ items.
Proof.
  induction items as [|item items IH]; simpl; [done|].
  destruct item; rewrite !elem_of_cons; intros [?|?]; simplify_eq; auto.
Qed.

Lemma elem_of_toggle_prev disabled items p a :
  PageNumber p a ∈ toggle_prev disabled items → PageNumber p a ∈ items.
Proof.
  induction items as [|item items IH]; simpl; [done|].
  destruct item; rewrite !elem_of_cons; intros [?|?]; simplify_eq; auto.
Qed.

Lemma elem_of_activate page items p a :
  PageNumber p a ∈ activate page items → ∃ a', PageNumber p a' ∈ items.
Proof.
  induction items as [|item items IH]; simpl; [by rewrite elem_of_nil|].
  destruct item; try destruct (_ =? _); rewrite !elem_of_cons;
    intros [H|H]; simplify_eq;
    try (destruct (IH H) as [a' ?]); eexists; rewrite elem_of_cons; eauto.
Qed.

Lemma elem_of_deactivate (items : list PageItem) p a :
  PageNumber p a ∈ deactivate <$> items → ∃ a', PageNumber p a' ∈ items.
Proof.
  intros ([]&?&?)%list_elem_of_fmap; simplify_eq; simpl in *; simplify_eq; eauto.
Qed.

Lemma links_fit_marked page pages' pages controls :
  links_fit pages (page_items controls) →
  links_fit pages (page_items (marked page pages' controls)).
Proof.
  intros [Hn Hl]. split; simpl.
  - by rewrite next_handler_toggle_next, next_handler_toggle_prev,
      next_handler_activate, next_handler_deactivate.
  - intros p a H%elem_of_toggle_next%elem_of_toggle_prev.
    apply elem_of_activate in H as [a' H].
    apply elem_of_deactivate in H as [a'' H]. eauto.
Qed.

Lemma next_handler_links page pages n :
  next_handler
    ([PrevPage (page =? 1)] ++
     ((λ i, PageNumber i (i =? page)) <$> seqZ 1 n) ++
     [NextPage (page =? pages) pages]) = Some pages.
Proof.
  simpl. induction (seqZ 1 n) as [|i l IH]; simpl; done.
Qed.

Lemma setupPagination_spec s :
  setupPagination s =
  Done tt
    match pagination s with
    | None =>
        set_listing_errors
          (listing_errors s ++ ["Pagination elements not found in DOM"]) s
    | Some controls =>
        set_pagination (Some
          (if Z.of_nat (length (allPapers s)) <=? itemsPerPage
           then mkPagination true (page_items controls)
           else mkPagination false
                  ([PrevPage (currentPage s =? 1)] ++
                   ((λ i, PageNumber i (i =? currentPage s)) <$>
                      seqZ 1 (Z.min (totalPages s) 5)) ++
                   [NextPage (currentPage s =? totalPages s) (totalPages s)]))) s
    end.
Proof.
  unfold setupPagination. unfold_L.
  destruct (pagination s); [|done].
  by destruct (_ <=? _).
Qed.

(** ** Filters *)

Lemma keep_state {A} (f : A → L bool) xs s :
  (∀ x s, listing_of (f x s) = s) → listing_of (keep f xs s) = s.
Proof.
  intros Hf. revert s. induction xs as [|x xs IH]; intros s; [done|].
  simpl. unfold_L. specialize (Hf x s). specialize (IH s).
  destruct (f x s) as [b s1|e s1]; simpl in Hf; subst s1; [|done].
  destruct (keep f xs s) as [ys s1|e s1]; simpl in IH; subst s1; done.
Qed.

Lemma keep_sublist {A} (f : A → L bool) xs s ys s' :
  keep f xs s = Done ys s' → ys `sublist_of` xs.
Proof.
  revert s ys s'. induction xs as [|x xs IH]; intros s ys s'; simpl; unfold_L.
  - by intros [= <- _].
  - destruct (f x s) as [b s1|e s1]; [|done].
    destruct (keep f xs s1) as [zs s2|e s2] eqn:Hk; [|done].
    intros [= <- _]. apply IH in Hk.
    destruct b; [by apply sublist_skip|by apply sublist_cons].
Qed.

Lemma keep_filter {A} (f : A → L bool) (p : A → bool) xs s :
  (∀ x, x ∈ xs → f x s = Done (p x) s) →
  keep f xs s = Done (List.filter p xs) s.
Proof.
  induction xs as [|x xs IH]; intros Hf; [done|].
  simpl. unfold_L. rewrite Hf by left.
  rewrite IH by (intros; apply Hf; by right).
  by destruct (p x).
Qed.

Lemma read_state o k s : listing_of (read o k s) = s.
Proof. by destruct o. Qed.

Lemma matchesSource_state sourceFilter paper s :
  listing_of (matchesSource sourceFilter paper s) = s.
Proof.
  unfold matchesSource, read. unfold_L.
  destruct paper; try done.
  all: repeat case_match; simplify_eq; done.
Qed.

Lemma matchesRange_state yearStart yearEnd paper s :
  listing_of (matchesRange yearStart yearEnd paper s) = s.
Proof. unfold matchesRange, read. unfold_L. by destruct paper. Qed.

Lemma matchesYear_state selectedYear paper s :
  listing_of (matchesYear selectedYear paper s) = s.
Proof. unfold matchesYear, read. unfold_L. by destruct paper. Qed.

Lemma filterBySource_state sourceFilter papers s :
  listing_of (filterBySource sourceFilter papers s) = s.
Proof.
  unfold filterBySource. destruct (_ && _); [|done].
  apply keep_state, matchesSource_state.
Qed.

Lemma filterByYear_state yearFilter papers s :
  listing_of (filterByYear yearFilter papers s) = s.
Proof.
  unfold filterByYear. repeat case_match; try done.
  - apply keep_state, matchesRange_state.
  - apply keep_state, matchesYear_state.
Qed.

Lemma filterBySource_sublist sourceFilter papers s ys s' :
  filterBySource sourceFilter papers s = Done ys s' → ys `sublist_of` papers.
Proof.
  unfold filterBySource. destruct (_ && _); [apply keep_sublist|].
  by intros [= <- _].
Qed.

Lemma filterByYear_sublist yearFilter papers s ys s' :
  filterByYear yearFilter papers s = Done ys s' → ys `sublist_of` papers.
Proof.
  unfold filterByYear. repeat case_match; try apply keep_sublist.
  all: by intros [= <- _].
Qed.

(** ** What holds between two searches *)

Lemma rendered_no_alert papers : NoResultsAlert ∉ (rendered papers).1.
Proof.
  induction papers as [|paper papers IH]; simpl; [apply not_elem_of_nil|].
  destruct (card_of paper) as [card|] eqn:Hc; simpl; [|apply not_elem_of_nil].
  apply card_of_paper in Hc as [sourceClass ->].
  rewrite not_elem_of_cons. done.
Qed.

Lemma steady_showing s page cards controls :
  (∃ papers, originalPapers s = VArr papers ∧ allPapers s `sublist_of` papers) →
  1 ≤ page ≤ Z.max 1 (totalPages s) →
  (∀ c, controls = Some c → d_none c = false →
        links_fit (totalPages s) (page_items c)) →
  (∀ cs, cards = Some cs → NoResultsAlert ∈ cs → allPapers s = []) →
  steady (showing s page cards controls).
Proof. intros H1 H2 H3 H4. unfold steady, showing, totalPages in *. simpl. auto. Qed.

Lemma showPage_steady page s :
  (∃ papers, originalPapers s = VArr papers ∧ allPapers s `sublist_of` papers) →
  1 ≤ page ≤ Z.max 1 (totalPages s) →
  (∀ controls, pagination s = Some controls → d_none controls = false →
               links_fit (totalPages s) (page_items controls)) →
  steady (listing_of (showPage page s)).
Proof.
  intros Hp Hr Hc. rewrite showPage_spec. cbv zeta.
  assert (∀ c, marked page (totalPages s) <$> pagination s = Some c →
               d_none c = false → links_fit (totalPages s) (page_items c)) as Hm.
  { intros c Hc' Hd. destruct (pagination s) as [c0|]; [|done].
    injection Hc' as <-. apply links_fit_marked, Hc; done. }
  destruct (papersList s) as [old|].
  - destruct (page_of (allPapers s) page) as [|paper rest] eqn:Hpage.
    + cbn [listing_of]. apply steady_showing; try done.
      intros cs _ _. change (totalPages s) with (pages_of (allPapers s)) in *.
      destruct (decide (1 ≤ pages_of (allPapers s))) as [Ht|Ht].
      * by destruct (page_of_nonempty (allPapers s) page); [lia|].
      * destruct (pages_of_bounds (allPapers s)) as [H|[H _]]; [|done].
        apply length_zero_iff_nil. lia.
    + set (papers := paper :: rest).
      destruct (rendered papers).2; cbn [listing_of];
        apply steady_showing; try done.
      all: intros cs [= <-] Ha; destruct (rendered_no_alert papers Ha).
  - cbn [listing_of]. apply steady_showing; done.
Qed.

Lemma setupPagination_fit s s' :
  setupPagination s = Done tt s' →
  originalPapers s' = originalPapers s ∧
  allPapers s' = allPapers s ∧
  currentPage s' = currentPage s ∧
  papersList s' = papersList s ∧
  ∀ controls, pagination s' = Some controls → d_none controls = false →
              links_fit (totalPages s') (page_items controls).
Proof.
  rewrite setupPagination_spec. intros [= <-].
  destruct (pagination s) as [controls|] eqn:Hc; listing_simpl;
    [|by rewrite Hc].
  repeat (split; [done|]). unfold totalPages. listing_simpl.
  fold (totalPages s). intros c [= <-].
  destruct (_ <=? _); [done|]. intros _. split; [apply next_handler_links|].
  intros page active. cbn [page_items app].
  rewrite elem_of_cons, elem_of_app, list_elem_of_singleton, list_elem_of_fmap.
  intros [?|[(i & ? & Hi)|?]]; simplify_eq.
  apply elem_of_seqZ in Hi. lia.
Qed.

Lemma relist_steady s papers :
  originalPapers s = VArr papers →
  allPapers s `sublist_of` papers →
  steady (listing_of
    match setupPagination s with
    | Done _ s' => showPage 1 s'
    | Failed e s' => Failed e s'
    end).
Proof.
  intros Ho Hs.
  destruct (setupPagination s) as [[] s1|] eqn:Hsetup;
    [|by rewrite setupPagination_spec in Hsetup].
  apply setupPagination_fit in Hsetup as (Ho1 & Ha1 & _ & _ & Hfit).
  apply showPage_steady; [|lia|done].
  exists papers. by rewrite Ho1, Ha1.
Qed.

Lemma steady_buttons s year source :
  steady s → steady (set_source_filter_btn source (set_year_filter_btn year s)).
Proof. unfold steady, totalPages. by listing_simpl. Qed.

Lemma filterPapers_steady s :
  steady s → steady (listing_of (filterPapers s)).
Proof.
  intros Hs. pose proof Hs as ((papers & Ho & Hsub) & _).
  unfold filterPapers. unfold_L.
  destruct (nothing_to_filter _); [done|].
  rewrite Ho. simpl.
  pose proof (filterBySource_state (sourceFilter_of s) papers s) as H1.
  destruct (filterBySource _ _ _) as [ys s1|e s1] eqn:Hy; simpl in H1; subst s1;
    [|done].
  apply filterBySource_sublist in Hy.
  pose proof (filterByYear_state (yearFilter_of s) ys s) as H2.
  destruct (filterByYear _ _ _) as [zs s1|e s1] eqn:Hz; simpl in H2; subst s1;
    [|done].
  apply filterByYear_sublist in Hz.
  apply (relist_steady _ papers); listing_simpl; [done|].
  by etrans.
Qed.

Lemma resetAllFilters_steady s :
  steady s → steady (listing_of (resetAllFilters s)).
Proof.
  intros Hs. pose proof Hs as ((papers & Ho & Hsub) & _).
  unfold resetAllFilters. unfold_L. listing_simpl. rewrite Ho. simpl.
  apply (relist_steady _ papers); listing_simpl; done.
Qed.

Lemma act_steady a s : steady s → steady (listing_of (act a s)).
Proof.
  intros Hs. pose proof Hs as (Hp & Hr & Hc & Ha).
  destruct a as [| |page|yearRange|source|]; simpl.
  - destruct (on_page s is_prev); [|done].
    unfold prev_page_click. unfold_L.
    destruct (1 <? currentPage s) eqn:Hlt; [|done].
    apply showPage_steady; [done|lia|done].
  - destruct (on_page s (λ _, true)) eqn:Hon; [|done].
    unfold on_page in Hon. unfold next_page_click, next_page_handler. unfold_L.
    destruct (pagination s) as [controls|] eqn:Hcontrols; [|done]. simpl.
    apply andb_prop in Hon as [Hd%negb_true_iff _].
    destruct (Hc controls eq_refl Hd) as [-> _].
    destruct (currentPage s <? totalPages s) eqn:Hlt; [|done].
    apply showPage_steady; [done|lia|]. by rewrite Hcontrols.
  - destruct (on_page s (is_page page)) eqn:Hon; [|done].
    unfold on_page in Hon.
    destruct (pagination s) as [controls|] eqn:Hcontrols; [|done].
    apply andb_prop in Hon as [Hd%negb_true_iff Hex].
    apply existsb_exists in Hex as (item & Hin%list_elem_of_In & Hitem).
    destruct item as [|p active|]; try done. simpl in Hitem.
    apply Z.eqb_eq in Hitem as ->.
    destruct (Hc controls eq_refl Hd) as [_ Hl].
    apply showPage_steady; [done| |by rewrite Hcontrols].
    specialize (Hl _ _ Hin). lia.
  - unfold year_item_click. unfold_L.
    destruct (year_filter_btn s) eqn:Hb; [|done].
    apply filterPapers_steady. unfold steady, totalPages. by listing_simpl.
  - unfold source_item_click. unfold_L.
    apply filterPapers_steady. unfold steady, totalPages. by listing_simpl.
  - by apply resetAllFilters_steady.
Qed.

Lemma visit_steady actions s : steady s → steady (visit actions s).
Proof.
  revert s. induction actions as [|a actions IH]; intros s Hs; [done|].
  simpl. apply IH, act_steady, Hs.
Qed.

(** ** Years *)

Lemma collectYear_spec paper s :
  collectYear paper s =
  if nullish paper then Failed TypeError s
  else Done tt (from_option (note s) s (year_of paper)).
Proof.
  unfold collectYear, read, year_of. unfold_L.
  destruct paper; try done.
  all: destruct (truthy _); [|by destruct s].
  all: destruct (parseInt _) as [year|]; [|by destruct s].
  all: simpl; unfold note; listing_simpl.
  all: destruct (Z.ltb_spec year (minYear s)); listing_simpl.
  all: destruct (Z.ltb_spec (maxYear s) year); listing_simpl.
  all: f_equal; f_equal; lia.
Qed.

Lemma each_collectYear papers s :
  ∃ years,
    each papers collectYear s =
    if forallb (λ paper, negb (nullish paper)) papers
    then Done tt (foldl note s (years_of papers))
    else Failed TypeError (foldl note s years).
Proof.
  revert s. induction papers as [|paper papers IH]; intros s; [by exists []|].
  simpl. unfold_L. rewrite collectYear_spec.
  destruct (nullish paper) eqn:Hn; simpl; [by exists []|].
  destruct (IH (from_option (note s) s (year_of paper))) as [years ->].
  unfold years_of. simpl.
  destruct (year_of paper) as [year|]; simpl.
  - exists (year :: years). by destruct (forallb _ _).
  - exists years. by destruct (forallb _ _).
Qed.

Lemma foldl_note_frame s years :
  let s' := foldl note s years in
  originalPapers s' = originalPapers s ∧
  allPapers s' = allPapers s ∧
  currentPage s' = currentPage s ∧
  year_filter_btn s' = year_filter_btn s ∧
  source_filter_btn s' = source_filter_btn s ∧
  year_filter_menu s' = year_filter_menu s ∧
  papersList s' = papersList s ∧
  pagination s' = pagination s ∧
  listing_errors s' = listing_errors s.
Proof.
  revert s. induction years as [|year years IH]; intros s; [done|].
  simpl. destruct (IH (note s year)) as (-> & -> & -> & -> & -> & -> & -> & -> & ->).
  done.
Qed.

Lemma elem_of_set_add year years y :
  y ∈ set_add year years ↔ y = year ∨ y ∈ years.
Proof.
  unfold set_add. destruct (decide (year ∈ years)).
  - split; [auto|]. by intros [->|?].
  - rewrite elem_of_app, list_elem_of_singleton. tauto.
Qed.

Lemma NoDup_set_add year years : NoDup years → NoDup (set_add year years).
Proof.
  unfold set_add. intros Hn. destruct (decide (year ∈ years)); [done|].
  apply NoDup_app. split; [done|]. split; [|apply NoDup_singleton].
  intros y Hy ->%list_elem_of_singleton. done.
Qed.

Lemma foldl_note_years s years :
  let s' := foldl note s years in
  (∀ y, y ∈ availableYears s' ↔ y ∈ availableYears s ∨ y ∈ years) ∧
  (NoDup (availableYears s) → NoDup (availableYears s')) ∧
  minYear s' ≤ minYear s ∧
  maxYear s ≤ maxYear s' ∧
  (∀ y, y ∈ years → minYear s' ≤ y ≤ maxYear s') ∧
  (minYear s' = minYear s ∨ minYear s' ∈ years) ∧
  (maxYear s' = maxYear s ∨ maxYear s' ∈ years).
Proof.
  revert s. induction years as [|year years IH]; intros s.
  - simpl. split_and!; try done; try lia; try (by left).
    + intros y. rewrite elem_of_nil. tauto.
    + by intros y ?%elem_of_nil.
  - simpl. destruct (IH (note s year)) as (Hy & Hn & Hmin & Hmax & Hr & Hl & Hh).
    simpl in *. split_and!.
    + intros y. rewrite Hy, elem_of_set_add, elem_of_cons. tauto.
    + intros H. by apply Hn, NoDup_set_add.
    + lia.
    + lia.
    + intros y [->|H]%elem_of_cons; [lia|by apply Hr].
    + destruct Hl as [Hl|Hl]; [|right; by right].
      rewrite Hl. destruct (Z.min_spec (minYear s) year) as [[_ ->]|[_ ->]];
        [by left|right; by left].
    + destruct Hh as [Hh|Hh]; [|right; by right].
      rewrite Hh. destruct (Z.max_spec (maxYear s) year) as [[_ ->]|[_ ->]];
        [right; by left|by left].
Qed.

(** ** Displaying the results of a search *)

Lemma updateYearFilterOptions_spec s :
  updateYearFilterOptions s =
  Done tt
    match year_filter_menu s with
    | Some _ =>
        set_year_filter_menu
          (Some (year_options (minYear s) (maxYear s) (availableYears s))) s
    | None => s
    end.
Proof. unfold updateYearFilterOptions. unfold_L. by destruct (year_filter_menu s). Qed.

Lemma received_frame papers s :
  originalPapers (received papers s) = VArr papers ∧
  allPapers (received papers s) = papers ∧
  currentPage (received papers s) = currentPage s ∧
  year_filter_btn (received papers s) = year_filter_btn s ∧
  source_filter_btn (received papers s) = source_filter_btn s ∧
  papersList (received papers s) = papersList s ∧
  pagination (received papers s) = pagination s ∧
  listing_errors (received papers s) = listing_errors s.
Proof.
  unfold received. cbv zeta.
  destruct (foldl_note_frame
    (set_availableYears [] (set_allPapers papers
       (set_originalPapers (VArr papers) s))) (years_of papers))
    as (H1 & H2 & H3 & H4 & H5 & H6 & H7 & H8 & H9).
  destruct (year_filter_menu _); listing_simpl;
    by rewrite H1, H2, H3, H4, H5, H7, H8, H9.
Qed.

Lemma displayResults_done data s s' :
  displayResults data s = Done tt s' →
  ∃ papers,
    or_else (own_prop data "papers") (VArr []) = VArr papers ∧
    forallb (λ paper, negb (nullish paper)) papers = true ∧
    match setupPagination (received papers s) with
    | Done _ s3 => showPage 1 s3
    | Failed e s3 => Failed e s3
    end = Done tt s'.
Proof.
  unfold displayResults, read, spread, forEach_paper, received. unfold_L.
  destruct data; try done.
  all: listing_simpl.
  all: match goal with |- context [or_else ?v (VArr [])] =>
         remember (or_else v (VArr [])) as original eqn:Ho;
         destruct original as [| | | | |papers|]; try done end.
  all: listing_simpl.
  all: match goal with |- context [each ?ps collectYear ?s0] =>
         destruct (each_collectYear ps s0) as [years ->];
         destruct (forallb (λ paper, negb (nullish paper)) ps) eqn:Hall; [|done];
         intros H; exists ps; split; [done|]; split; [done|];
         cbv zeta; rewrite updateYearFilterOptions_spec in *; exact H
       end.
Qed.

Lemma rendered_app papers1 papers2 :
  (rendered (papers1 ++ papers2)).2 = true →
  (rendered papers1).2 = true ∧ (rendered papers2).2 = true.
Proof.
  induction papers1 as [|paper papers1 IH]; simpl; [done|].
  destruct (card_of paper); simpl; [done|done].
Qed.

Lemma rendered_page papers page :
  (rendered papers).2 = true → 1 ≤ page → (rendered (page_of papers page)).2 = true.
Proof.
  intros Hall Hp. rewrite page_of_take_drop by done.
  rewrite <- (take_drop (4 * Z.to_nat (page - 1)) papers) in Hall.
  apply rendered_app in Hall as [_ Hall].
  rewrite <- (take_drop 4 (drop _ papers)) in Hall.
  by apply rendered_app in Hall as [Hall _].
Qed.

Lemma rendered_papers papers :
  (rendered papers).2 = true →
  omap (λ card, match card with PaperItem paper _ => Some paper | _ => None end)
    (rendered papers).1 = papers.
Proof.
  induction papers as [|paper papers IH]; [done|].
  cbn [rendered].
  destruct (card_of paper) as [card|] eqn:Hc; cbn [fst snd]; [|done].
  apply card_of_paper in Hc as [sourceClass ->]. intros H.
  change (paper :: omap (λ card, match card with PaperItem paper _ => Some paper | _ => None end)
    (rendered papers).1 = paper :: papers).
  by rewrite IH.
Qed.

(** What [showPage] shows when every paper of the list has a card. *)
Lemma showPage_shown s cards page :
  papersList s = Some cards →
  (rendered (allPapers s)).2 = true →
  1 ≤ page →
  ∃ cards',
    showPage page s =
      Done tt (showing s page (Some cards') (marked page (totalPages s) <$> pagination s)) ∧
    shown_papers (showing s page (Some cards') (marked page (totalPages s) <$> pagination s)) =
      page_of (allPapers s) page ∧
    (page_of (allPapers s) page = [] → cards' = [NoResultsAlert]) ∧
    (page_of (allPapers s) page ≠ [] → NoResultsAlert ∉ cards').
Proof.
  intros Hc Hall Hp. rewrite showPage_spec, Hc. cbv zeta.
  pose proof (rendered_page _ _ Hall Hp) as Hpage.
  destruct (page_of (allPapers s) page) as [|paper rest] eqn:Heq.
  - eexists. split; [reflexivity|]. done.
  - rewrite Hpage. eexists. split; [reflexivity|].
    unfold shown_papers, showing. cbn [papersList].
    split; [by apply rendered_papers|]. split; [done|].
    intros _. apply rendered_no_alert.
Qed.

(** X1.  Walking through the pages shows every listed paper once, in the
    order of the list: when the page has a result list and every listed
    paper has a card, the papers that [showPage] shows for the pages 1 to
    [totalPages], put one after the other, are the listed papers. *)
Theorem pages_show_every_result s cards :
  papersList s = Some cards →
  (rendered (allPapers s)).2 = true →
  concat ((λ page, shown_papers (listing_of (showPage page s))) <$>
            seqZ 1 (totalPages s)) = allPapers s.
Proof.
  intros Hc Hall.
  trans (concat (page_of (allPapers s) <$> seqZ 1 (pages_of (allPapers s))));
    [|apply pages_concat].
  change (totalPages s) with (pages_of (allPapers s)). f_equal.
  apply list_fmap_ext. intros i page [-> _]%lookup_seqZ.
  destruct (showPage_shown s cards (1 + Z.of_nat i) Hc Hall) as (cards' & -> & Hs & _);
    [lia|].
  exact Hs.
Qed.

Lemma pages_show_every_result_witness :
  concat ((λ page, shown_papers (listing_of (showPage page six_listed))) <$>
            seqZ 1 (totalPages six_listed)) = six_hits.
Proof.
  apply (pages_show_every_result six_listed
           (default [] (papersList six_listed)));
    vm_compute; reflexivity.
Defined.

(** X2.  When the page has a result list and every listed paper has a
    card, a page within the range shows between one and four papers, and
    exactly four unless it is the last; a page beyond the last shows only
    the notice that nothing was found. *)
Theorem page_sizes s cards page :
  papersList s = Some cards →
  (rendered (allPapers s)).2 = true →
  1 ≤ page →
  let s' := listing_of (showPage page s) in
  (page ≤ totalPages s →
   (1 ≤ length (shown_papers s') ≤ 4)%nat ∧
   (page < totalPages s → length (shown_papers s') = 4%nat) ∧
   ∀ cards', papersList s' = Some cards' → NoResultsAlert ∉ cards') ∧
  (totalPages s < page → papersList s' = Some [NoResultsAlert]).
Proof.
  intros Hc Hall Hp.
  destruct (showPage_shown s cards page Hc Hall Hp) as (cards' & -> & Hs & He & Hn).
  cbv zeta. cbn [listing_of]. rewrite Hs. split.
  - intros Hle. pose proof (page_of_nonempty (allPapers s) page) as Hne.
    pose proof (page_of_length (allPapers s) page Hp) as Hlen.
    split_and!.
    + destruct (page_of (allPapers s) page); [by destruct Hne|simpl; lia].
    + lia.
    + intros Hlt. apply page_of_full. done.
    + intros cards'' [= <-]. apply Hn, Hne. done.
  - intros Hlt. unfold showing. cbn [papersList]. f_equal.
    apply He, page_of_beyond; done.
Qed.

Lemma page_sizes_witness :
  length (shown_papers (listing_of (showPage 1 six_listed))) = 4%nat ∧
  papersList (listing_of (showPage 3 six_listed)) = Some [NoResultsAlert].
Proof.
  destruct (page_sizes six_listed (default [] (papersList six_listed)) 1)
    as [H1 _]; [vm_compute; reflexivity..|lia|].
  destruct (page_sizes six_listed (default [] (papersList six_listed)) 3)
    as [_ H3]; [vm_compute; reflexivity..|lia|].
  split; [apply H1; vm_compute; done|apply H3; vm_compute; done].
Defined.

Lemma card_of_no_source paper :
  (∀ text, own_prop paper "source" ≠ VStr text) → card_of paper = None.
Proof.
  intros Hs. unfold card_of, createPaperElement, read. unfold_L.
  destruct paper; try done.
  all: destruct (own_prop _ "source") eqn:Ho; try done.
  all: by destruct (Hs s).
Qed.

Lemma rendered_until good bad rest :
  (rendered good).2 = true →
  card_of bad = None →
  rendered (good ++ bad :: rest) = ((rendered good).1, false).
Proof.
  intros Hg Hb. induction good as [|paper good IH]; simpl in *.
  - by rewrite Hb.
  - destruct (card_of paper); [|done]. simpl in *. by rewrite IH.
Qed.

(** X3.  [showPage] throws on a paper without a source: when a paper of
    the page has no [source] that is a string, the call ends with a
    [TypeError]; the cards of the papers before it are in the list, the page
    is already the current one and the pagination control is left as it
    was. *)
Theorem showPage_needs_source s cards page good bad rest :
  papersList s = Some cards →
  page_of (allPapers s) page = good ++ bad :: rest →
  (rendered good).2 = true →
  (∀ text, own_prop bad "source" ≠ VStr text) →
  showPage page s =
  Failed TypeError (showing s page (Some (rendered good).1) (pagination s)).
Proof.
  intros Hc Hpage Hg Hb. rewrite showPage_spec, Hc, Hpage. cbv zeta.
  remember (good ++ bad :: rest) as papers eqn:Hp.
  destruct papers as [|paper papers]; [by destruct good|].
  rewrite Hp.
  by rewrite (rendered_until good bad rest Hg (card_of_no_source bad Hb)).
Qed.

Lemma showPage_needs_source_witness :
  showPage 1 unsourced_listed =
  Failed TypeError
    (showing unsourced_listed 1
       (Some [PaperItem (search_hit "a1" "arXiv" 2020) "arxiv"])
       (pagination unsourced_listed)).
Proof.
  apply (showPage_needs_source unsourced_listed [] 1
           [search_hit "a1" "arXiv" 2020] hit_without_source
           [search_hit "a4" "arXiv" 2023]);
    [reflexivity|vm_compute; reflexivity|vm_compute; reflexivity|].
  intros text. vm_compute. discriminate.
Defined.

(** ** The invariant *)

Lemma displayResults_steady data s s' :
  displayResults data s = Done tt s' → steady s'.
Proof.
  intros (papers & _ & _ & H)%displayResults_done.
  pose proof (relist_steady (received papers s) papers) as Hs.
  rewrite H in Hs. destruct (received_frame papers s) as (Ho & Ha & _).
  apply Hs; [done|by rewrite Ha].
Qed.

Lemma showPage_originalPapers page s :
  originalPapers (listing_of (showPage page s)) = originalPapers s.
Proof. rewrite showPage_spec. cbv zeta. by repeat case_match. Qed.

Lemma relist_originalPapers s :
  originalPapers (listing_of
    match setupPagination s with
    | Done _ s' => showPage 1 s'
    | Failed e s' => Failed e s'
    end) = originalPapers s.
Proof.
  rewrite setupPagination_spec, showPage_originalPapers.
  by destruct (pagination s).
Qed.

Lemma spread_state v s : listing_of (spread v s) = s.
Proof. by destruct v. Qed.

Lemma filterPapers_originalPapers s :
  originalPapers (listing_of (filterPapers s)) = originalPapers s.
Proof.
  unfold filterPapers. unfold_L.
  destruct (nothing_to_filter _); [done|].
  pose proof (spread_state (originalPapers s) s) as H0.
  destruct (spread (originalPapers s) s) as [papers s1|e s1]; simpl in H0; subst s1;
    [|done].
  - pose proof (filterBySource_state (sourceFilter_of s) papers s) as H1.
    destruct (filterBySource _ _ _) as [ys s1|e s1]; simpl in H1; subst s1; [|done].
    pose proof (filterByYear_state (yearFilter_of s) ys s) as H2.
    destruct (filterByYear _ _ _) as [zs s1|e s1]; simpl in H2; subst s1; [|done].
    by rewrite relist_originalPapers.
Qed.

Lemma act_originalPapers a s :
  originalPapers (listing_of (act a s)) = originalPapers s.
Proof.
  destruct a as [| |page|yearRange|source|]; simpl.
  - destruct (on_page s is_prev); [|done].
    unfold prev_page_click. unfold_L.
    destruct (1 <? currentPage s); [apply showPage_originalPapers|done].
  - destruct (on_page s (λ _, true)); [|done].
    unfold next_page_click, next_page_handler. unfold_L.
    destruct (pagination s) as [controls|]; [|done]. simpl.
    destruct (next_handler _); [|done].
    destruct (_ <? _); [apply showPage_originalPapers|done].
  - destruct (on_page s (is_page page)); [|done]. apply showPage_originalPapers.
  - unfold year_item_click. unfold_L.
    destruct (year_filter_btn s); [|done]. by rewrite filterPapers_originalPapers.
  - unfold source_item_click. unfold_L. by rewrite filterPapers_originalPapers.
  - unfold resetAllFilters. unfold_L. listing_simpl.
    match goal with |- context [spread ?v ?s0] =>
      pose proof (spread_state v s0) as H0;
      destruct (spread v s0) as [papers s1|e s1]; simpl in H0; subst s1; [|done]
    end.
    by rewrite relist_originalPapers.
Qed.

Lemma visit_originalPapers actions s :
  originalPapers (visit actions s) = originalPapers s.
Proof.
  revert s. induction actions as [|a actions IH]; intros s; [done|].
  simpl. by rewrite IH, act_originalPapers.
Qed.

(** X4.  Between two searches the page shown is always one of the pages.
    After [displayResults] has returned, whatever the visitor clicks (the
    previous and next buttons and the page numbers of a pagination control
    that can be seen, the items of the two filter menus, the reset button),
    the current page stays between 1 and [totalPages] (it is 1 when no paper
    is listed), also when a handler throws; and the notice that nothing was
    found is in the list only when no paper is listed. *)
Theorem page_stays_in_range data s0 s1 actions :
  displayResults data s0 = Done tt s1 →
  let s := visit actions s1 in
  1 ≤ currentPage s ≤ Z.max 1 (totalPages s) ∧
  ∀ cards, papersList s = Some cards → NoResultsAlert ∈ cards → allPapers s = [].
Proof.
  intros H%displayResults_steady.
  destruct (visit_steady actions s1 H) as (_ & Hr & _ & Ha). done.
Qed.

Lemma page_stays_in_range_witness :
  let s := visit [ClickNext; ClickNext; ClickYear "2020-2024"; ClickNext] six_listed in
  1 ≤ currentPage s ≤ Z.max 1 (totalPages s) ∧
  ∀ cards, papersList s = Some cards → NoResultsAlert ∈ cards → allPapers s = [].
Proof.
  apply (page_stays_in_range (object [("papers", VArr six_hits)]) search_page six_listed).
  vm_compute. reflexivity.
Defined.

(** X5.  Between two searches the papers listed are always some of the
    papers of the search, in the order of the search: after [displayResults]
    has returned, whatever the visitor clicks, [originalPapers] is the array
    that the search gave and [allPapers] is a sublist of it. *)
Theorem listed_papers_are_results data s0 s1 actions :
  displayResults data s0 = Done tt s1 →
  ∃ papers,
    or_else (own_prop data "papers") (VArr []) = VArr papers ∧
    originalPapers (visit actions s1) = VArr papers ∧
    allPapers (visit actions s1) `sublist_of` papers.
Proof.
  intros H. pose proof (displayResults_steady _ _ _ H) as Hs.
  destruct (visit_steady actions s1 Hs) as ((papers & Ho & Hsub) & _).
  exists papers. split; [|done].
  rewrite visit_originalPapers in Ho. rewrite <- Ho.
  apply displayResults_done in H as (papers' & Hp & _ & H).
  rewrite Hp.
  pose proof (relist_originalPapers (received papers' s0)) as Hr.
  rewrite H in Hr. cbn [listing_of] in Hr. rewrite Hr.
  by destruct (received_frame papers' s0) as (-> & _).
Qed.

Lemma listed_papers_are_results_witness :
  ∃ papers,
    or_else (own_prop (object [("papers", VArr six_hits)]) "papers") (VArr []) =
      VArr papers ∧
    originalPapers (visit [ClickSource "arXiv"; ClickNext] six_listed) = VArr papers ∧
    allPapers (visit [ClickSource "arXiv"; ClickNext] six_listed) `sublist_of` papers.
Proof.
  apply (listed_papers_are_results (object [("papers", VArr six_hits)]) search_page).
  vm_compute. reflexivity.
Defined.

(** ** Running the filter again *)

Lemma stateless_ret {A} (a : A) : stateless (mret a).
Proof. by intros s s'. Qed.

Lemma stateless_throw {A} (e : exn) : stateless (mthrow e : L A).
Proof. by intros s s'. Qed.

Lemma stateless_bind {A B} (m : L A) (f : A → L B) :
  stateless m → (∀ a, stateless (f a)) → stateless (m ≫= f).
Proof.
  intros Hm Hf s s'. unfold_L. rewrite (Hm s s').
  destruct (m s) as [a s1|e s1]; [|done].
  rewrite (Hf a s1 s'). by destruct (f a s1).
Qed.

Lemma stateless_read o k : stateless (read o k).
Proof. by destruct o. Qed.

Lemma stateless_keep {A} (f : A → L bool) xs :
  (∀ x, stateless (f x)) → stateless (keep f xs).
Proof.
  intros Hf. induction xs as [|x xs IH]; [apply stateless_ret|].
  simpl. apply stateless_bind; [done|]. intros kept.
  apply stateless_bind; [done|]. intros others. apply stateless_ret.
Qed.

Lemma stateless_matchesSource sourceFilter paper :
  stateless (matchesSource sourceFilter paper).
Proof.
  unfold matchesSource. apply stateless_bind; [apply stateless_read|].
  intros paper_source. apply stateless_bind.
  - destruct (truthy _); [|apply stateless_ret].
    destruct paper_source; first [apply stateless_ret|apply stateless_throw].
  - intros paperSource. repeat case_match; apply stateless_ret.
Qed.

Lemma stateless_matchesRange yearStart yearEnd paper :
  stateless (matchesRange yearStart yearEnd paper).
Proof.
  unfold matchesRange. apply stateless_bind; [apply stateless_read|].
  intros ?. apply stateless_ret.
Qed.

Lemma stateless_matchesYear selectedYear paper :
  stateless (matchesYear selectedYear paper).
Proof.
  unfold matchesYear. apply stateless_bind; [apply stateless_read|].
  intros ?. apply stateless_ret.
Qed.

Lemma stateless_filterBySource sourceFilter papers :
  stateless (filterBySource sourceFilter papers).
Proof.
  unfold filterBySource. destruct (_ && _); [|apply stateless_ret].
  apply stateless_keep, stateless_matchesSource.
Qed.

Lemma stateless_filterByYear yearFilter papers :
  stateless (filterByYear yearFilter papers).
Proof.
  unfold filterByYear. repeat case_match; try apply stateless_ret.
  - apply stateless_keep, stateless_matchesRange.
  - apply stateless_keep, stateless_matchesYear.
Qed.

Lemma stateless_spread v : stateless (spread v).
Proof. by destruct v. Qed.

(** Marking the control twice is marking it once. *)

Lemma deactivate_toggle_next disabled items :
  deactivate <$> toggle_next disabled items = toggle_next disabled (deactivate <$> items).
Proof. induction items as [|[] items IH]; csimpl; congruence. Qed.

Lemma deactivate_toggle_prev disabled items :
  deactivate <$> toggle_prev disabled items = toggle_prev disabled (deactivate <$> items).
Proof. induction items as [|[] items IH]; csimpl; congruence. Qed.

Lemma deactivate_activate page items :
  deactivate <$> activate page items = deactivate <$> items.
Proof.
  induction items as [|[] items IH]; csimpl; try congruence.
  destruct (_ =? _); csimpl; congruence.
Qed.

Lemma deactivate_deactivate (items : list PageItem) :
  deactivate <$> (deactivate <$> items) = deactivate <$> items.
Proof. induction items as [|[] items IH]; csimpl; congruence. Qed.

Lemma activate_toggle_next page disabled items :
  activate page (toggle_next disabled items) = toggle_next disabled (activate page items).
Proof.
  induction items as [|[] items IH]; simpl; try congruence.
  destruct (_ =? _); simpl; congruence.
Qed.

Lemma activate_toggle_prev page disabled items :
  activate page (toggle_prev disabled items) = toggle_prev disabled (activate page items).
Proof.
  induction items as [|[] items IH]; simpl; try congruence.
  destruct (_ =? _); simpl; congruence.
Qed.

Lemma toggle_prev_toggle_next a b items :
  toggle_prev a (toggle_next b items) = toggle_next b (toggle_prev a items).
Proof. induction items as [|[] items IH]; simpl; congruence. Qed.

Lemma toggle_next_again a b items :
  toggle_next a (toggle_next b items) = toggle_next a items.
Proof. induction items as [|[] items IH]; simpl; congruence. Qed.

Lemma toggle_prev_again a b items :
  toggle_prev a (toggle_prev b items) = toggle_prev a items.
Proof. induction items as [|[] items IH]; simpl; congruence. Qed.

Lemma marked_again page pages controls :
  marked page pages (marked page pages controls) = marked page pages controls.
Proof.
  unfold marked. simpl. f_equal.
  rewrite deactivate_toggle_next, deactivate_toggle_prev, deactivate_activate,
    deactivate_deactivate.
  rewrite activate_toggle_next, activate_toggle_prev.
  rewrite toggle_prev_toggle_next, toggle_prev_again.
  by rewrite toggle_next_again.
Qed.

Lemma marked_inside page pages controls :
  marked page pages controls =
  mkPagination (d_none controls)
    (activate page
       (deactivate <$>
          toggle_next (page =? pages) (toggle_prev (page =? 1) (page_items controls)))).
Proof.
  unfold marked. f_equal.
  by rewrite deactivate_toggle_next, deactivate_toggle_prev,
    activate_toggle_next, activate_toggle_prev.
Qed.

Lemma toggle_next_numbers disabled (f : Z → bool) nums c pages :
  toggle_next disabled (((λ i, PageNumber i (f i)) <$> nums) ++ [NextPage c pages]) =
  ((λ i, PageNumber i (f i)) <$> nums) ++ [NextPage disabled pages].
Proof. induction nums as [|i nums IH]; csimpl; congruence. Qed.

Lemma marked_links page current current' pages :
  marked page pages (mkPagination false (page_links current pages)) =
  marked page pages (mkPagination false (page_links current' pages)).
Proof.
  rewrite !marked_inside. unfold page_links. cbn [page_items d_none app toggle_prev].
  cbn [toggle_next]. rewrite !toggle_next_numbers. do 2 f_equal.
  rewrite !fmap_cons, !fmap_app. f_equal. f_equal.
  rewrite <- !list_fmap_compose. by apply list_fmap_ext.
Qed.

(** The state after [setupPagination] and [showPage(1)] have returned, on
    a page that has the pagination control. *)
Lemma relist_done s controls s1 :
  pagination s = Some controls →
  match setupPagination s with
  | Done _ s' => showPage 1 s'
  | Failed e s' => Failed e s'
  end = Done tt s1 →
  let arranged :=
    if Z.of_nat (length (allPapers s)) <=? itemsPerPage
    then mkPagination true (page_items controls)
    else mkPagination false (page_links (currentPage s) (totalPages s)) in
  ∃ cards,
    s1 = showing s 1 cards (Some (marked 1 (totalPages s) arranged)) ∧
    cards =
      match papersList s with
      | None => None
      | Some _ =>
          match page_of (allPapers s) 1 with
          | [] => Some [NoResultsAlert]
          | papers => Some (rendered papers).1
          end
      end ∧
    (is_Some (papersList s) → (rendered (page_of (allPapers s) 1)).2 = true).
Proof.
  intros Hc. rewrite setupPagination_spec, Hc, showPage_spec. cbv zeta.
  unfold totalPages, page_links. listing_simpl.
  destruct (papersList s) as [old|].
  - destruct (page_of (allPapers s) 1) as [|paper rest].
    + intros [= <-]. eexists. split; [reflexivity|]. done.
    + destruct (rendered (paper :: rest)).2 eqn:Hall; [|done].
      intros [= <-]. eexists. split; [reflexivity|]. done.
  - intros [= <-]. eexists. split; [reflexivity|]. split; [done|].
    by intros [? ?].
Qed.

Lemma relist_again s controls s1 :
  pagination s = Some controls →
  match setupPagination s with
  | Done _ s' => showPage 1 s'
  | Failed e s' => Failed e s'
  end = Done tt s1 →
  match setupPagination (set_allPapers (allPapers s) s1) with
  | Done _ s' => showPage 1 s'
  | Failed e s' => Failed e s'
  end = Done tt s1.
Proof.
  intros Hc H. destruct (relist_done s controls s1 Hc H) as (cards & -> & Hcards & Hall).
  rewrite setupPagination_spec, showPage_spec. cbv zeta.
  unfold showing, totalPages. listing_simpl.
  fold (totalPages s).
  assert (∀ X,
    marked 1 (totalPages s)
      (if Z.of_nat (length (allPapers s)) <=? itemsPerPage
       then mkPagination true
              (page_items (marked 1 (totalPages s)
                 (if Z.of_nat (length (allPapers s)) <=? itemsPerPage
                  then mkPagination true (page_items controls)
                  else X)))
       else mkPagination false (page_links 1 (totalPages s))) =
    marked 1 (totalPages s)
      (if Z.of_nat (length (allPapers s)) <=? itemsPerPage
       then mkPagination true (page_items controls)
       else mkPagination false (page_links (currentPage s) (totalPages s)))) as Hm.
  { intros X. destruct (_ <=? _).
    - rewrite <- (marked_again 1 (totalPages s) (mkPagination true (page_items controls))) at 2.
      done.
    - apply marked_links. }
  unfold page_links in *.
  destruct (papersList s) as [old|]; subst cards.
  - destruct (page_of (allPapers s) 1) as [|paper rest] eqn:Hpage.
    + cbn [fmap option_fmap option_map]. by rewrite Hm.
    + rewrite Hall by done. cbn [fmap option_fmap option_map]. by rewrite Hm.
  - cbn [fmap option_fmap option_map]. by rewrite Hm.
Qed.

Lemma filterPapers_run s :
  filterPapers s =
  if nothing_to_filter (originalPapers s) then Done tt s else
  match spread (originalPapers s) s with
  | Done papers _ =>
      match filterBySource (sourceFilter_of s) papers s with
      | Done ys _ =>
          match filterByYear (yearFilter_of s) ys s with
          | Done zs _ =>
              match setupPagination (set_allPapers zs s) with
              | Done _ s' => showPage 1 s'
              | Failed e s' => Failed e s'
              end
          | Failed e _ => Failed e s
          end
      | Failed e _ => Failed e s
      end
  | Failed e _ => Failed e s
  end.
Proof.
  unfold filterPapers. unfold_L.
  destruct (nothing_to_filter _); [done|].
  pose proof (spread_state (originalPapers s) s) as H0.
  destruct (spread _ s) as [papers s1|e s1]; simpl in H0; subst s1; [|done].
  pose proof (filterBySource_state (sourceFilter_of s) papers s) as H1.
  destruct (filterBySource _ _ _) as [ys s1|e s1]; simpl in H1; subst s1; [|done].
  pose proof (filterByYear_state (yearFilter_of s) ys s) as H2.
  destruct (filterByYear _ _ _) as [zs s1|e s1]; simpl in H2; subst s1; done.
Qed.

(** X6.  Running the filter again changes nothing: on a page with the
    pagination control, when [filterPapers] has returned, a second call
    returns in the very same state.  (The handlers that call it are
    registered anew with every search, so one click may run it several
    times.) *)
Theorem filterPapers_again s controls s1 :
  pagination s = Some controls →
  filterPapers s = Done tt s1 →
  filterPapers s1 = Done tt s1.
Proof.
  intros Hc. rewrite !filterPapers_run.
  destruct (nothing_to_filter (originalPapers s)) eqn:Hn.
  { intros [= <-]. by rewrite Hn. }
  destruct (spread (originalPapers s) s) as [papers ?|] eqn:Hsp; [|done].
  destruct (filterBySource (sourceFilter_of s) papers s) as [ys ?|] eqn:Hys; [|done].
  destruct (filterByYear (yearFilter_of s) ys s) as [zs ?|] eqn:Hzs; [|done].
  intros H.
  destruct (relist_done (set_allPapers zs s) controls s1 Hc H) as (cards & Hs1 & _).
  assert (originalPapers s1 = originalPapers s) as Ho by (by subst s1).
  assert (sourceFilter_of s1 = sourceFilter_of s) as Hsf by (by subst s1).
  assert (yearFilter_of s1 = yearFilter_of s) as Hyf by (by subst s1).
  rewrite Ho, Hn, Hsf, Hyf.
  rewrite (stateless_spread _ s s1), Hsp.
  rewrite (stateless_filterBySource _ _ s s1), Hys.
  rewrite (stateless_filterByYear _ _ s s1), Hzs.
  apply (relist_again (set_allPapers zs s) controls s1 Hc H).
Qed.

Lemma filterPapers_again_witness :
  ∃ s1,
    filterPapers (visit [ClickNext] six_listed) = Done tt s1 ∧
    filterPapers s1 = Done tt s1.
Proof.
  eexists. split; [vm_compute; reflexivity|].
  apply (filterPapers_again (visit [ClickNext] six_listed)
           (default (mkPagination true []) (pagination (visit [ClickNext] six_listed))));
    vm_compute; reflexivity.
Defined.

(** X7.  The reset button clears both filters: when [resetAllFilters] has
    returned, every paper of the search is listed again, the first page is
    the current one, both filters read "all", and running the filter then
    changes nothing. *)
Theorem resetAllFilters_clears s controls papers s1 :
  pagination s = Some controls →
  originalPapers s = VArr papers →
  resetAllFilters s = Done tt s1 →
  allPapers s1 = papers ∧
  currentPage s1 = 1 ∧
  yearFilter_of s1 = "all" ∧
  sourceFilter_of s1 = "all" ∧
  filterPapers s1 = Done tt s1.
Proof.
  intros Hc Ho. unfold resetAllFilters. unfold_L. listing_simpl. rewrite Ho.
  cbn [spread]. unfold_L. listing_simpl. intros H.
  match type of H with context [setupPagination ?s0] =>
    pose proof (relist_again s0 controls s1 Hc H) as Hagain;
    destruct (relist_done s0 controls s1 Hc H) as (cards & Hs1 & _)
  end.
  listing_simpl.
  assert (yearFilter_of s1 = "all") as Hyf.
  { subst s1. unfold yearFilter_of, showing. listing_simpl.
    by destruct (year_filter_btn s). }
  assert (sourceFilter_of s1 = "all") as Hsf.
  { subst s1. unfold sourceFilter_of, showing. listing_simpl.
    by destruct (source_filter_btn s). }
  split_and!; try done; try (by subst s1).
  rewrite filterPapers_run, Hyf, Hsf.
  assert (originalPapers s1 = VArr papers) as -> by (by subst s1).
  destruct (nothing_to_filter _); [done|].
  cbn [spread]. unfold_L. exact Hagain.
Qed.

Lemma resetAllFilters_clears_witness :
  ∃ s1,
    resetAllFilters (visit [ClickSource "arXiv"] six_listed) = Done tt s1 ∧
    allPapers s1 = six_hits ∧
    currentPage s1 = 1 ∧
    yearFilter_of s1 = "all" ∧
    sourceFilter_of s1 = "all" ∧
    filterPapers s1 = Done tt s1.
Proof.
  eexists. split; [vm_compute; reflexivity|].
  apply (resetAllFilters_clears (visit [ClickSource "arXiv"] six_listed)
           (default (mkPagination true [])
              (pagination (visit [ClickSource "arXiv"] six_listed))));
    vm_compute; reflexivity.
Defined.

(** ** Paging *)

Lemma existsb_is_prev_toggle_next disabled items :
  existsb is_prev (toggle_next disabled items) = existsb is_prev items.
Proof. induction items as [|[] items IH]; simpl; congruence. Qed.

Lemma existsb_is_prev_toggle_prev disabled items :
  existsb is_prev (toggle_prev disabled items) = existsb is_prev items.
Proof. induction items as [|[] items IH]; simpl; congruence. Qed.

Lemma existsb_is_prev_activate page items :
  existsb is_prev (activate page items) = existsb is_prev items.
Proof.
  induction items as [|[] items IH]; simpl; try congruence.
  by destruct (_ =? _).
Qed.

Lemma existsb_is_prev_deactivate items :
  existsb is_prev (deactivate <$> items) = existsb is_prev items.
Proof. induction items as [|[] items IH]; csimpl; congruence. Qed.

Lemma next_handler_nonempty items pages :
  next_handler items = Some pages → existsb (λ _, true) items = true.
Proof. by destruct items. Qed.

Lemma browsable_showPage s page :
  browsable s → 1 ≤ page →
  ∃ s',
    showPage page s = Done tt s' ∧
    browsable s' ∧
    currentPage s' = page ∧
    allPapers s' = allPapers s ∧
    shown_papers s' = page_of (allPapers s) page.
Proof.
  intros ([cards Hcards] & Hall & Hp & _ & controls & Hc & Hd & Hprev & Hnext) Hpage.
  destruct (showPage_shown s cards page Hcards Hall Hpage) as (cards' & -> & Hs & _).
  eexists. split; [reflexivity|]. split; [|done].
  split; [by eexists|]. split; [done|]. split; [done|]. split; [done|].
  exists (marked page (totalPages s) controls).
  unfold showing, totalPages. cbn [pagination allPapers]. rewrite Hc.
  split; [done|]. split; [done|]. split.
  - cbn [marked page_items].
    by rewrite existsb_is_prev_toggle_next, existsb_is_prev_toggle_prev,
      existsb_is_prev_activate, existsb_is_prev_deactivate.
  - cbn [marked page_items].
    by rewrite next_handler_toggle_next, next_handler_toggle_prev,
      next_handler_activate, next_handler_deactivate.
Qed.

Lemma browsable_next s :
  browsable s → currentPage s < totalPages s →
  ∃ s',
    act ClickNext s = Done tt s' ∧
    browsable s' ∧
    currentPage s' = currentPage s + 1 ∧
    allPapers s' = allPapers s ∧
    shown_papers s' = page_of (allPapers s) (currentPage s + 1).
Proof.
  intros Hb Hlt. pose proof Hb as (_ & _ & Hp & _ & controls & Hc & Hd & _ & Hnext).
  simpl. unfold on_page. rewrite Hc, Hd, (next_handler_nonempty _ _ Hnext). simpl.
  unfold next_page_click, next_page_handler. unfold_L. rewrite Hc. simpl.
  rewrite Hnext. apply Z.ltb_lt in Hlt as ->.
  apply browsable_showPage; [done|lia].
Qed.

Lemma browsable_prev s :
  browsable s → 1 < currentPage s →
  ∃ s',
    act ClickPrev s = Done tt s' ∧
    browsable s' ∧
    currentPage s' = currentPage s - 1 ∧
    allPapers s' = allPapers s ∧
    shown_papers s' = page_of (allPapers s) (currentPage s - 1).
Proof.
  intros Hb Hlt. pose proof Hb as (_ & _ & Hp & _ & controls & Hc & Hd & Hprev & _).
  simpl. unfold on_page. rewrite Hc, Hd, Hprev. simpl.
  unfold prev_page_click. unfold_L. rewrite (proj2 (Z.ltb_lt _ _) Hlt).
  apply browsable_showPage; [done|lia].
Qed.

(** The state after a search is one that can be paged through, when it
    found more than four papers that all have a card. *)
Lemma displayResults_browsable data s0 s1 :
  displayResults data s0 = Done tt s1 →
  is_Some (papersList s0) →
  is_Some (pagination s0) →
  (rendered (allPapers s1)).2 = true →
  1 < totalPages s1 →
  browsable s1 ∧ currentPage s1 = 1.
Proof.
  intros (papers & _ & _ & H)%displayResults_done [cards0 Hl] [controls Hc] Hall Hpages.
  destruct (received_frame papers s0) as (_ & Ha & _ & _ & _ & Hl2 & Hc2 & _).
  rewrite Hc in Hc2. rewrite Hl in Hl2.
  destruct (relist_done (received papers s0) controls s1 Hc2 H)
    as (cards & Hs1 & Hcards & _).
  cbv zeta in Hs1. rewrite Hl2 in Hcards.
  assert (allPapers s1 = papers) as Hp by (by rewrite Hs1).
  assert (totalPages (received papers s0) = pages_of papers) as Ht
    by (unfold totalPages; by rewrite Ha).
  assert (totalPages s1 = pages_of papers) as Ht1
    by (unfold totalPages; by rewrite Hp).
  rewrite Ht, Ha in Hs1. rewrite Ht1 in Hpages.
  assert ((Z.of_nat (length papers) <=? itemsPerPage) = false) as Hmany.
  { apply Z.leb_gt. unfold itemsPerPage.
    destruct (pages_of_bounds papers) as [Hb|[_ Hb]]; lia. }
  rewrite Hmany in Hs1.
  split; [|by rewrite Hs1]. split.
  { rewrite Hs1. unfold showing. cbn [papersList]. rewrite Hcards.
    by destruct (page_of _ 1). }
  split; [done|]. split; [by rewrite Hs1|]. split.
  { rewrite Hp in Hall. pose proof (rendered_page papers 1 Hall ltac:(lia)) as Hr.
    pose proof (page_of_nonempty papers 1 ltac:(lia)) as Hne.
    rewrite Hs1. unfold shown_papers, showing. cbn [papersList allPapers currentPage].
    rewrite Hcards, Ha.
    destruct (page_of papers 1) as [|paper rest] eqn:Hpage; [done|].
    by apply rendered_papers. }
  eexists. split; [by rewrite Hs1|]. rewrite Ht1.
  split; [done|]. cbn [marked page_items].
  rewrite existsb_is_prev_toggle_next, existsb_is_prev_toggle_prev,
    existsb_is_prev_activate, existsb_is_prev_deactivate.
  rewrite next_handler_toggle_next, next_handler_toggle_prev,
    next_handler_activate, next_handler_deactivate.
  split; [done|]. apply next_handler_links.
Qed.

Lemma totalPages_ext s s' : allPapers s = allPapers s' → totalPages s = totalPages s'.
Proof. unfold totalPages. by intros ->. Qed.

Lemma visit_next k s :
  browsable s →
  currentPage s + Z.of_nat k ≤ totalPages s →
  let s' := visit (replicate k ClickNext) s in
  browsable s' ∧
  currentPage s' = currentPage s + Z.of_nat k ∧
  allPapers s' = allPapers s.
Proof.
  revert s. induction k as [|k IH]; intros s Hb Hle.
  - simpl. split; [done|]. split; [lia|done].
  - destruct (browsable_next s Hb) as (s1 & Hact & Hb1 & Hc1 & Ha1 & _); [lia|].
    cbn [replicate visit foldl]. rewrite Hact. cbn [listing_of].
    destruct (IH s1 Hb1) as (Hb' & Hc' & Ha').
    { rewrite (totalPages_ext s1 s Ha1). lia. }
    unfold visit in *. split; [done|]. split; [|congruence].
    rewrite Hc', Hc1. lia.
Qed.

(** X8.  Every page can be reached with the next button, and only the first
    five have a number to click.  After a search that found more than four
    papers, all with a card, on a page that has the result list and the
    pagination control: [page - 1] clicks on the next button show the page
    [page], for every page from 1 to [totalPages]; on the last page one more
    click changes nothing; and the control has no number above 5. *)
Theorem every_page_reachable data s0 s1 page :
  displayResults data s0 = Done tt s1 →
  is_Some (papersList s0) →
  is_Some (pagination s0) →
  (rendered (allPapers s1)).2 = true →
  1 < totalPages s1 →
  1 ≤ page ≤ totalPages s1 →
  let s := visit (replicate (Z.to_nat (page - 1)) ClickNext) s1 in
  currentPage s = page ∧
  shown_papers s = page_of (allPapers s1) page ∧
  (page = totalPages s1 → act ClickNext s = Done tt s) ∧
  ∀ controls p active,
    pagination s1 = Some controls → d_none controls = false →
    PageNumber p active ∈ page_items controls → 1 ≤ p ≤ 5.
Proof.
  intros Hd Hl Hc Hall Hmany Hpage.
  destruct (displayResults_browsable _ _ _ Hd Hl Hc Hall Hmany) as [Hb Hcur].
  destruct (visit_next (Z.to_nat (page - 1)) s1 Hb) as (Hb' & Hc' & Ha'); [lia|].
  cbv zeta. split; [lia|]. split.
  { destruct Hb' as (_ & _ & _ & -> & _). rewrite Ha'. f_equal. lia. }
  split.
  - intros ->. destruct Hb' as (_ & _ & _ & _ & controls & Hcs & Hdn & _ & Hnext).
    simpl. unfold on_page. rewrite Hcs, Hdn, (next_handler_nonempty _ _ Hnext).
    simpl. unfold next_page_click, next_page_handler. unfold_L. rewrite Hcs. simpl.
    rewrite Hnext.
    assert (totalPages (visit (replicate (Z.to_nat (totalPages s1 - 1)) ClickNext) s1)
            = totalPages s1) as Ht by (by apply totalPages_ext).
    rewrite Ht. rewrite (proj2 (Z.ltb_ge _ _)) by lia. done.
  - intros controls p active Hcs Hdn Hin.
    apply displayResults_done in Hd as (papers & _ & _ & H).
    destruct (received_frame papers s0) as (_ & Ha & _ & _ & _ & _ & Hc2 & _).
    destruct Hc as [controls0 Hc]. rewrite Hc in Hc2.
    destruct (relist_done (received papers s0) controls0 s1 Hc2 H)
      as (cards & Hs1 & _).
    cbv zeta in Hs1. rewrite Hs1 in Hcs. simpl in Hcs. injection Hcs as <-.
    destruct (_ <=? _); [done|].
    apply elem_of_toggle_next, elem_of_toggle_prev in Hin.
    apply elem_of_activate in Hin as [a' Hin].
    apply elem_of_deactivate in Hin as [a'' Hin].
    unfold page_links in Hin. cbn [app page_items] in Hin.
    rewrite elem_of_cons, elem_of_app, list_elem_of_singleton, list_elem_of_fmap in Hin.
    destruct Hin as [?|[(i & ? & Hi)|?]]; simplify_eq.
    apply elem_of_seqZ in Hi. lia.
Qed.

Lemma every_page_reachable_witness :
  let s := visit (replicate (Z.to_nat (2 - 1)) ClickNext) six_listed in
  currentPage s = 2 ∧
  shown_papers s = page_of (allPapers six_listed) 2 ∧
  (2 = totalPages six_listed → act ClickNext s = Done tt s) ∧
  ∀ controls p active,
    pagination six_listed = Some controls → d_none controls = false →
    PageNumber p active ∈ page_items controls → 1 ≤ p ≤ 5.
Proof.
  apply (every_page_reachable (object [("papers", VArr six_hits)]) search_page).
  - vm_compute. reflexivity.
  - by eexists.
  - by eexists.
  - vm_compute. reflexivity.
  - vm_compute. reflexivity.
  - vm_compute. split; discriminate.
Defined.

(** X9.  The previous button undoes the next button: in a result list that
    can be paged through, from a page that is not the last a click on the
    next button shows the following page, and a click on the previous button
    then shows the page again that was shown before. *)
Theorem next_then_prev s :
  browsable s →
  currentPage s < totalPages s →
  ∃ s1 s2,
    act ClickNext s = Done tt s1 ∧
    currentPage s1 = currentPage s + 1 ∧
    shown_papers s1 = page_of (allPapers s) (currentPage s + 1) ∧
    act ClickPrev s1 = Done tt s2 ∧
    currentPage s2 = currentPage s ∧
    shown_papers s2 = shown_papers s ∧
    allPapers s2 = allPapers s.
Proof.
  intros Hb Hlt.
  destruct (browsable_next s Hb Hlt) as (s1 & Hn & Hb1 & Hc1 & Ha1 & Hs1).
  destruct (browsable_prev s1 Hb1) as (s2 & Hp & Hb2 & Hc2 & Ha2 & Hs2).
  { destruct Hb as (_ & _ & ? & _). lia. }
  exists s1, s2. split_and!; try done.
  - lia.
  - destruct Hb as (_ & _ & _ & -> & _). rewrite Hs2, Ha1. f_equal. lia.
  - congruence.
Qed.

Lemma next_then_prev_witness :
  ∃ s1 s2,
    act ClickNext six_listed = Done tt s1 ∧
    currentPage s1 = currentPage six_listed + 1 ∧
    shown_papers s1 = page_of (allPapers six_listed) (currentPage six_listed + 1) ∧
    act ClickPrev s1 = Done tt s2 ∧
    currentPage s2 = currentPage six_listed ∧
    shown_papers s2 = shown_papers six_listed ∧
    allPapers s2 = allPapers six_listed.
Proof.
  apply (next_then_prev six_listed).
  - split; [vm_compute; by eexists|].
    split; [vm_compute; reflexivity|].
    split; [vm_compute; discriminate|].
    split; [vm_compute; reflexivity|].
    eexists. split; [vm_compute; reflexivity|].
    split; [reflexivity|]. split; vm_compute; reflexivity.
  - vm_compute. reflexivity.
Defined.

(** ** The years of a search *)

Lemma relist_years s :
  let s' := listing_of
    match setupPagination s with
    | Done _ s' => showPage 1 s'
    | Failed e s' => Failed e s'
    end in
  minYear s' = minYear s ∧
  maxYear s' = maxYear s ∧
  availableYears s' = availableYears s ∧
  year_filter_menu s' = year_filter_menu s.
Proof.
  rewrite setupPagination_spec, showPage_spec. cbv zeta.
  destruct (pagination s); listing_simpl; by repeat case_match.
Qed.

(** X10.  What a search does to the years.  When [displayResults] has
    returned, the years on offer are exactly the years of the papers of the
    search (the truthy ones that [parseInt] reads), each once; [minYear] has
    not grown and [maxYear] has not shrunk, each is its old value or a year
    of a paper, and every year on offer lies between them; and the year
    menu, when the page has one, is made from these three. *)
Theorem displayResults_years data s s' :
  displayResults data s = Done tt s' →
  ∃ papers,
    or_else (own_prop data "papers") (VArr []) = VArr papers ∧
    (∀ y, y ∈ availableYears s' ↔ y ∈ years_of papers) ∧
    NoDup (availableYears s') ∧
    minYear s' ≤ minYear s ∧
    maxYear s ≤ maxYear s' ∧
    (∀ y, y ∈ availableYears s' → minYear s' ≤ y ≤ maxYear s') ∧
    (minYear s' = minYear s ∨ minYear s' ∈ years_of papers) ∧
    (maxYear s' = maxYear s ∨ maxYear s' ∈ years_of papers) ∧
    (is_Some (year_filter_menu s) →
     year_filter_menu s' =
       Some (year_options (minYear s') (maxYear s') (availableYears s'))).
Proof.
  intros (papers & Hp & _ & H)%displayResults_done. exists papers.
  split; [done|].
  pose proof (relist_years (received papers s)) as Hr. cbv zeta in Hr.
  rewrite H in Hr. cbn [listing_of] in Hr.
  destruct Hr as (-> & -> & -> & ->).
  unfold received. cbv zeta.
  set (s0 := set_availableYears []
               (set_allPapers papers (set_originalPapers (VArr papers) s))).
  destruct (foldl_note_years s0 (years_of papers))
    as (Hy & Hn & Hmin & Hmax & Hrange & Hlo & Hhi).
  destruct (foldl_note_frame s0 (years_of papers))
    as (_ & _ & _ & _ & _ & Hmenu & _).
  assert (∀ y, y ∈ availableYears (foldl note s0 (years_of papers)) ↔
               y ∈ years_of papers) as Hy'.
  { intros y. rewrite Hy. subst s0. listing_simpl. rewrite elem_of_nil. tauto. }
  destruct (year_filter_menu (foldl note s0 (years_of papers))) eqn:Hm;
    listing_simpl.
  - split_and!; try done.
    + apply Hn. subst s0. listing_simpl. constructor.
    + intros y Hin. apply Hrange, Hy', Hin.
  - split_and!; try done.
    + apply Hn. subst s0. listing_simpl. constructor.
    + intros y Hin. apply Hrange, Hy', Hin.
    + rewrite Hmenu in Hm. subst s0. listing_simpl.
      intros [? ?]. congruence.
Qed.

Lemma displayResults_years_witness :
  ∃ papers,
    or_else (own_prop (object [("papers", VArr six_hits)]) "papers") (VArr []) =
      VArr papers ∧
    (∀ y, y ∈ availableYears six_listed ↔ y ∈ years_of papers) ∧
    NoDup (availableYears six_listed) ∧
    minYear six_listed ≤ minYear search_page ∧
    maxYear search_page ≤ maxYear six_listed ∧
    (∀ y, y ∈ availableYears six_listed →
          minYear six_listed ≤ y ≤ maxYear six_listed) ∧
    (minYear six_listed = minYear search_page ∨ minYear six_listed ∈ years_of papers) ∧
    (maxYear six_listed = maxYear search_page ∨ maxYear six_listed ∈ years_of papers) ∧
    (is_Some (year_filter_menu search_page) →
     year_filter_menu six_listed =
       Some (year_options (minYear six_listed) (maxYear six_listed)
               (availableYears six_listed))).
Proof.
  apply (displayResults_years (object [("papers", VArr six_hits)]) search_page).
  vm_compute. reflexivity.
Defined.

Lemma elem_of_year_ranges rounds start minYear end_ start' :
  YearRange end_ start' ∈ year_ranges rounds start minYear ↔
  ∃ i, 0 ≤ i < Z.of_nat rounds ∧ start' = start - 5 * i ∧ minYear ≤ start' ∧
       end_ = Z.max (start' - 4) minYear.
Proof.
  revert start. induction rounds as [|rounds IH]; intros start; simpl.
  - rewrite elem_of_nil. split; [done|]. intros (i & ? & _). lia.
  - destruct (Z.leb_spec minYear start) as [Hle|Hgt].
    + rewrite elem_of_cons, IH. split.
      * intros [[= -> ->]|(i & Hi & -> & Hlo & ->)].
        -- exists 0. split; [lia|]. split; [lia|]. split; [done|]. lia.
        -- exists (i + 1). split; [lia|]. split; [lia|]. split; [lia|]. lia.
      * intros (i & Hi & -> & Hlo & ->).
        destruct (decide (i = 0)) as [->|Hne].
        -- left. f_equal; lia.
        -- right. exists (i - 1). split; [lia|]. split; [lia|]. split; [lia|].
           lia.
    + rewrite elem_of_nil. split; [done|]. intros (i & ? & -> & ? & _). lia.
Qed.

(** X11.  The ranges of the year menu tile the span of the years.  When
    [maxYear - minYear] is at least 5, every year from [minYear] to
    [maxYear] lies in exactly one range of the menu; that range covers at
    most five years and stays within the span. *)
Theorem year_ranges_tile minYear maxYear availableYears y :
  5 ≤ maxYear - minYear →
  minYear ≤ y ≤ maxYear →
  ∃ end_ start,
    YearRange end_ start ∈ year_options minYear maxYear availableYears ∧
    end_ ≤ y ≤ start ∧
    minYear ≤ end_ ∧ start ≤ maxYear ∧ start - end_ ≤ 4 ∧
    ∀ end' start',
      YearRange end' start' ∈ year_options minYear maxYear availableYears →
      end' ≤ y ≤ start' → end' = end_ ∧ start' = start.
Proof.
  intros Hspan Hy.
  assert (∀ end_ start,
    YearRange end_ start ∈ year_options minYear maxYear availableYears ↔
    5 ≤ maxYear - minYear ∧
    YearRange end_ start ∈
      year_ranges (Z.to_nat (maxYear - minYear + 1)) maxYear minYear) as Hin.
  { intros end_ start. unfold year_options.
    rewrite !elem_of_app, !list_elem_of_singleton, list_elem_of_fmap.
    destruct (Z.leb_spec 5 (maxYear - minYear)).
    - split; [|tauto]. intros [?|[?|[?|(? & ? & _)]]]; done.
    - rewrite elem_of_nil. split; [|lia]. intros [?|[?|[?|(? & ? & _)]]]; done. }
  pose proof (Z.div_mod (maxYear - y) 5 ltac:(lia)) as Hdiv.
  pose proof (Z.mod_pos_bound (maxYear - y) 5 ltac:(lia)) as Hmod.
  set (i := (maxYear - y) / 5) in *.
  exists (Z.max (maxYear - 5 * i - 4) minYear), (maxYear - 5 * i).
  split_and!; try lia.
  + apply Hin. split; [done|]. apply elem_of_year_ranges.
    exists i. split; [lia|]. split; [done|]. split; [lia|done].
  + intros end' start' [_ (j & Hj & -> & Hlo & ->)%elem_of_year_ranges]%Hin Hy'.
    assert (j = i) as -> by lia. done.
Qed.

Lemma year_ranges_tile_witness :
  ∃ end_ start,
    YearRange end_ start ∈ year_options 2012 2026 [2020; 2012] ∧
    end_ ≤ 2019 ≤ start ∧
    2012 ≤ end_ ∧ start ≤ 2026 ∧ start - end_ ≤ 4 ∧
    ∀ end' start',
      YearRange end' start' ∈ year_options 2012 2026 [2020; 2012] →
      end' ≤ 2019 ≤ start' → end' = end_ ∧ start' = start.
Proof.
  apply (year_ranges_tile 2012 2026 [2020; 2012] 2019); lia.
Defined.

(** ** Decimal numbers as text *)

Lemma pretty_N_char_digit (d : N) :
  (d < 10)%N →
  is_digit (pretty_N_char d) = true ∧
  digit_of 10 (pretty_N_char d) = Some (Z.of_N d).
Proof.
  intros Hd.
  assert (d = 0 ∨ d = 1 ∨ d = 2 ∨ d = 3 ∨ d = 4 ∨ d = 5 ∨ d = 6 ∨ d = 7 ∨
          d = 8 ∨ d = 9)%N as H by lia.
  repeat (destruct H as [->|H]; [by vm_compute|]). subst. by vm_compute.
Qed.

Lemma pretty_N_go_digits x s :
  all_digits s = true → all_digits (pretty_N_go x s) = true.
Proof.
  revert s. induction (N.lt_wf_0 x) as [x _ IH]. intros s Hs.
  destruct (decide (x = 0)%N) as [->|Hx]; [by rewrite pretty_N_go_0|].
  rewrite pretty_N_go_step by lia.
  apply IH; [apply N.div_lt; lia|]. simpl.
  destruct (pretty_N_char_digit (x mod 10)) as [-> _]; [|done].
  apply N.mod_lt. lia.
Qed.

Lemma pretty_N_go_parse x s :
  (0 < x)%N →
  parse_digits 10 None (pretty_N_go x s) = parse_digits 10 (Some (Z.of_N x)) s.
Proof.
  revert s. induction (N.lt_wf_0 x) as [x _ IH]. intros s Hx.
  rewrite pretty_N_go_step by lia.
  destruct (pretty_N_char_digit (x mod 10)) as [_ Hd]; [apply N.mod_lt; lia|].
  pose proof (N.div_mod x 10 ltac:(lia)) as Hdiv.
  destruct (decide (x / 10 = 0)%N) as [H0|H0].
  - rewrite H0, pretty_N_go_0. cbn [parse_digits]. rewrite Hd.
    cbn [default]. do 2 f_equal. clear IH Hd. lia.
  - rewrite IH; [|apply N.div_lt; lia|by apply N.neq_0_lt_0].
    cbn [parse_digits]. rewrite Hd.
    cbn [default]. do 2 f_equal. clear IH Hd. unfold Datatypes.id. lia.
Qed.

Lemma pretty_N_go_first x s :
  (0 < x)%N → ∃ c rest, pretty_N_go x s = String c rest ∧ is_digit c = true.
Proof.
  revert s. induction (N.lt_wf_0 x) as [x _ IH]. intros s Hx.
  rewrite pretty_N_go_step by lia.
  destruct (decide (x / 10 = 0)%N) as [H0|H0].
  - rewrite H0, pretty_N_go_0. eexists _, _. split; [done|].
    apply pretty_N_char_digit, N.mod_lt. lia.
  - apply IH; [apply N.div_lt; lia|by apply N.neq_0_lt_0].
Qed.

(** The decimal text of a number that is not negative: digits, at least
    one, that [parseInt] reads back. *)
Lemma pretty_decimal (n : Z) :
  0 ≤ n →
  all_digits (pretty n) = true ∧
  (∃ c rest, pretty n = String c rest ∧ is_digit c = true) ∧
  parse_digits 10 None (pretty n) = Some n.
Proof.
  intros Hn. destruct n as [|p|p]; [| |lia].
  - change (pretty 0) with "0". split_and!; [done| |done].
    by exists "0"%char, "".
  - change (pretty (Z.pos p)) with (pretty (N.pos p)).
    unfold pretty, pretty_N. rewrite decide_False by done.
    split_and!.
    + by apply pretty_N_go_digits.
    + by apply pretty_N_go_first.
    + by rewrite pretty_N_go_parse.
Qed.

Lemma digit_char c :
  is_digit c = true →
  is_whitespace c = false ∧
  Ascii.eqb "-" c = false ∧
  Ascii.eqb "+" c = false ∧
  Ascii.eqb "x" c = false ∧
  Ascii.eqb "X" c = false ∧
  Ascii.eqb "a" c = false.
Proof. destruct c as [[] [] [] [] [] [] [] []]; by vm_compute. Qed.

Lemma string_app_cons x (a b : string) : String x a +:+ b = String x (a +:+ b).
Proof. reflexivity. Qed.

Lemma string_app_assoc (a b c : string) : (a +:+ b) +:+ c = a +:+ (b +:+ c).
Proof.
  induction a as [|x a IH]; [done|]. rewrite !string_app_cons. congruence.
Qed.

Lemma string_app_empty (a : string) : a +:+ "" = a.
Proof.
  induction a as [|x a IH]; [done|]. rewrite string_app_cons. congruence.
Qed.

Lemma trimEnd_digits d : all_digits d = true → trimEnd d = d.
Proof.
  induction d as [|c d IH]; simpl; [done|].
  intros [Hc Hd]%andb_prop. apply digit_char in Hc as (-> & _).
  by rewrite IH.
Qed.

Lemma trim_digits d : all_digits d = true → trim d = d.
Proof.
  intros Hd. unfold trim. destruct d as [|c d]; [done|].
  pose proof Hd as [Hc _]%andb_prop. apply digit_char in Hc as (Hw & _).
  cbn [trimStart]. rewrite Hw. by apply trimEnd_digits.
Qed.

Lemma parseInt_digits d :
  all_digits d = true → parseInt_string d = parse_digits 10 None d.
Proof.
  intros Hd. unfold parseInt_string.
  assert (∀ o : option Z, (λ n, 1 * n) <$> o = o) as Hone.
  { intros [n|]; simpl; [f_equal; lia|done]. }
  destruct d as [|c d]; [done|].
  pose proof Hd as [Hc Hd']%andb_prop.
  pose proof (digit_char c Hc) as (Hw & Hminus & Hplus & _).
  cbn [trimStart]. rewrite Hw.
  assert (match String c d with
          | String "-" s' => (-1, s')
          | String "+" s' => (1, s')
          | _ => (1, String c d)
          end = (1, String c d)) as ->.
  { destruct c as [[] [] [] [] [] [] [] []]; try done; by vm_compute in Hc. }
  assert (startsWith (String c d) "0x" || startsWith (String c d) "0X" = false) as ->.
  { destruct d as [|c' d]; cbn [startsWith]; [by rewrite !andb_false_r|].
    cbn [all_digits] in Hd'. apply andb_prop in Hd' as [Hc' _].
    apply digit_char in Hc' as (_ & _ & _ & -> & -> & _).
    by rewrite !andb_false_r. }
  apply Hone.
Qed.

Lemma parseInt_pretty (n : Z) :
  0 ≤ n → parseInt_string (trim (pretty n)) = Some n.
Proof.
  intros (Hd & _ & Hp)%pretty_decimal.
  by rewrite trim_digits, parseInt_digits.
Qed.

Lemma split_from_digits d part rest :
  all_digits d = true →
  split_from "-" 0 part (d +:+ rest) = split_from "-" 0 (part +:+ d) rest.
Proof.
  revert part. induction d as [|c d IH]; intros part Hd.
  - by rewrite string_app_empty.
  - apply andb_prop in Hd as [Hc Hd]. rewrite string_app_cons.
    apply digit_char in Hc as (_ & Hc & _). cbn [split_from startsWith].
    rewrite Hc. cbn [andb].
    rewrite IH by done. by rewrite string_app_assoc.
Qed.

Lemma startsWith_empty s : startsWith s "" = true.
Proof. by destruct s. Qed.

Lemma split_range a b :
  all_digits a = true → all_digits b = true →
  str_split (a +:+ "-" +:+ b) "-" = [a; b].
Proof.
  intros Ha Hb. unfold str_split.
  rewrite split_from_digits by done.
  change ("-" +:+ b) with (String "-" b). change ("" +:+ a) with a.
  cbn [split_from startsWith Ascii.eqb Bool.eqb andb String.length Nat.sub].
  rewrite startsWith_empty.
  rewrite <- (string_app_empty b) at 1.
  rewrite (split_from_digits b "" "") by done. reflexivity.
Qed.

Lemma includes_digits d : all_digits d = true → includes d "-" = false.
Proof.
  induction d as [|c d IH]; [done|]. cbn [all_digits includes startsWith].
  intros [Hc Hd]%andb_prop. apply digit_char in Hc as (_ & -> & _).
  cbn [andb orb]. auto.
Qed.

Lemma includes_range a b :
  all_digits a = true → includes (a +:+ "-" +:+ b) "-" = true.
Proof.
  induction a as [|c a IH].
  { intros _. change ("" +:+ "-" +:+ b) with (String "-" b).
    cbn [includes startsWith]. by rewrite startsWith_empty. }
  rewrite string_app_cons. cbn [all_digits includes].
  intros [Hc Ha]%andb_prop. rewrite IH by done. apply orb_true_r.
Qed.

Lemma digits_not_all d c rest :
  d = String c rest → is_digit c = true →
  String.eqb d "" = false ∧ String.eqb d "all" = false.
Proof.
  intros -> Hc. split; [done|].
  apply digit_char in Hc as (_ & _ & _ & _ & _ & Ha). cbn [String.eqb].
  rewrite Ascii.eqb_sym. by rewrite Ha.
Qed.

(** ** The year menu and the year filter *)

Lemma relist_allPapers s :
  allPapers (listing_of
    match setupPagination s with
    | Done _ s' => showPage 1 s'
    | Failed e s' => Failed e s'
    end) = allPapers s.
Proof.
  rewrite setupPagination_spec, showPage_spec. cbv zeta.
  destruct (pagination s); listing_simpl; by repeat case_match.
Qed.

Lemma filter_all {A} (xs : list A) : List.filter (λ _, true) xs = xs.
Proof. induction xs as [|x xs IH]; simpl; congruence. Qed.

Lemma filterByYear_item item yearRange papers s :
  data_year item = Some yearRange →
  offered item →
  forallb (λ paper, negb (nullish paper)) papers = true →
  filterByYear yearRange papers s = Done (List.filter (kept_by item) papers) s.
Proof.
  intros Hitem Hoff Hall. unfold filterByYear.
  destruct item as [|end_ start| |year]; simpl in Hitem, Hoff; simplify_eq.
  - simpl. by rewrite filter_all.
  - destruct Hoff as [He Hs].
    destruct (pretty_decimal end_ He) as (Hde & (c & rest & Hce & Hc) & Hpe).
    destruct (pretty_decimal start Hs) as (Hds & _ & Hps).
    destruct (digits_not_all (pretty end_ +:+ "-" +:+ pretty start) c
                (rest +:+ "-" +:+ pretty start)) as [-> ->]; [by rewrite Hce|done|].
    cbn [negb andb]. rewrite includes_range, split_range by done.
    cbn [fmap list_fmap]. rewrite !parseInt_pretty by done.
    apply keep_filter. intros paper Hin.
    rewrite forallb_forall in Hall.
    apply list_elem_of_In, Hall in Hin.
    unfold matchesRange, read. unfold_L. by destruct paper.
  - destruct (pretty_decimal year Hoff) as (Hd & (c & rest & Hcy & Hc) & Hp).
    destruct (digits_not_all (pretty year) c rest Hcy Hc) as [-> ->].
    cbn [negb andb]. rewrite includes_digits, parseInt_digits, Hp by done.
    apply keep_filter. intros paper Hin.
    rewrite forallb_forall in Hall.
    apply list_elem_of_In, Hall in Hin.
    unfold matchesYear, read. unfold_L. by destruct paper.
Qed.

(** X12.  An item of the year menu lists the papers of its years.  After
    a search that found at least one paper and whose list has no entry that
    is [null] or [undefined], on a page that has the year button and with
    the source filter at "all": the click handler of an item of the menu
    that is not the separator and whose years are not negative leaves the
    [data-year] of the item on the year button and lists exactly the papers
    of the search that the item stands for, in the order of the search: all
    of them, those whose year lies in the range, or those of the one year. *)
Theorem year_item_lists_its_years s papers button item yearRange :
  originalPapers s = VArr papers →
  papers ≠ [] →
  forallb (λ paper, negb (nullish paper)) papers = true →
  year_filter_btn s = Some button →
  sourceFilter_of s = "all" →
  data_year item = Some yearRange →
  offered item →
  let s' := listing_of (year_item_click yearRange s) in
  allPapers s' = List.filter (kept_by item) papers ∧
  year_filter_btn s' = Some (Some yearRange).
Proof.
  intros Ho Hne Hall Hb Hsf Hitem Hoff. cbv zeta.
  unfold year_item_click. unfold_L. rewrite Hb.
  rewrite filterPapers_run.
  change (originalPapers (set_year_filter_btn (Some (Some yearRange)) s))
    with (originalPapers s).
  change (sourceFilter_of (set_year_filter_btn (Some (Some yearRange)) s))
    with (sourceFilter_of s).
  rewrite Ho, Hsf.
  assert (nothing_to_filter (VArr papers) = false) as -> by (by destruct papers).
  cbn [spread]. unfold_L. cbn [filterBySource String.eqb Ascii.eqb Bool.eqb negb andb].
  unfold_L.
  assert (yearFilter_of (set_year_filter_btn (Some (Some yearRange)) s) = yearRange)
    as ->.
  { unfold yearFilter_of. listing_simpl. unfold or_all.
    destruct item as [|end_ start| |year]; simpl in Hitem, Hoff; simplify_eq; [done| |].
    - destruct Hoff as [He _].
      destruct (pretty_decimal end_ He) as (_ & (c & rest & -> & _) & _). done.
    - destruct (pretty_decimal year Hoff) as (_ & (c & rest & -> & _) & _). done. }
  rewrite (filterByYear_item item yearRange papers _ Hitem Hoff Hall).
  split; [by rewrite relist_allPapers|].
  rewrite setupPagination_spec, showPage_spec. cbv zeta.
  destruct (pagination _); listing_simpl; by repeat case_match.
Qed.

Lemma year_item_lists_its_years_witness :
  let s' := listing_of (year_item_click "2020-2024" six_listed) in
  allPapers s' = List.filter (kept_by (YearRange 2020 2024)) six_hits ∧
  year_filter_btn s' = Some (Some "2020-2024").
Proof.
  apply (year_item_lists_its_years six_listed six_hits None (YearRange 2020 2024));
    try (vm_compute; reflexivity).
  - discriminate.
  - simpl. lia.
Defined.

(** ** Searches that find nothing, or something broken *)

Lemma displayResults_run data s papers :
  nullish data = false →
  or_else (own_prop data "papers") (VArr []) = VArr papers →
  ∃ years,
    displayResults data s =
    if forallb (λ paper, negb (nullish paper)) papers
    then match setupPagination (received papers s) with
         | Done _ s3 => showPage 1 s3
         | Failed e s3 => Failed e s3
         end
    else Failed TypeError
           (foldl note
              (set_availableYears []
                 (set_allPapers papers (set_originalPapers (VArr papers) s)))
              years).
Proof.
  intros Hd Ho.
  unfold displayResults, read, spread, forEach_paper, received. unfold_L.
  destruct data; try done.
  all: listing_simpl; rewrite Ho; listing_simpl.
  all: match goal with |- context [each ?ps collectYear ?s0] =>
         destruct (each_collectYear ps s0) as [years ->]; exists years;
         destruct (forallb (λ paper, negb (nullish paper)) ps); [|done];
         cbv zeta; by rewrite updateYearFilterOptions_spec
       end.
Qed.

(** X13.  A search that finds nothing.  When the answer has no [papers],
    or an empty list, [displayResults] returns on a page that has the result
    list and the pagination control: no paper is listed, the list shows the
    notice that nothing was found, the pagination control is hidden, and the
    filter does nothing from then on. *)
Theorem displayResults_nothing_found data s cards controls :
  nullish data = false →
  or_else (own_prop data "papers") (VArr []) = VArr [] →
  papersList s = Some cards →
  pagination s = Some controls →
  ∃ s',
    displayResults data s = Done tt s' ∧
    allPapers s' = [] ∧
    currentPage s' = 1 ∧
    papersList s' = Some [NoResultsAlert] ∧
    d_none <$> pagination s' = Some true ∧
    filterPapers s' = Done tt s'.
Proof.
  intros Hd Ho Hl Hc.
  destruct (displayResults_run data s [] Hd Ho) as [years ->]. cbn [forallb].
  destruct (received_frame [] s) as (Ho' & Ha & _ & _ & _ & Hl' & Hc' & _).
  rewrite Hc in Hc'. rewrite Hl in Hl'.
  rewrite setupPagination_spec, Hc', Ha, showPage_spec. cbv zeta.
  listing_simpl. rewrite Hl', Ha.
  eexists. split; [reflexivity|]. unfold showing. listing_simpl.
  split_and!; try done.
  rewrite filterPapers_run. listing_simpl. by rewrite Ho'.
Qed.

Lemma displayResults_nothing_found_witness :
  ∃ s',
    displayResults nothing_found six_listed = Done tt s' ∧
    allPapers s' = [] ∧
    currentPage s' = 1 ∧
    papersList s' = Some [NoResultsAlert] ∧
    d_none <$> pagination s' = Some true ∧
    filterPapers s' = Done tt s'.
Proof.
  apply (displayResults_nothing_found nothing_found six_listed
           (default [] (papersList six_listed))
           (default (mkPagination true []) (pagination six_listed)));
    vm_compute; reflexivity.
Defined.

(** X14.  A search whose list has a hole.  When an entry of [papers] is
    [null] or [undefined], [displayResults] throws a [TypeError] while it
    collects the years: the papers of the answer are already the listed
    ones, but the result list, the pagination control, the current page and
    the year menu are still those of the search before. *)
Theorem displayResults_hole data s papers :
  nullish data = false →
  own_prop data "papers" = VArr papers →
  forallb (λ paper, negb (nullish paper)) papers = false →
  ∃ s',
    displayResults data s = Failed TypeError s' ∧
    originalPapers s' = VArr papers ∧
    allPapers s' = papers ∧
    currentPage s' = currentPage s ∧
    papersList s' = papersList s ∧
    pagination s' = pagination s ∧
    year_filter_menu s' = year_filter_menu s.
Proof.
  intros Hd Ho Hall.
  destruct (displayResults_run data s papers Hd) as [years ->];
    [by rewrite Ho|].
  rewrite Hall. eexists. split; [reflexivity|].
  destruct (foldl_note_frame
    (set_availableYears [] (set_allPapers papers
       (set_originalPapers (VArr papers) s))) years)
    as (-> & -> & -> & _ & _ & -> & -> & -> & _).
  done.
Qed.

Lemma displayResults_hole_witness :
  ∃ s',
    displayResults broken_answer six_listed = Failed TypeError s' ∧
    originalPapers s' = VArr [search_hit "a1" "arXiv" 2020; VNull] ∧
    allPapers s' = [search_hit "a1" "arXiv" 2020; VNull] ∧
    currentPage s' = currentPage six_listed ∧
    papersList s' = papersList six_listed ∧
    pagination s' = pagination six_listed ∧
    year_filter_menu s' = year_filter_menu six_listed.
Proof.
  apply (displayResults_hole broken_answer six_listed); vm_compute; reflexivity.
Defined.

(** * Further properties of the conversation *)

(** ** Requests of an exchange *)

Lemma ensureCsrfToken_traced w :
  ∃ csrfToken errors,
    ensureCsrfToken w =
      Returned csrfToken
        (set_console_error errors (set_trace (trace w ++ csrf_fetch w) w)) ∧
    (truthy (of_option (csrf_token w)) = true →
     csrfToken = of_option (csrf_token w)).
Proof.
  destruct w. unfold ensureCsrfToken, getCookie_csrf_token, fetch, json, get_prop,
    csrf_fetch.
  unfold_monad. world_simpl.
  destruct (truthy (of_option csrf_token0)) eqn:Hc; cbn [negb].
  - eexists _, _. split; [by rewrite app_nil_r|]. done.
  - repeat case_match; simplify_eq; world_simpl; eexists _, _;
      (split; [reflexivity|]); done.
Qed.

(** X15.  [ensureCsrfToken] never throws and asks the server only when it
    has to: with a CSRF cookie on the page it returns the cookie and does
    nothing else; without one it makes exactly one request, and when that
    request is rejected or answered with a failure status it returns the
    falsy cookie value, so that the caller sends no CSRF header. *)
Theorem ensureCsrfToken_requests w :
  ∃ csrfToken errors,
    ensureCsrfToken w =
      Returned csrfToken
        (set_console_error errors (set_trace (trace w ++ csrf_fetch w) w)) ∧
    (truthy (of_option (csrf_token w)) = true →
     csrfToken = of_option (csrf_token w) ∧ errors = console_error w) ∧
    (truthy (of_option (csrf_token w)) = false →
     match remote w GET_csrf_token with
     | NetworkError => True
     | Response status _ => ok status = false
     end →
     truthy csrfToken = false).
Proof.
  destruct w. unfold ensureCsrfToken, getCookie_csrf_token, fetch, json, get_prop,
    csrf_fetch.
  unfold_monad. world_simpl.
  destruct (truthy (of_option csrf_token0)) eqn:Hc; cbn [negb].
  - eexists _, _. split; [by rewrite app_nil_r|]. done.
  - repeat case_match; simplify_eq; world_simpl; eexists _, _;
      (split; [reflexivity|]); split; try done; intros _ Hf;
      repeat match goal with
             | H : remote0 GET_csrf_token = _ |- _ => rewrite H in Hf
             end; simpl in *; congruence.
Qed.

(** The steps of [sendQuestion] up to the request, with the requests that
    [ensureCsrfToken] makes. *)
Ltac send_question_traced Hctx Hq :=
  unfold sendQuestion; unfold_monad;
  rewrite Hctx, Hq;
  unfold addMessageToChat, showTypingIndicator, headers_with, isUserLoggedIn,
    getToken, fetch, removeTypingIndicator;
  unfold_monad; world_simpl;
  match goal with |- context [ensureCsrfToken ?w0] =>
    let v := fresh "csrf" in
    let Hv := fresh "Hcsrf" in
    destruct (ensureCsrfToken_traced w0) as (v & ? & -> & Hv);
    unfold csrf_fetch in *
  end;
  world_simpl.

Lemma sendQuestion_posts w ctx :
  currentPaperContext w = Some ctx →
  String.eqb (trim (modalQuestionInput w)) "" = false →
  ∃ w' headers events,
    sendQuestion w = Returned tt w' ∧
    trace w' =
      trace w ++ csrf_fetch w ++
      [Fetch (POST_question (question_body w ctx) headers)] ++ events.
Proof.
  intros Hctx Hq. unfold question_body, logged_in, csrf_fetch.
  send_question_traced Hctx Hq.
  assert (∀ t : list event,
    (trace w ++ (if truthy (of_option (csrf_token w)) then [] else [Fetch GET_csrf_token]))
      ++ t =
    trace w ++ (if truthy (of_option (csrf_token w)) then [] else [Fetch GET_csrf_token])
      ++ t) as Hassoc by (intros; by rewrite <- app_assoc).
  clear Hcsrf.
  destruct (remote w _) as [|status body]; world_simpl;
    [eexists _, _, []; split; [reflexivity|]; world_simpl;
     rewrite Hassoc; done|].
  destruct (ok status);
    [|eexists _, _, []; split; [reflexivity|]; world_simpl;
      rewrite Hassoc; done].
  unfold json. unfold_monad. world_simpl.
  destruct body as [data|]; world_simpl;
    [|eexists _, _, []; split; [reflexivity|]; world_simpl;
      rewrite Hassoc; done].
  destruct data; unfold get_prop; unfold_monad; world_simpl;
    try (eexists _, _, []; split; [reflexivity|]; world_simpl;
         rewrite Hassoc; done).
  all: match goal with |- context [truthy ?s] =>
         destruct (truthy s);
         [|eexists _, _, []; split; [reflexivity|]; world_simpl;
           rewrite Hassoc; done] end.
  all: rewrite parse_chatSessions_parsed; world_simpl.
  all: destruct (parsed (chatSessions w)) as [saved|] eqn:Hp; world_simpl;
         [|eexists _, _, []; split; [reflexivity|]; world_simpl;
           rewrite Hassoc; done].
  all: destruct saved; unfold set_prop; unfold_monad; world_simpl;
         try (eexists _, _, []; split; [reflexivity|]; world_simpl;
              rewrite Hassoc; done).
  all: destruct (storage_full w) eqn:Hfull;
         [rewrite setItem_unwritable by reflexivity; world_simpl;
          eexists _, _, []; split; [reflexivity|]; world_simpl;
          rewrite Hassoc; done|].
  all: rewrite setItem_writable by reflexivity; world_simpl.
  all: match goal with |- context [updateSidebar ?a ?b ?c ?d ?w2] =>
         destruct (updateSidebar_returns a b c d w2) as [l ->] end.
  all: eexists _, _, [_]; split; [reflexivity|]; world_simpl.
  all: rewrite <- app_assoc, Hassoc; done.
Qed.

(** X16.  One question, one request.  Every call of [sendQuestion] with a
    context and a text that is not blank posts exactly one question, whose
    body is made from the context of line 25 and the trimmed text; before it
    there is a request for a CSRF token exactly when the page has no such
    cookie, and after it at most one write of the index; no other request is
    made and the call returns. *)
Theorem sendQuestion_requests w ctx :
  currentPaperContext w = Some ctx →
  String.eqb (trim (modalQuestionInput w)) "" = false →
  ∃ w' csrfToken events,
    sendQuestion w = Returned tt w' ∧
    trace w' =
      trace w ++ csrf_fetch w ++
      [Fetch (POST_question (question_body w ctx) (headers_of (token w) csrfToken))] ++
      events ∧
    (truthy (of_option (csrf_token w)) = true → csrfToken = of_option (csrf_token w)) ∧
    (events = [] ∨ ∃ v, events = [SetItem "chatSessions" v]).
Proof.
  intros Hctx Hq. unfold question_body, logged_in, csrf_fetch.
  send_question_traced Hctx Hq.
  assert (∀ t : list event,
    (trace w ++ (if truthy (of_option (csrf_token w)) then [] else [Fetch GET_csrf_token]))
      ++ t =
    trace w ++ (if truthy (of_option (csrf_token w)) then [] else [Fetch GET_csrf_token])
      ++ t) as Hassoc by (intros; by rewrite <- app_assoc).
  rename Hcsrf into Hcookie.
  destruct (remote w _) as [|status body]; world_simpl;
    [eexists _, csrf, []; split; [reflexivity|]; world_simpl;
     rewrite Hassoc; split; [done|]; split; [done|by left]|].
  destruct (ok status);
    [|eexists _, csrf, []; split; [reflexivity|]; world_simpl;
      rewrite Hassoc; split; [done|]; split; [done|by left]].
  unfold json. unfold_monad. world_simpl.
  destruct body as [data|]; world_simpl;
    [|eexists _, csrf, []; split; [reflexivity|]; world_simpl;
      rewrite Hassoc; split; [done|]; split; [done|by left]].
  destruct data; unfold get_prop; unfold_monad; world_simpl;
    try (eexists _, csrf, []; split; [reflexivity|]; world_simpl;
         rewrite Hassoc; split; [done|]; split; [done|by left]).
  all: match goal with |- context [truthy ?s] =>
         destruct (truthy s);
         [|eexists _, csrf, []; split; [reflexivity|]; world_simpl;
           rewrite Hassoc; split; [done|]; split; [done|by left]] end.
  all: rewrite parse_chatSessions_parsed; world_simpl.
  all: destruct (parsed (chatSessions w)) as [saved|] eqn:Hp; world_simpl;
         [|eexists _, csrf, []; split; [reflexivity|]; world_simpl;
           rewrite Hassoc; split; [done|]; split; [done|by left]].
  all: destruct saved; unfold set_prop; unfold_monad; world_simpl;
         try (eexists _, csrf, []; split; [reflexivity|]; world_simpl;
              rewrite Hassoc; split; [done|]; split; [done|by left]).
  all: destruct (storage_full w) eqn:Hfull;
         [rewrite setItem_unwritable by reflexivity; world_simpl;
          eexists _, csrf, []; split; [reflexivity|]; world_simpl;
          rewrite Hassoc; split; [done|]; split; [done|by left]|].
  all: rewrite setItem_writable by reflexivity; world_simpl.
  all: match goal with |- context [updateSidebar ?a ?b ?c ?d ?w2] =>
         destruct (updateSidebar_returns a b c d w2) as [l ->] end.
  all: eexists _, csrf, [_]; split; [reflexivity|]; world_simpl.
  all: rewrite <- app_assoc, Hassoc; split; [done|]; split; [done|right; by eexists].
Qed.

Lemma sendQuestion_requests_witness :
  ∃ w' csrfToken events,
    sendQuestion asking_without_cookie = Returned tt w' ∧
    trace w' =
      trace asking_without_cookie ++ csrf_fetch asking_without_cookie ++
      [Fetch (POST_question (question_body asking_without_cookie paper_P1)
                (headers_of (token asking_without_cookie) csrfToken))] ++
      events ∧
    (truthy (of_option (csrf_token asking_without_cookie)) = true →
     csrfToken = of_option (csrf_token asking_without_cookie)) ∧
    (events = [] ∨ ∃ v, events = [SetItem "chatSessions" v]).
Proof.
  apply (sendQuestion_requests asking_without_cookie paper_P1); reflexivity.
Defined.

(** ** The conversation view during an exchange *)

Lemma remove_indicator_absent nodes :
  TypingIndicator ∉ nodes → remove_indicator nodes = nodes.
Proof.
  induction nodes as [|node nodes IH]; [done|].
  rewrite not_elem_of_cons. intros [Hne Hn]. simpl.
  destruct node; try done; by rewrite IH.
Qed.

Lemma remove_indicator_last nodes :
  TypingIndicator ∉ nodes → remove_indicator (nodes ++ [TypingIndicator]) = nodes.
Proof.
  induction nodes as [|node nodes IH]; [done|].
  rewrite not_elem_of_cons. intros [Hne Hn]. simpl.
  destruct node; try done; by rewrite IH.
Qed.

Lemma remove_typing nodes question :
  TypingIndicator ∉ nodes →
  remove_indicator ((nodes ++ [MessageBubble question true]) ++ [TypingIndicator]) =
  nodes ++ [MessageBubble question true].
Proof.
  intros Hn. apply remove_indicator_last.
  rewrite not_elem_of_app, not_elem_of_cons, elem_of_nil. naive_solver.
Qed.

Lemma remove_asked nodes question :
  TypingIndicator ∉ nodes →
  remove_indicator (nodes ++ [MessageBubble question true]) =
  nodes ++ [MessageBubble question true].
Proof.
  intros Hn. apply remove_indicator_absent.
  rewrite not_elem_of_app, not_elem_of_cons, elem_of_nil. naive_solver.
Qed.

Lemma remove_nothing nodes question answer :
  TypingIndicator ∉ nodes →
  remove_indicator
    ((nodes ++ [MessageBubble question true]) ++ [MessageBubble answer false]) =
  (nodes ++ [MessageBubble question true]) ++ [MessageBubble answer false].
Proof.
  intros Hn. apply remove_indicator_absent.
  rewrite !not_elem_of_app, !not_elem_of_cons, elem_of_nil. naive_solver.
Qed.

(** X17.  Every question gets a reply and the typing indicator goes away.
    When the conversation view shows no typing indicator, a call of
    [sendQuestion] with a context and a text that is not blank returns with
    the view extended by the bubble of the question and, after it, one or
    two bubbles that are not the user's (the answer, a failure message, or
    the answer and a failure message); there is no typing indicator left and
    the input is empty. *)
Theorem sendQuestion_replies w ctx :
  currentPaperContext w = Some ctx →
  String.eqb (trim (modalQuestionInput w)) "" = false →
  TypingIndicator ∉ chatContainer w →
  ∃ w' replies,
    sendQuestion w = Returned tt w' ∧
    chatContainer w' =
      chatContainer w ++
      MessageBubble (VStr (trim (modalQuestionInput w))) true :: replies ∧
    (length replies = 1%nat ∨ length replies = 2%nat) ∧
    Forall is_reply replies ∧
    (TypingIndicator ∉ chatContainer w') ∧
    modalQuestionInput w' = "".
Proof.
  intros Hctx Hq Hno.
  assert (∀ replies,
    Forall is_reply replies →
    TypingIndicator ∉
      chatContainer w ++
      MessageBubble (VStr (trim (modalQuestionInput w))) true :: replies) as Hgone.
  { intros replies Hr. rewrite not_elem_of_app, not_elem_of_cons.
    split; [done|]. split; [done|].
    intros Hin. rewrite Forall_forall in Hr. by destruct (Hr _ Hin). }
  send_question Hctx Hq.
  rewrite ?(remove_typing _ _ Hno).
  assert (∀ message, Forall is_reply [MessageBubble message false]) as H1
    by (intros; repeat constructor; by eexists).
  assert (∀ m1 m2, Forall is_reply [MessageBubble m1 false; MessageBubble m2 false])
    as H2 by (intros; repeat constructor; by eexists).
  destruct (remote w _) as [|status body]; world_simpl;
    rewrite ?(remove_typing _ _ Hno), ?(remove_nothing _ _ _ Hno), ?(remove_asked _ _ Hno);
    [eexists _, [_]; split; [reflexivity|]; world_simpl;
     rewrite <- ?app_assoc; split; [reflexivity|]; split; [by left|];
     split; [apply H1|]; split; [apply Hgone, H1|done]|].
  destruct (ok status);
    [|eexists _, [_]; split; [reflexivity|]; world_simpl;
      rewrite <- ?app_assoc; split; [reflexivity|]; split; [by left|];
      split; [apply H1|]; split; [apply Hgone, H1|done]].
  unfold json. unfold_monad. world_simpl.
  destruct body as [data|]; world_simpl;
    rewrite ?(remove_typing _ _ Hno), ?(remove_nothing _ _ _ Hno), ?(remove_asked _ _ Hno);
    [|eexists _, [_]; split; [reflexivity|]; world_simpl;
      rewrite <- ?app_assoc; split; [reflexivity|]; split; [by left|];
      split; [apply H1|]; split; [apply Hgone, H1|done]].
  destruct data; unfold get_prop; unfold_monad; world_simpl;
    rewrite ?(remove_typing _ _ Hno), ?(remove_nothing _ _ _ Hno), ?(remove_asked _ _ Hno);
    try (eexists _, [_]; split; [reflexivity|]; world_simpl;
         rewrite <- ?app_assoc; split; [reflexivity|]; split; [by left|];
         split; [apply H1|]; split; [apply Hgone, H1|done]).
  all: match goal with |- context [truthy (own_prop ?d "session_id")] =>
         destruct (truthy (own_prop d "session_id"));
         [|eexists _, [_]; split; [reflexivity|]; world_simpl;
           rewrite <- ?app_assoc; split; [reflexivity|]; split; [by left|];
           split; [apply H1|]; split; [apply Hgone, H1|done]] end.
  all: rewrite parse_chatSessions_parsed; world_simpl.
  all: destruct (parsed (chatSessions w)) as [saved|] eqn:Hp; world_simpl;
         rewrite ?(remove_nothing _ _ _ Hno), ?(remove_asked _ _ Hno);
         [|eexists _, [_; _]; split; [reflexivity|]; world_simpl;
           rewrite <- ?app_assoc; split; [reflexivity|]; split; [by right|];
           split; [apply H2|]; split; [apply Hgone, H2|done]].
  all: destruct saved; unfold set_prop; unfold_monad; world_simpl;
         rewrite ?(remove_nothing _ _ _ Hno), ?(remove_asked _ _ Hno);
         try (eexists _, [_; _]; split; [reflexivity|]; world_simpl;
              rewrite <- ?app_assoc; split; [reflexivity|]; split; [by right|];
              split; [apply H2|]; split; [apply Hgone, H2|done]).
  all: destruct (storage_full w) eqn:Hfull;
         [rewrite setItem_unwritable by reflexivity; world_simpl;
          rewrite ?(remove_nothing _ _ _ Hno), ?(remove_asked _ _ Hno);
          eexists _, [_; _]; split; [reflexivity|]; world_simpl;
          rewrite <- ?app_assoc; split; [reflexivity|]; split; [by right|];
          split; [apply H2|]; split; [apply Hgone, H2|done]|].
  all: rewrite setItem_writable by reflexivity; world_simpl.
  all: match goal with |- context [updateSidebar ?a ?b ?c ?d ?w2] =>
         destruct (updateSidebar_returns a b c d w2) as [l ->] end.
  all: eexists _, [_]; split; [reflexivity|]; world_simpl.
  all: rewrite <- ?app_assoc; split; [reflexivity|]; split; [by left|].
  all: split; [apply H1|]; split; [apply Hgone, H1|done].
Qed.

Lemma sendQuestion_replies_witness :
  ∃ w' replies,
    sendQuestion asking_without_cookie = Returned tt w' ∧
    chatContainer w' =
      chatContainer asking_without_cookie ++
      MessageBubble (VStr (trim (modalQuestionInput asking_without_cookie))) true ::
      replies ∧
    (length replies = 1%nat ∨ length replies = 2%nat) ∧
    Forall is_reply replies ∧
    (TypingIndicator ∉ chatContainer w') ∧
    modalQuestionInput w' = "".
Proof.
  apply (sendQuestion_replies asking_without_cookie paper_P1);
    [reflexivity|reflexivity|].
  intros Hin%list_elem_of_singleton. discriminate Hin.
Defined.

(** ** The history of a resumed conversation *)

Lemma forEach_list_history messages w :
  forEach_list messages addHistoryMessage w =
  (if all_readable messages then Returned tt else Thrown TypeError)
    (set_chatContainer
       (chatContainer w ++ (history_bubble <$> readable_prefix messages)) w).
Proof.
  revert w. induction messages as [|msg rest IH]; intros w.
  - simpl. rewrite app_nil_r. by destruct w.
  - simpl. unfold_monad. unfold addHistoryMessage at 1. unfold_monad.
    destruct msg; unfold get_prop, addMessageToChat; unfold_monad;
      cbn [nullish all_readable forallb negb andb];
      try (simpl; rewrite app_nil_r; by destruct w).
    all: rewrite IH; world_simpl.
    all: rewrite <- app_assoc; cbn [fmap list_fmap app].
    all: fold (all_readable rest); by destruct (all_readable rest).
Qed.

(** X18.  A resumed conversation shows its history in order.  When the
    server answers the request for a session with a success status and a
    record whose [messages] is an array, [loadChatHistory] returns with the
    view extended by the line that names the paper and, after it, one
    bubble for each message in the order of the array, up to the first
    message that is [null] or [undefined]; when no message is, nothing is
    written to the console. *)
Theorem loadChatHistory_history w sessionId status data messages :
  remote w (verify_request w sessionId) = Response status (Some data) →
  ok status = true →
  own_prop data "messages" = VArr messages →
  ∃ w',
    loadChatHistory sessionId w = Returned tt w' ∧
    chatContainer w' =
      chatContainer w ++
      ContinueMessage (own_prop data "paper_title") ::
      (history_bubble <$> readable_prefix messages) ∧
    (all_readable messages = true → console_error w' = console_error w).
Proof.
  intros Hr Hok Hm.
  unfold loadChatHistory, headers_with, getToken, fetch, json.
  unfold_monad. world_simpl. fold (verify_request w sessionId).
  rewrite Hr. world_simpl. rewrite Hok. world_simpl.
  destruct data; try discriminate Hm.
  unfold get_prop. unfold_monad. world_simpl.
  rewrite Hm. unfold forEach. rewrite forEach_list_history. world_simpl.
  rewrite <- app_assoc. cbn [app].
  destruct (all_readable messages); world_simpl.
  - eexists. split; [reflexivity|]. world_simpl. done.
  - eexists. split; [reflexivity|]. world_simpl. done.
Qed.

Lemma loadChatHistory_history_witness :
  ∃ w',
    loadChatHistory (VStr "S1") (fresh_page history_server) = Returned tt w' ∧
    chatContainer w' =
      chatContainer (fresh_page history_server) ++
      ContinueMessage
        (own_prop (object [("paper_title", VStr "Paper one");
                           ("messages", VArr two_messages)]) "paper_title") ::
      (history_bubble <$> readable_prefix two_messages) ∧
    (all_readable two_messages = true →
     console_error w' = console_error (fresh_page history_server)).
Proof.
  apply (loadChatHistory_history (fresh_page history_server) (VStr "S1") 200
           (object [("paper_title", VStr "Paper one");
                    ("messages", VArr two_messages)]) two_messages);
    reflexivity.
Defined.

(** ** A conversation keeps its session *)

Lemma sendQuestion_context w ctx props :
  currentPaperContext w = Some ctx →
  String.eqb (trim (modalQuestionInput w)) "" = false →
  exchange_answers w (VObj props) →
  truthy (own_prop (VObj props) "session_id") = true →
  ∃ w',
    sendQuestion w = Returned tt w' ∧
    currentPaperContext w' =
      Some (with_session ctx (own_prop (VObj props) "session_id")).
Proof.
  intros Hctx Hq Hans Hsid.
  send_question Hctx Hq.
  match goal with |- context [remote w (POST_question ?b ?h)] =>
    destruct (Hans b h) as (status & -> & Hok) end.
  world_simpl. rewrite Hok.
  unfold json, get_prop. unfold_monad. world_simpl. rewrite Hsid.
  rewrite parse_chatSessions_parsed. world_simpl.
  destruct (parsed (chatSessions w)) as [saved|]; world_simpl;
    [|eexists; split; reflexivity].
  destruct saved; unfold set_prop; unfold_monad; world_simpl;
    try (eexists; split; reflexivity).
  all: destruct (storage_full w) eqn:Hfull;
         [rewrite setItem_unwritable by reflexivity; world_simpl;
          eexists; split; reflexivity|].
  all: rewrite setItem_writable by reflexivity; world_simpl.
  all: match goal with |- context [updateSidebar ?a ?b ?c ?d ?w2] =>
         destruct (updateSidebar_returns a b c d w2) as [l ->] end.
  all: eexists; split; reflexivity.
Qed.

(** X19.  A conversation keeps its session.  After an exchange that the
    server answered with a session id, the next question that is typed and
    sent is posted for the same paper with that session id, whether or not
    the index could be read or written in between. *)
Theorem session_continues w ctx props next :
  currentPaperContext w = Some ctx →
  String.eqb (trim (modalQuestionInput w)) "" = false →
  exchange_answers w (VObj props) →
  truthy (own_prop (VObj props) "session_id") = true →
  String.eqb (trim next) "" = false →
  ∃ w1 w2 body headers events,
    sendQuestion w = Returned tt w1 ∧
    sendQuestion (typing next w1) = Returned tt w2 ∧
    trace w2 =
      trace w1 ++ csrf_fetch w1 ++ [Fetch (POST_question body headers)] ++ events ∧
    question body = trim next ∧
    paper_id body = id ctx ∧
    session_id body = own_prop (VObj props) "session_id".
Proof.
  intros Hctx Hq Hans Hsid Hnext.
  destruct (sendQuestion_context w ctx props Hctx Hq Hans Hsid) as (w1 & Hrun & Hctx1).
  destruct (sendQuestion_posts (typing next w1)
              (with_session ctx (own_prop (VObj props) "session_id")))
    as (w2 & headers & events & Hrun2 & Htrace).
  { destruct w1. exact Hctx1. }
  { destruct w1. exact Hnext. }
  eexists w1, w2, _, _, events. split; [exact Hrun|]. split; [exact Hrun2|].
  split; [destruct w1; exact Htrace|].
  split; [by destruct w1|]. split; [done|].
  cbn [question_body session_id with_session chat_session_id].
  unfold or_else. by rewrite Hsid.
Qed.

Lemma session_continues_witness :
  ∃ w1 w2 body headers events,
    sendQuestion (asking "Why?" (server_S1 true)) = Returned tt w1 ∧
    sendQuestion (typing "And how?" w1) = Returned tt w2 ∧
    trace w2 =
      trace w1 ++ csrf_fetch w1 ++ [Fetch (POST_question body headers)] ++ events ∧
    question body = trim "And how?" ∧
    paper_id body = id paper_P1 ∧
    session_id body = VStr "S1".
Proof.
  exact (session_continues (asking "Why?" (server_S1 true)) paper_P1 _ "And how?"
           eq_refl eq_refl
           (λ _ _, ex_intro _ 200%nat (conj eq_refl eq_refl))
           eq_refl eq_refl).
Defined.

(** ** The index remembers the session of an exchange *)

(** X20.  The index remembers the session of an exchange.  After an
    exchange that the server answered with a session id and that was
    written to a readable index, opening the conversation view of the same
    paper builds a context that carries that session id; opening the view of
    another paper builds the context the index gave before the exchange. *)
Theorem exchange_then_open w ctx props m paper paperId paperTitle :
  currentPaperContext w = Some ctx →
  String.eqb (trim (modalQuestionInput w)) "" = false →
  exchange_answers w (VObj props) →
  truthy (own_prop (VObj props) "session_id") = true →
  index_of w = Some m →
  storage_full w = false →
  ∃ w1 w2,
    sendQuestion w = Returned tt w1 ∧
    initChatModal paper paperId paperTitle w1 = Returned tt w2 ∧
    window_currentPaperContext w2 =
      Some (new_context paper paperId paperTitle
              (if decide (paperId = id ctx)
               then own_prop (VObj props) "session_id"
               else cached m paperId)).
Proof.
  intros Hctx Hq Hans Hsid Hi Hfull.
  destruct (sendQuestion_stored w ctx props m Hctx Hq Hans Hsid Hi Hfull)
    as (nodes & errors & events & l & _ & Hrun).
  cbv zeta in Hrun.
  match type of Hrun with _ = Returned tt ?w1 =>
    destruct (initChatModal_opens paper paperId paperTitle w1
                (<[id ctx := exchange_record ctx (own_prop (VObj props) "session_id")
                               (now w)]> m) eq_refl)
      as (nodes2 & errors2 & events2 & Hopen & _)
  end.
  eexists _, _. split; [exact Hrun|]. split; [exact Hopen|].
  cbn [window_currentPaperContext after_open]. do 2 f_equal.
  destruct (decide (paperId = id ctx)) as [->|Hne].
  - by apply cached_exchange_record.
  - by apply cached_other.
Qed.

Lemma exchange_then_open_witness :
  ∃ w1 w2,
    sendQuestion (asking "Why?" (server_S1 true)) = Returned tt w1 ∧
    initChatModal search_result "P1" "Paper one" w1 = Returned tt w2 ∧
    window_currentPaperContext w2 =
      Some (new_context search_result "P1" "Paper one"
              (if decide ("P1" = id paper_P1)
               then own_prop (answer_S1 true) "session_id"
               else cached ∅ "P1")).
Proof.
  exact (exchange_then_open (asking "Why?" (server_S1 true)) paper_P1 _ ∅
           search_result "P1" "Paper one"
           eq_refl eq_refl
           (λ _ _, ex_intro _ 200%nat (conj eq_refl eq_refl))
           eq_refl eq_refl eq_refl).
Defined.

(** ** Opening the view and asking *)

(** X21.  Opening the conversation view does not give [sendQuestion] a
    paper.  [initChatModal] assigns the new context to the property of
    [window] and leaves the binding of line 25, which [sendQuestion] reads,
    as it was; on a page where that binding is still [null], a text typed
    into the opened view and sent is dropped: no bubble, no request, and the
    text stays in the input. *)
Theorem open_then_ask paper paperId paperTitle w m input :
  index_of w = Some m →
  ∃ w1,
    initChatModal paper paperId paperTitle w = Returned tt w1 ∧
    currentPaperContext w1 = currentPaperContext w ∧
    (currentPaperContext w = None →
     sendQuestion (typing input w1) = Returned tt (typing input w1)).
Proof.
  intros Hi.
  destruct (initChatModal_opens paper paperId paperTitle w m Hi)
    as (nodes & errors & events & Hopen & _).
  eexists. split; [exact Hopen|]. split; [reflexivity|].
  intros Hnone. unfold sendQuestion. unfold_monad.
  cbn [typing set_modalQuestionInput after_open currentPaperContext].
  by rewrite Hnone.
Qed.

Lemma open_then_ask_witness :
  ∃ w1,
    initChatModal search_result "P1" "Paper one" (fresh_page no_server) =
      Returned tt w1 ∧
    currentPaperContext w1 = currentPaperContext (fresh_page no_server) ∧
    (currentPaperContext (fresh_page no_server) = None →
     sendQuestion (typing "Why?" w1) = Returned tt (typing "Why?" w1)).
Proof.
  exact (open_then_ask search_result "P1" "Paper one" (fresh_page no_server) ∅
           "Why?" eq_refl).
Defined.

(** * Cookies *)

Lemma occurs_app c (a b : string) :
  occurs c (a +:+ b) = occurs c a || occurs c b.
Proof.
  induction a as [|x a IH]; [done|].
  rewrite string_app_cons. cbn [occurs]. rewrite IH. by rewrite orb_assoc.
Qed.

Lemma startsWith_app (p rest : string) : startsWith (p +:+ rest) p = true.
Proof.
  induction p as [|x p IH]; [by rewrite startsWith_empty|].
  rewrite string_app_cons. cbn [startsWith]. by rewrite Ascii.eqb_refl, IH.
Qed.

Lemma startsWith_name (k name rest : string) :
  occurs "=" k = false → occurs "=" name = false →
  startsWith (k +:+ String "=" rest) (name +:+ "=") = String.eqb k name.
Proof.
  revert name. induction k as [|x k IH]; intros [|y name] Hk Hn.
  - change (startsWith (String "=" rest) "=" = true). cbn [startsWith].
    by rewrite startsWith_empty.
  - change ("" +:+ String "=" rest) with (String "=" rest).
    rewrite string_app_cons. cbn [startsWith String.eqb].
    cbn [occurs] in Hn. apply orb_false_elim in Hn as [Hy _].
    by rewrite Hy.
  - rewrite string_app_cons. change ("" +:+ "=") with "=".
    cbn [startsWith String.eqb].
    cbn [occurs] in Hk. apply orb_false_elim in Hk as [Hx _].
    rewrite Ascii.eqb_sym. by rewrite Hx.
  - rewrite !string_app_cons. cbn [startsWith String.eqb].
    cbn [occurs] in Hk, Hn.
    apply orb_false_elim in Hk as [_ Hk]. apply orb_false_elim in Hn as [_ Hn].
    rewrite IH by done. rewrite (Ascii.eqb_sym y x).
    destruct (Ascii.eqb x y); done.
Qed.

Lemma split_skip separator (t part rest : string) :
  split_from separator (String.length t) part (t +:+ rest) =
  split_from separator 0 part rest.
Proof.
  induction t as [|x t IH]; [done|].
  rewrite string_app_cons. cbn [String.length split_from]. exact IH.
Qed.

Lemma split_plain separator (t part rest : string) :
  occurs ";" t = false →
  split_from (String ";" separator) 0 part (t +:+ rest) =
  split_from (String ";" separator) 0 (part +:+ t) rest.
Proof.
  revert part. induction t as [|x t IH]; intros part Ht.
  - by rewrite string_app_empty.
  - cbn [occurs] in Ht. apply orb_false_elim in Ht as [Hx Ht].
    rewrite string_app_cons. cbn [split_from startsWith].
    rewrite Ascii.eqb_sym, Hx. cbn [andb].
    rewrite IH by done. by rewrite string_app_assoc.
Qed.

Lemma split_from_step separator part c (s : string) :
  startsWith (String c s) separator = false →
  split_from separator 0 part (String c s) =
  split_from separator 0 (part +:+ String c "") s.
Proof. intros H. cbn [split_from]. by rewrite H. Qed.

Lemma split_from_match separator part c (s : string) :
  startsWith (String c s) separator = true →
  split_from separator 0 part (String c s) =
  part :: split_from separator (String.length separator - 1) "" s.
Proof. intros H. cbn [split_from]. by rewrite H. Qed.

Lemma string_length_app (a b : string) :
  String.length (a +:+ b) = (String.length a + String.length b)%nat.
Proof.
  induction a as [|x a IH]; [done|].
  rewrite string_app_cons. cbn [String.length]. by rewrite IH.
Qed.

Lemma well_formed_cons k v jar :
  well_formed ((k, v) :: jar) = true →
  occurs ";" k = false ∧ occurs "=" k = false ∧ occurs ";" v = false ∧
  well_formed jar = true.
Proof.
  unfold well_formed. cbn [forallb fst snd].
  rewrite !andb_true_iff, !negb_true_iff. tauto.
Qed.

Section cookies.
Variable name : string.
Hypothesis name_clean : occurs "=" name = false.


Lemma startsWith_cookie (k rest : string) :
  occurs "=" k = false →
  startsWith ("; " +:+ k +:+ String "=" rest) (cookie_separator name) = String.eqb k name.
Proof.
  intros Hk. unfold cookie_separator.
  change ("; " +:+ k +:+ String "=" rest)
    with (String ";" (String " " (k +:+ String "=" rest))).
  change ("; " +:+ name +:+ "=") with (String ";" (String " " (name +:+ "="))).
  cbn [startsWith]. rewrite !Ascii.eqb_refl. cbn [andb].
  by apply startsWith_name.
Qed.

Lemma split_other_cookie (k v part rest : string) :
  occurs ";" k = false → occurs "=" k = false → occurs ";" v = false →
  k ≠ name →
  split_from (cookie_separator name) 0 part ("; " +:+ k +:+ "=" +:+ v +:+ rest) =
  split_from (cookie_separator name) 0 (part +:+ "; " +:+ k +:+ "=" +:+ v) rest.
Proof.
  intros Hk1 Hk2 Hv Hne.
  change ("; " +:+ k +:+ "=" +:+ v +:+ rest)
    with (String ";" (String " " (k +:+ String "=" (v +:+ rest)))).
  rewrite split_from_step.
  2:{ change (String ";" (String " " (k +:+ String "=" (v +:+ rest))))
        with ("; " +:+ k +:+ String "=" (v +:+ rest)).
      rewrite startsWith_cookie by done. by apply String.eqb_neq. }
  replace (String " " (k +:+ String "=" (v +:+ rest)))
    with ((" " +:+ k +:+ "=" +:+ v) +:+ rest).
  2:{ rewrite !string_app_assoc. reflexivity. }
  unfold cookie_separator.
  change ("; " +:+ name +:+ "=") with (String ";" (" " +:+ name +:+ "=")).
  rewrite split_plain.
  2:{ rewrite !occurs_app, Hk1, Hv. reflexivity. }
  f_equal. rewrite !string_app_assoc. reflexivity.
Qed.

Lemma split_this_cookie (v part rest : string) :
  split_from (cookie_separator name) 0 part ("; " +:+ name +:+ "=" +:+ v +:+ rest) =
  part :: split_from (cookie_separator name) 0 "" (v +:+ rest).
Proof.
  change ("; " +:+ name +:+ "=" +:+ v +:+ rest)
    with (String ";" (String " " (name +:+ String "=" (v +:+ rest)))).
  rewrite split_from_match.
  2:{ change (String ";" (String " " (name +:+ String "=" (v +:+ rest))))
        with ("; " +:+ name +:+ String "=" (v +:+ rest)).
      rewrite startsWith_cookie by done. apply String.eqb_refl. }
  f_equal.
  replace (String " " (name +:+ String "=" (v +:+ rest)))
    with ((" " +:+ name +:+ "=") +:+ (v +:+ rest)).
  2:{ rewrite !string_app_assoc. reflexivity. }
  replace (String.length (cookie_separator name) - 1)%nat with (String.length (" " +:+ name +:+ "=")).
  2:{ unfold cookie_separator.
      change ("; " +:+ name +:+ "=") with (String ";" (" " +:+ name +:+ "=")).
      cbn [String.length]. lia. }
  apply split_skip.
Qed.

Lemma split_none jar part :
  well_formed jar = true →
  cookies_named name jar = [] →
  split_from (cookie_separator name) 0 part (cookie_tail jar) = [part +:+ cookie_tail jar].
Proof.
  revert part. induction jar as [|[k v] jar IH]; intros part Hwf Hnone.
  - by rewrite string_app_empty.
  - apply well_formed_cons in Hwf as (Hk1 & Hk2 & Hv & Hwf).
    unfold cookies_named in Hnone. rewrite filter_cons in Hnone.
    cbn [fst] in Hnone. destruct (decide (k = name)) as [->|Hne]; [done|].
    cbn [cookie_tail]. rewrite split_other_cookie by done.
    rewrite IH by done. f_equal. rewrite !string_app_assoc. reflexivity.
Qed.

Lemma split_count jar part :
  well_formed jar = true →
  length (split_from (cookie_separator name) 0 part (cookie_tail jar)) =
  S (length (cookies_named name jar)).
Proof.
  revert part. induction jar as [|[k v] jar IH]; intros part Hwf; [done|].
  apply well_formed_cons in Hwf as (Hk1 & Hk2 & Hv & Hwf).
  unfold cookies_named. rewrite filter_cons. cbn [fst].
  cbn [cookie_tail]. destruct (decide (k = name)) as [->|Hne].
  - rewrite split_this_cookie. cbn [length fmap list_fmap].
    f_equal.
    unfold cookie_separator.
    change ("; " +:+ name +:+ "=") with (String ";" (" " +:+ name +:+ "=")).
    rewrite split_plain by done. apply IH. done.
  - rewrite split_other_cookie by done. by apply IH.
Qed.

Lemma split_one jar part v :
  well_formed jar = true →
  cookies_named name jar = [v] →
  ∃ p tail,
    split_from (cookie_separator name) 0 part (cookie_tail jar) = [p; v +:+ tail] ∧
    (tail = "" ∨ ∃ t, tail = String ";" t).
Proof.
  revert part. induction jar as [|[k v'] jar IH]; intros part Hwf Hone; [done|].
  apply well_formed_cons in Hwf as (Hk1 & Hk2 & Hv & Hwf).
  unfold cookies_named in Hone. rewrite filter_cons in Hone. cbn [fst] in Hone.
  cbn [cookie_tail]. destruct (decide (k = name)) as [->|Hne].
  - rewrite split_this_cookie. cbn [fmap list_fmap snd] in Hone.
    injection Hone as -> Hnone.
    unfold cookie_separator.
    change ("; " +:+ name +:+ "=") with (String ";" (" " +:+ name +:+ "=")).
    rewrite split_plain by done.
    change (String ";" (" " +:+ name +:+ "=")) with (cookie_separator name).
    rewrite split_none by done.
    exists part, (cookie_tail jar). split; [done|].
    destruct jar as [|[k2 v2] jar]; [by left|right].
    cbn [cookie_tail]. by eexists.
  - rewrite split_other_cookie by done. by apply IH.
Qed.

Lemma cookies_named_clean jar v :
  well_formed jar = true → v ∈ cookies_named name jar → occurs ";" v = false.
Proof.
  induction jar as [|[k v'] jar IH]; intros Hwf Hin.
  - by apply elem_of_nil in Hin.
  - apply well_formed_cons in Hwf as (Hk1 & Hk2 & Hv & Hwf).
    unfold cookies_named in Hin. rewrite filter_cons in Hin. cbn [fst] in Hin.
    destruct (decide (k = name)); [|by apply IH].
    cbn [fmap list_fmap snd] in Hin. apply elem_of_cons in Hin as [->|Hin];
      [done|by apply IH].
Qed.

End cookies.

Lemma split_semicolon (v tail : string) :
  occurs ";" v = false →
  tail = "" ∨ (∃ t, tail = String ";" t) →
  ∃ more, str_split (v +:+ tail) ";" = v :: more.
Proof.
  intros Hv Htail. unfold str_split. rewrite split_plain by done.
  change ("" +:+ v) with v.
  destruct Htail as [->|[t ->]]; [by exists []|].
  rewrite split_from_match by (cbn [startsWith]; by rewrite startsWith_empty).
  by eexists.
Qed.

Lemma split_no_cookie name :
  str_split "; " (cookie_separator name) = ["; "].
Proof.
  unfold str_split, cookie_separator.
  change ("; " +:+ name +:+ "=") with (String ";" (String " " (name +:+ "="))).
  rewrite split_from_step.
  2:{ cbn [startsWith]. rewrite !Ascii.eqb_refl. by destruct name. }
  rewrite split_from_step by done. reflexivity.
Qed.

(** X22.  [getCookie] finds a cookie exactly when the page has one cookie of
    that name.  For a name without [=] and the text that [document.cookie]
    gives for cookies whose names have no [;] and no [=] and whose values
    have no [;], [getCookie] returns the value of the cookie of that name
    when there is exactly one, whatever else the value contains, and [null]
    when there is none and when there are several. *)
Theorem getCookie_finds jar name :
  well_formed jar = true →
  occurs "=" name = false →
  getCookie (cookie_text jar) name =
  match cookies_named name jar with
  | [value] => VStr value
  | _ => VNull
  end.
Proof.
  intros Hwf Hname. unfold getCookie.
  change ("; " +:+ name +:+ "=") with (cookie_separator name).
  destruct jar as [|[k v] jar].
  { change ("; " +:+ cookie_text []) with "; ". by rewrite split_no_cookie. }
  replace ("; " +:+ cookie_text ((k, v) :: jar)) with (cookie_tail ((k, v) :: jar))
    by reflexivity.
  change (str_split (cookie_tail ((k, v) :: jar)) (cookie_separator name))
    with (split_from (cookie_separator name) 0 "" (cookie_tail ((k, v) :: jar))).
  pose proof (split_count name Hname _ "" Hwf) as Hcount.
  destruct (cookies_named name ((k, v) :: jar)) as [|value [|value2 more]] eqn:Hn.
  - rewrite split_none by done. reflexivity.
  - destruct (split_one name Hname _ "" value Hwf Hn) as (p & tail & -> & Htail).
    cbn [length Nat.eqb last].
    destruct (split_semicolon value tail) as [more ->]; [|done|done].
    apply (cookies_named_clean name _ _ Hwf). rewrite Hn. apply list_elem_of_singleton. reflexivity.
  - cbn [length] in Hcount.
    destruct (split_from _ _ _ _) as [|p1 [|p2 [|p3 ps]]]; try done.
Qed.

Lemma getCookie_finds_witness :
  getCookie (cookie_text three_cookies) "csrf_token" =
  match cookies_named "csrf_token" three_cookies with
  | [value] => VStr value
  | _ => VNull
  end.
Proof.
  apply (getCookie_finds three_cookies "csrf_token"); reflexivity.
Defined.
